(** * atpy/hdf5table.py: reading and writing tables in HDF5 containers

    A shallow embedding of [atpy/hdf5table.py] together with a model of the
    part of the h5py / os interface the module calls.  The module's
    functions are stateful and may raise; they are embedded in a state
    monad with exceptions that also records the file-level calls made
    (existence test, removal, open, close) and the objects created. *)

From Stdlib Require Import Strings.String Strings.Ascii Numbers.DecimalString
  Numbers.DecimalNat.
From stdpp Require Import base option list strings gmap fin_maps.

Local Open Scope string_scope.
Set Warnings "-register-all".

(** ** Python strings *)

Module PyStr.

(** [bool(s)] for a string: non-empty. *)
Definition truthy (s : string) : bool :=
  match s with EmptyString => false | String _ _ => true end.

(** [s.split('/')] *)
Fixpoint split (s : string) : list string :=
  match s with
  | EmptyString => [EmptyString]
  | String c rest =>
      if Ascii.eqb c "/" then EmptyString :: split rest
      else match split rest with
           | [] => [String c EmptyString]
           | w :: ws => String c w :: ws
           end
  end.

(** ['/'.join(l)] *)
Definition join (l : list string) : string := String.concat "/" l.

(** ['/' in s] *)
Fixpoint has_slash (s : string) : bool :=
  match s with
  | EmptyString => false
  | String c rest => Ascii.eqb c "/" || has_slash rest
  end.

(** [s[:i]] and [s[i:]] *)
Fixpoint take (i : nat) (s : string) : string :=
  match i, s with
  | S k, String c rest => String c (take k rest)
  | _, _ => EmptyString
  end.

Fixpoint drop (i : nat) (s : string) : string :=
  match i, s with
  | S k, String _ rest => drop k rest
  | _, _ => s
  end.

(** [s.rfind('/') + 1]: the index just after the last slash, 0 without one. *)
Fixpoint rfind_slash_succ (s : string) : nat :=
  match s with
  | EmptyString => 0
  | String c rest =>
      match rfind_slash_succ rest with
      | 0 => if Ascii.eqb c "/" then 1 else 0
      | S k => S (S k)
      end
  end.

(** [s == '/' * len(s)] *)
Fixpoint all_slashes (s : string) : bool :=
  match s with
  | EmptyString => true
  | String c rest => Ascii.eqb c "/" && all_slashes rest
  end.

(** [s.rstrip('/')] *)
Fixpoint rstrip_slash (s : string) : string :=
  match s with
  | EmptyString => EmptyString
  | String c rest =>
      match rstrip_slash rest with
      | EmptyString => if Ascii.eqb c "/" then EmptyString else String c EmptyString
      | r => String c r
      end
  end.

(** [posixpath.basename] *)
Definition basename (p : string) : string := drop (rfind_slash_succ p) p.

(** [posixpath.dirname] *)
Definition dirname (p : string) : string :=
  let head := take (rfind_slash_succ p) p in
  if truthy head && negb (all_slashes head) then rstrip_slash head else head.

(** ["%02i" % i] *)
Definition fmt_02i (i : nat) : string :=
  let s := NilEmpty.string_of_uint (Nat.to_uint i) in
  if Nat.ltb (String.length s) 2 then "0" ++ s else s.

End PyStr.

(** ** Data model *)

(** Scalars stored in columns and in keyword/attribute mappings. *)
Inductive value :=
| VInt (z : Z)
| VStr (s : string)
| VBool (b : bool).

#[global] Instance value_eq_dec : EqDecision value.
Proof. solve_decision. Defined.

(** A numpy structured array: [len(a)] rows and one column per named field,
    in dtype order. *)
Record recarray := RecArray {
  nrows : nat;
  fields : list (string * list value)
}.

(** The contents of a dataset: a structured array, or a plain array whose
    dtype has no field names. *)
Inductive ndarray :=
| Plain (elems : list value)
| Structured (r : recarray).

(** [a.dtype.names]: [None] for a plain array. *)
Definition dtype_names (a : ndarray) : option (list string) :=
  match a with
  | Plain _ => None
  | Structured r => Some (fields r).*1
  end.

(** [len(a)] *)
Definition array_len (a : ndarray) : nat :=
  match a with
  | Plain elems => length elems
  | Structured r => nrows r
  end.

(** Truth value of [dtype.names]: [None] and the empty tuple are false. *)
Definition names_truthy (names : option (list string)) : bool :=
  match names with
  | Some (_ :: _) => true
  | _ => false
  end.

(** First field called [name]. *)
Fixpoint lookup_field (name : string) (fs : list (string * list value))
  : option (list value) :=
  match fs with
  | [] => None
  | (k, col) :: rest =>
      if decide (k = name) then Some col else lookup_field name rest
  end.

Fixpoint set_field (name : string) (col : list value)
    (fs : list (string * list value)) : list (string * list value) :=
  match fs with
  | [] => []
  | (k, old) :: rest =>
      if decide (k = name) then (k, col) :: rest
      else (k, old) :: set_field name col rest
  end.

(** [a[name][:] = col]: the field must exist and the lengths must agree. *)
Definition assign_column (name : string) (col : list value) (r : recarray)
  : option recarray :=
  match lookup_field name (fields r) with
  | Some old =>
      if decide (length old = length col)
      then Some (RecArray (nrows r) (set_field name col (fields r)))
      else None
  | None => None
  end.

(** The container tree.  A group maps member names to nodes (members are
    kept in creation order, a name is looked up at its first occurrence);
    every node carries an attribute mapping. *)
Inductive node :=
| Group (attrs : gmap string value) (members : list (string * node))
| Dataset (attrs : gmap string value) (data : ndarray).

Definition node_attrs (n : node) : gmap string value :=
  match n with Group a _ => a | Dataset a _ => a end.

Fixpoint lookup_member (name : string) (ms : list (string * node))
  : option node :=
  match ms with
  | [] => None
  | (k, c) :: rest =>
      if decide (k = name) then Some c else lookup_member name rest
  end.

(** Follow a list of member names down from [n]. *)
Fixpoint resolve (n : node) (segs : list string) : option node :=
  match segs with
  | [] => Some n
  | s :: rest =>
      match n with
      | Group _ ms =>
          match lookup_member s ms with
          | Some c => resolve c rest
          | None => None
          end
      | Dataset _ _ => None
      end
  end.

Fixpoint alter_member (name : string) (f : node → node)
    (ms : list (string * node)) : list (string * node) :=
  match ms with
  | [] => []
  | (k, c) :: rest =>
      if decide (k = name) then (k, f c) :: rest
      else (k, c) :: alter_member name f rest
  end.

(** Apply [f] to the node reached by [segs]; nothing changes when the path
    does not resolve. *)
Fixpoint alter_at (segs : list string) (f : node → node) (n : node) : node :=
  match segs with
  | [] => f n
  | s :: rest =>
      match n with
      | Group a ms => Group a (alter_member s (alter_at rest f) ms)
      | Dataset _ _ => n
      end
  end.

Definition add_member (name : string) (new : node) (n : node) : node :=
  match n with
  | Group a ms => Group a (ms ++ [(name, new)])
  | Dataset _ _ => n
  end.

Definition set_attr (key : string) (v : value) (n : node) : node :=
  match n with
  | Group a ms => Group (<[key := v]> a) ms
  | Dataset a d => Dataset (<[key := v]> a) d
  end.

(** Paths of all descendants, depth first, each group before its members. *)
Fixpoint descendants (n : node) : list (list string) :=
  match n with
  | Group _ ms =>
      (fix go (ms : list (string * node)) : list (list string) :=
         match ms with
         | [] => []
         | (k, c) :: rest => [k] :: map (cons k) (descendants c) ++ go rest
         end) ms
  | Dataset _ _ => []
  end.

(** The in-memory table model of the package. *)
Module Table.

Record t := Mk {
  table_name : string;
  data : recarray;
  keywords : gmap string value
}.

(** Modelled from the spec: [atpy.Table()] is defined outside this module;
    a fresh table has no name, no columns and no keywords. *)
Definition new : t := Mk "" (RecArray 0 []) ∅.

(** Modelled from the spec: [Table.reset] is defined outside this module;
    it clears prior state, dropping the columns and the keywords. *)
Definition reset (self : t) : t := Mk (table_name self) (RecArray 0 []) ∅.

(** Modelled from the spec: [Table._setup_table] is defined outside this
    module; it sizes storage for [n] rows given a named field layout. *)
Definition _setup_table (n : nat) (dtype : option (list string)) (self : t) : t :=
  Mk (table_name self)
     (RecArray n (map (λ name, (name, replicate n (VInt 0))) (default [] dtype)))
     (keywords self).

Definition set_table_name (name : string) (self : t) : t :=
  Mk name (data self) (keywords self).

Definition set_data (d : recarray) (self : t) : t :=
  Mk (table_name self) d (keywords self).

End Table.

Module TableSet.

Record t := Mk {
  tables : list Table.t;
  keywords : gmap string value
}.

(** Modelled from the spec: [TableSet.reset] is defined outside this
    module; it clears prior state. *)
Definition reset (self : t) : t := Mk [] ∅.

(** Modelled from the spec: [TableSet.append] is defined outside this
    module; it adds a table at the end of the ordered collection. *)
Definition append (tbl : Table.t) (self : t) : t :=
  Mk (tables self ++ [tbl]) (keywords self).

Definition set_keyword (key : string) (v : value) (self : t) : t :=
  Mk (tables self) (<[key := v]> (keywords self)).

End TableSet.

(** ** Effects: world, exceptions and the trace of file-level calls *)

(** An h5py object ([File], [Group] or [Dataset]) is a reference into an
    open file: the file it belongs to and the member names leading to it
    from the file's root group. *)
Record handle := Handle {
  h_file : string;
  h_path : list string
}.

(** What a function is given as its [filename] argument: a string, or an
    already open [h5py.highlevel.File] / [h5py.highlevel.Group]. *)
Inductive target :=
| TPath (filename : string)
| THandle (h : handle).

Inductive mode := ModeR | ModeW | ModeA.

(** The calls that are recorded, in the order they are made. *)
Inductive event :=
| EvExists (filename : string)
| EvRemove (filename : string)
| EvOpen (filename : string) (m : mode)
| EvClose (filename : string)
| EvCreateGroup (parent : handle) (name : string)
| EvCreateDataset (parent : handle) (name : string)
| EvSetAttr (obj : handle) (key : string).

(** Failures raised by the collaborators (h5py, numpy, the Python
    runtime) rather than by the module itself. *)
Inductive backend_error :=
| NoSuchFile
| NoSuchObject
| NotAGroup
| NotADataset
| NameExists
| InvalidName
| NoSuchField
| ShapeMismatch
| NotIterable
| IndexOutOfRange
| NoData.

Inductive exn :=
| H5pyRequired
| FileNotFound (filename : string)
| FileExists (filename : string)
| TableException (tables : gmap string string)
| TableAlreadyExists (group name : string)
| BackendError (e : backend_error).

Record world := World {
  h5py_installed : bool;
  fs : gmap string node
}.

Inductive result (A : Type) :=
| Ok (a : A)
| Raise (e : exn).
Arguments Ok {A} a.
Arguments Raise {A} e.

(** A computation over state [S]: its outcome, the state it leaves (also
    when it raises) and the calls it made. *)
Definition M (S A : Type) : Type := S → result A * S * list event.

#[global] Instance M_ret {S} : MRet (M S) := λ A a s, (Ok a, s, []).

#[global] Instance M_bind {S} : MBind (M S) := λ A B k m s,
  match m s with
  | (Ok a, s', evs) =>
      match k a s' with
      | (r, s'', evs') => (r, s'', (evs ++ evs')%list)
      end
  | (Raise e, s', evs) => (Raise e, s', evs)
  end.

Definition raise {S A} (e : exn) : M S A := λ s, (Raise e, s, []).

Definition emit {S} (ev : event) : M S unit := λ s, (Ok (), s, [ev]).

Definition gets {S A} (f : S → A) : M S A := λ s, (Ok (f s), s, []).

Definition modify {S} (f : S → S) : M S unit := λ s, (Ok (), f s, []).

(** Run a computation on the world next to a Python object of type [T]. *)
Definition on_world {T A} (m : M world A) : M (T * world) A := λ '(t, w),
  match m w with
  | (r, w', evs) => (r, (t, w'), evs)
  end.

(** Mutate the Python object. *)
Definition on_self {T W} (f : T → T) : M (T * W) unit := λ '(t, w),
  (Ok (), (f t, w), []).

Definition get_self {T W} : M (T * W) T := λ '(t, w), (Ok t, (t, w), []).

(** Run a computation that owns a local object [t0] (a fresh [Table]) and
    hand the object back with the result. *)
Definition with_local {T U A} (t0 : U) (m : M (U * world) A)
  : M (T * world) U := λ '(t, w),
  match m (t0, w) with
  | (Ok _, (u, w'), evs) => (Ok u, (t, w'), evs)
  | (Raise e, (_, w'), evs) => (Raise e, (t, w'), evs)
  end.

(** [for x in l: b = f(b, x)] *)
Fixpoint foldM {S A B} (f : B → A → M S B) (b : B) (l : list A) : M S B :=
  match l with
  | [] => mret b
  | x :: l' => b' ← f b x; foldM f b' l'
  end.

(** [for x in l: f(x)] *)
Definition for_each {S A} (l : list A) (f : A → M S unit) : M S unit :=
  foldM (λ _ x, f x) () l.

(** ** The container backend (h5py) and [os] *)

Definition node_at (w : world) (h : handle) : option node :=
  match fs w !! h_file h with
  | Some root => resolve root (h_path h)
  | None => None
  end.

Definition update_file (filename : string) (f : node → node) (w : world) : world :=
  World (h5py_installed w) (alter f filename (fs w)).

(** [os.path.exists(filename)] *)
Definition os_path_exists (filename : string) : M world bool :=
  emit (EvExists filename);;
  gets (λ w, bool_decide (is_Some (fs w !! filename))).

(** [os.remove(filename)] *)
Definition os_remove (filename : string) : M world unit :=
  ex ← gets (λ w, bool_decide (is_Some (fs w !! filename)));
  if ex : bool then
    modify (λ w, World (h5py_installed w) (delete filename (fs w)));;
    emit (EvRemove filename)
  else raise (BackendError NoSuchFile).

(** [h5py.File(filename, mode)]: ['w'] creates the file, truncating an
    existing one; ['a'] opens an existing file as it is and creates a
    missing one; ['r'] needs an existing file. *)
Definition h5py_File (filename : string) (m : mode) : M world handle :=
  ex ← gets (λ w, bool_decide (is_Some (fs w !! filename)));
  match m, ex with
  | ModeW, _ | ModeA, false =>
      modify (λ w, World (h5py_installed w) (<[filename := Group ∅ []]> (fs w)))
  | ModeA, true | ModeR, true => mret ()
  | ModeR, false => raise (BackendError NoSuchFile)
  end;;
  emit (EvOpen filename m);;
  mret (Handle filename []).

(** [f.close()] *)
Definition h5_close (f : handle) : M world unit :=
  emit (EvClose (h_file f)).

(** [f['/']]: the root group of the file [f] belongs to. *)
Definition h5_root (f : handle) : M world handle :=
  mret (Handle (h_file f) []).

(** HDF5 path names.  A name that starts with a slash is looked up from the
    root group of the file instead of from the object it is given to, and
    empty components, which a doubled, leading or trailing slash leaves,
    are skipped: ["/grp/obs"], ["grp//obs"] and ["grp/obs/"] all lead where
    ["grp/obs"] leads from the root group. *)
Definition h5_absolute (name : string) : bool :=
  match name with
  | String c _ => Ascii.eqb c "/"
  | EmptyString => false
  end.

Definition h5_segments (name : string) : list string :=
  List.filter PyStr.truthy (PyStr.split name).

(** Where [name] leads, given to the object [g]. *)
Definition h5_path (g : handle) (name : string) : list string :=
  ((if h5_absolute name then [] else h_path g) ++ h5_segments name)%list.

(** [name in g]: whether the path [name] leads to an object.  The empty
    name leads nowhere.  Membership in a dataset compares [name] with the
    rows, which are never strings. *)
Definition h5_contains (g : handle) (name : string) : M world bool :=
  n ← gets (λ w, node_at w g);
  match n with
  | Some (Group _ _) =>
      if PyStr.truthy name then
        m ← gets (λ w, node_at w (Handle (h_file g) (h5_path g name)));
        mret (bool_decide (is_Some m))
      else mret false
  | Some (Dataset _ _) => mret false
  | None => raise (BackendError NoSuchObject)
  end.

(** [g[name]]: the object the path [name] leads to. *)
Definition h5_getitem (g : handle) (name : string) : M world handle :=
  n ← gets (λ w, node_at w g);
  match n with
  | Some (Group _ _) =>
      if PyStr.truthy name then
        m ← gets (λ w, node_at w (Handle (h_file g) (h5_path g name)));
        match m with
        | Some _ => mret (Handle (h_file g) (h5_path g name))
        | None => raise (BackendError NoSuchObject)
        end
      else raise (BackendError InvalidName)
  | Some (Dataset _ _) => raise (BackendError NotAGroup)
  | None => raise (BackendError NoSuchObject)
  end.

(** [g.keys()]: the names of the members of [g]. *)
Definition h5_keys (g : handle) : M world (list string) :=
  n ← gets (λ w, node_at w g);
  match n with
  | Some (Group _ ms) => mret ms.*1
  | Some (Dataset _ _) => raise (BackendError NotAGroup)
  | None => raise (BackendError NoSuchObject)
  end.

(** Link a new object at the path [name] given to [g].  The parent of the
    last component must be an existing group (intermediate groups are not
    created, which is why the module has [_create_required_groups]), the
    name must have a component, and nothing may be linked there yet: an
    existing link is never replaced. *)
Definition h5_create (g : handle) (name : string) (new : node) : M world handle :=
  let path := h5_path g name in
  let parent := Handle (h_file g) (removelast path) in
  let leaf := List.last (h5_segments name) "" in
  here ← gets (λ w, node_at w g);
  match here with
  | Some (Group _ _) =>
      if negb (PyStr.truthy leaf) then raise (BackendError InvalidName)
      else
        p ← gets (λ w, node_at w parent);
        match p with
        | Some (Group _ ms) =>
            if bool_decide (is_Some (lookup_member leaf ms))
            then raise (BackendError NameExists)
            else
              modify (update_file (h_file g)
                        (alter_at (h_path parent) (add_member leaf new)));;
              mret (Handle (h_file g) path)
        | Some (Dataset _ _) => raise (BackendError NotAGroup)
        | None => raise (BackendError NoSuchObject)
        end
  | Some (Dataset _ _) => raise (BackendError NotAGroup)
  | None => raise (BackendError NoSuchObject)
  end.

(** [g.create_group(name)] *)
Definition h5_create_group (g : handle) (name : string) : M world handle :=
  h ← h5_create g name (Group ∅ []);
  emit (EvCreateGroup g name);;
  mret h.

(** [g.create_dataset(name, data=data, compression=compression)].  The
    [data] of a table without columns is [None], and a dataset is not
    created from no data; the compression request does not change what is
    stored. *)
Definition h5_create_dataset (g : handle) (name : string) (data : recarray)
    (compression : bool) : M world handle :=
  match fields data with
  | [] => raise (BackendError NoData)
  | _ :: _ =>
      h ← h5_create g name (Dataset ∅ (Structured data));
      emit (EvCreateDataset g name);;
      mret h
  end.

(** [obj.attrs[key] = v] *)
Definition h5_set_attr (obj : handle) (key : string) (v : value) : M world unit :=
  n ← gets (λ w, node_at w obj);
  match n with
  | Some _ =>
      modify (update_file (h_file obj) (alter_at (h_path obj) (set_attr key v)));;
      emit (EvSetAttr obj key)
  | None => raise (BackendError NoSuchObject)
  end.

(** [obj.attrs] *)
Definition h5_attrs (obj : handle) : M world (gmap string value) :=
  n ← gets (λ w, node_at w obj);
  match n with
  | Some n => mret (node_attrs n)
  | None => raise (BackendError NoSuchObject)
  end.

(** [g.visit(names.append)]: the relative paths of all descendants. *)
Definition h5_visit (g : handle) : M world (list string) :=
  n ← gets (λ w, node_at w g);
  match n with
  | Some (Group a ms) => mret (map PyStr.join (descendants (Group a ms)))
  | Some (Dataset _ _) => raise (BackendError NotAGroup)
  | None => raise (BackendError NoSuchObject)
  end.

(** [isinstance(obj, h5py.highlevel.Dataset)] *)
Definition h5_is_dataset (obj : handle) : M world bool :=
  n ← gets (λ w, node_at w obj);
  match n with
  | Some (Dataset _ _) => mret true
  | Some (Group _ _) => mret false
  | None => raise (BackendError NoSuchObject)
  end.

(** The array held by the dataset [obj]. *)
Definition h5_array (obj : handle) : M world ndarray :=
  n ← gets (λ w, node_at w obj);
  match n with
  | Some (Dataset _ d) => mret d
  | Some (Group _ _) => raise (BackendError NotADataset)
  | None => raise (BackendError NoSuchObject)
  end.

(** [obj.dtype.names] *)
Definition h5_dtype_names (obj : handle) : M world (option (list string)) :=
  d ← h5_array obj; mret (dtype_names d).

(** [len(obj)] *)
Definition h5_len (obj : handle) : M world nat :=
  d ← h5_array obj; mret (array_len d).

(** [obj[name][:]]: one column of a structured dataset. *)
Definition h5_read_field (obj : handle) (name : string) : M world (list value) :=
  d ← h5_array obj;
  match d with
  | Structured r =>
      match lookup_field name (fields r) with
      | Some col => mret col
      | None => raise (BackendError NoSuchField)
      end
  | Plain _ => raise (BackendError NoSuchField)
  end.

(** ** The module's functions *)

(** [h5py_installed] is set once when the module is imported. *)
Definition _check_h5py_installed : M world unit :=
  installed ← gets h5py_installed;
  if negb installed then raise H5pyRequired else mret ().

Definition _get_group (filename : string) (group : string) (append : bool)
  : M world (handle * handle) :=
  f ← (if append then h5py_File filename ModeA
       else h5py_File filename ModeW);
  g ← (if PyStr.truthy group then
         if append then
           keys ← h5_keys f;
           if bool_decide (group ∈ keys) then h5_getitem f group
           else h5_create_group f group
         else h5_create_group f group
       else mret f);
  mret (f, g).

(** The loop rebinds its local [g]; nothing is returned. *)
Definition _create_required_groups (g : handle) (path : string) : M world unit :=
  foldM (λ g dirname,
           present ← h5_contains g dirname;
           if negb present then h5_create_group g dirname
           else h5_getitem g dirname)
        g (PyStr.split path);;
  mret ().

Definition _list_tables (file_handle : handle) : M world (gmap string string) :=
  list_of_names ← h5_visit file_handle;
  foldM (λ (tables : gmap string string) item,
           obj ← h5_getitem file_handle item;
           is_dataset ← h5_is_dataset obj;
           if is_dataset : bool then
             obj ← h5_getitem file_handle item;
             names ← h5_dtype_names obj;
             if names_truthy names then mret (<[item := item]> tables)
             else mret tables
           else mret tables)
        ∅ list_of_names.

(** [h5py.File(filename)] without a mode opens with the default of the h5py
    generation the module imports ([h5py.highlevel]), which is ['a']. *)
Definition read (filename : target) (table : option string) (verbose : bool)
  : M (Table.t * world) unit :=
  on_world _check_h5py_installed;;
  on_self Table.reset;;
  fg ← match filename with
       | THandle h => mret (None, h)
       | TPath p =>
           found ← on_world (os_path_exists p);
           if negb found then raise (FileNotFound p)
           else
             f ← on_world (h5py_File p ModeA);
             g ← on_world (h5_root f);
             mret (Some f, g)
       end;
  let f : option handle := fg.1 in
  let g : handle := fg.2 in
  table ← match table with
          | None =>
              tables ← on_world (_list_tables g);
              if decide (size tables = 1) then
                match (map_to_list tables).*1 with
                | key :: _ => mret key
                | [] => raise (BackendError IndexOutOfRange)
                end
              else raise (TableException tables)
          | Some table => mret table
          end;
  on_self (Table.set_table_name table);;
  n ← on_world (d ← h5_getitem g table; h5_len d);
  dtype ← on_world (d ← h5_getitem g table; h5_dtype_names d);
  on_self (Table._setup_table n dtype);;
  names ← on_world (d ← h5_getitem g table; h5_dtype_names d);
  names ← match names with
          | Some names => mret names
          | None => raise (BackendError NotIterable)
          end;
  for_each names (λ name,
    col ← on_world (d ← h5_getitem g table; h5_read_field d name);
    self ← get_self;
    match assign_column name col (Table.data self) with
    | Some r => on_self (Table.set_data r)
    | None => raise (BackendError ShapeMismatch)
    end);;
  match f with
  | Some f => on_world (h5_close f)
  | None => mret ()
  end.

Definition read_set (filename : string) (pedantic verbose : bool)
  : M (TableSet.t * world) unit :=
  on_world _check_h5py_installed;;
  on_self TableSet.reset;;
  f ← on_world (h5py_File filename ModeR);
  attrs ← on_world (h5_attrs f);
  for_each (map_to_list attrs) (λ '(keyword, v),
    on_self (TableSet.set_keyword keyword v));;
  on_world (h5_close f);;
  tables ← on_world (f' ← h5py_File filename ModeA; _list_tables f');
  for_each (map_to_list tables).*1 (λ table,
    t ← with_local Table.new (read (TPath filename) (Some table) verbose);
    on_self (TableSet.append t)).

Definition write (self : Table.t) (filename : target) (compression : bool)
    (group : string) (append overwrite ignore_groups : bool) : M world unit :=
  _check_h5py_installed;;
  fg ← match filename with
       | THandle h =>
           g ← (if PyStr.truthy group then
                  present ← h5_contains h group;
                  if present : bool then h5_getitem h group
                  else h5_create_group h group
                else mret h);
           mret (None, g)
       | TPath p =>
           found ← os_path_exists p;
           (if found && negb append then
              if overwrite then os_remove p else raise (FileExists p)
            else mret ());;
           fg ← _get_group p group append;
           mret (Some fg.1, fg.2)
       end;
  let f : option handle := fg.1 in
  let g : handle := fg.2 in
  let name :=
    if PyStr.truthy (Table.table_name self) then Table.table_name self
    else "Table" in
  name ← (if ignore_groups then mret (PyStr.basename name)
          else
            let path := PyStr.dirname name in
            (if PyStr.truthy path then _create_required_groups g path
             else mret ());;
            mret name);
  keys ← h5_keys g;
  if bool_decide (name ∈ keys) then raise (TableAlreadyExists group name)
  else
    dset ← h5_create_dataset g name (Table.data self) compression;
    for_each (map_to_list (Table.keywords self)) (λ '(keyword, v),
      h5_set_attr dset keyword v);;
    match f with
    | Some f => h5_close f
    | None => mret ()
    end.

(** ["Table_%02i" % i] *)
Definition fallback_name (i : nat) : string := "Table_" ++ PyStr.fmt_02i i.

Definition write_set (self : TableSet.t) (filename : string)
    (compression : bool) (group : string)
    (append overwrite ignore_groups : bool) : M world unit :=
  _check_h5py_installed;;
  found ← os_path_exists filename;
  (if found && negb append then
     if overwrite then os_remove filename else raise (FileExists filename)
   else mret ());;
  fg ← _get_group filename group append;
  let f : handle := fg.1 in
  let g : handle := fg.2 in
  for_each (map_to_list (TableSet.keywords self)) (λ '(keyword, v),
    h5_set_attr g keyword v);;
  for_each (imap pair (TableSet.tables self)) (λ '(i, tbl),
    let name :=
      if PyStr.truthy (Table.table_name tbl) then Table.table_name tbl
      else fallback_name i in
    name ← (if ignore_groups then mret (PyStr.basename name)
            else
              let path := PyStr.dirname name in
              (if PyStr.truthy path then _create_required_groups g path
               else mret ());;
              mret name);
    keys ← h5_keys g;
    if bool_decide (name ∈ keys) then raise (TableAlreadyExists group name)
    else
      dset ← h5_create_dataset g name (Table.data tbl) compression;
      for_each (map_to_list (Table.keywords tbl)) (λ '(keyword, v),
        h5_set_attr dset keyword v));;
  h5_close f.

(** ** Notions used to state the properties *)

(** A link name: non-empty and without a slash. *)
Definition valid_name (s : string) : bool :=
  PyStr.truthy s && negb (PyStr.has_slash s).

(** Within every group the member names are valid and pairwise distinct,
    as HDF5 guarantees for a container. *)
Fixpoint names_ok (n : node) : bool :=
  match n with
  | Group _ ms =>
      bool_decide (NoDup ms.*1) &&
      (fix go (ms : list (string * node)) : bool :=
         match ms with
         | [] => true
         | (k, c) :: rest => valid_name k && names_ok c && go rest
         end) ms
  | Dataset _ _ => true
  end.

(** A structured array has distinct field names and [nrows] entries in
    every column. *)
Definition recarray_ok (r : recarray) : bool :=
  bool_decide (NoDup (fields r).*1) &&
  forallb (λ f, bool_decide (length f.2 = nrows r)) (fields r).

Fixpoint datasets_ok (n : node) : bool :=
  match n with
  | Group _ ms =>
      (fix go (ms : list (string * node)) : bool :=
         match ms with
         | [] => true
         | (_, c) :: rest => datasets_ok c && go rest
         end) ms
  | Dataset _ (Structured r) => recarray_ok r
  | Dataset _ (Plain _) => true
  end.

(** Same kind of node and, for datasets, the same stored array. *)
Definition same_content (n m : node) : Prop :=
  match n, m with
  | Group _ _, Group _ _ => True
  | Dataset _ d, Dataset _ d' => d = d'
  | _, _ => False
  end.

(** Everything reachable in [n] is still reachable in [n'], with the same
    content: nothing was removed, replaced or truncated. *)
Definition node_extends (n n' : node) : Prop :=
  ∀ segs m, resolve n segs = Some m →
    ∃ m', resolve n' segs = Some m' ∧ same_content m m'.

Definition world_extends (w w' : world) : Prop :=
  ∀ file root, fs w !! file = Some root →
    ∃ root', fs w' !! file = Some root' ∧ node_extends root root'.

Definition world_ok (w : world) : Prop :=
  ∀ file root, fs w !! file = Some root → names_ok root = true.

(** How the object-level operations change the world: they only add. *)
Definition evolves (w w' : world) : Prop :=
  h5py_installed w' = h5py_installed w ∧
  world_extends w w' ∧
  (world_ok w → world_ok w').

(** The object [p] lies in the file of [g], at or below [g]. *)
Definition under (g p : handle) : Prop :=
  h_file p = h_file g ∧ h_path g `prefix_of` h_path p.

(** Events that create or annotate an object at or below [g]. *)
Definition ev_under (g : handle) (ev : event) : Prop :=
  match ev with
  | EvCreateGroup p _ | EvCreateDataset p _ | EvSetAttr p _ => under g p
  | _ => False
  end.

(** A specification of a computation: how the state evolves, which calls
    are made, what is returned and which exceptions may be raised. *)
Definition sat {S A} (m : M S A) (R : S → S → Prop) (P : event → Prop)
    (Q : A → Prop) (E : exn → Prop) : Prop :=
  ∀ s r s' evs, m s = (r, s', evs) →
    R s s' ∧ Forall P evs ∧
    match r with Ok a => Q a | Raise e => E e end.

(** Exceptions raised by the collaborators. *)
Definition is_backend (e : exn) : Prop :=
  match e with BackendError _ => True | _ => False end.

(** A dataset whose element type has named fields. *)
Definition is_record (m : node) : bool :=
  match m with
  | Dataset _ d => names_truthy (dtype_names d)
  | Group _ _ => false
  end.

(** What the loop of [_list_tables] collects from the paths [names] below
    the group [n]. *)
Definition collect_tables (n : node) (names : list string)
    (tables : gmap string string) : gmap string string :=
  foldl (λ tables item,
           match resolve n (PyStr.split item) with
           | Some m => if is_record m then <[item := item]> tables else tables
           | None => tables
           end) tables names.

(** The group a read or write starts from: the root group of the file for
    a file name, the given object for a handle. *)
Definition target_handle (filename : target) : handle :=
  match filename with
  | TPath p => Handle p []
  | THandle h => h
  end.

(** The statements of [read] from the choice of the table on (lines
    98-116), for the group [g] to read from and the file [f] the call
    opened itself, if any. *)
Definition read_from (f : option handle) (g : handle) (table : option string)
  : M (Table.t * world) unit :=
  table ← match table with
          | None =>
              tables ← on_world (_list_tables g);
              if decide (size tables = 1) then
                match (map_to_list tables).*1 with
                | key :: _ => mret key
                | [] => raise (BackendError IndexOutOfRange)
                end
              else raise (TableException tables)
          | Some table => mret table
          end;
  on_self (Table.set_table_name table);;
  n ← on_world (d ← h5_getitem g table; h5_len d);
  dtype ← on_world (d ← h5_getitem g table; h5_dtype_names d);
  on_self (Table._setup_table n dtype);;
  names ← on_world (d ← h5_getitem g table; h5_dtype_names d);
  names ← match names with
          | Some names => mret names
          | None => raise (BackendError NotIterable)
          end;
  for_each names (λ name,
    col ← on_world (d ← h5_getitem g table; h5_read_field d name);
    self ← get_self;
    match assign_column name col (Table.data self) with
    | Some r => on_self (Table.set_data r)
    | None => raise (BackendError ShapeMismatch)
    end);;
  match f with
  | Some f => on_world (h5_close f)
  | None => mret ()
  end.

(** The [close] call made at the end for a file the call opened itself. *)
Definition closing (f : option handle) : list event :=
  match f with
  | Some f => [EvClose (h_file f)]
  | None => []
  end.

(** The name a table ends up under: its own name or the fallback, reduced
    to its last segment when groups are ignored. *)
Definition write_name (fallback : string) (ignore_groups : bool)
    (tbl : Table.t) : string :=
  let name :=
    if PyStr.truthy (Table.table_name tbl) then Table.table_name tbl
    else fallback in
  if ignore_groups then PyStr.basename name else name.

(** The file policy of [write] (lines 190-196) and [write_set] (lines
    255-261) for a file name. *)
Definition open_for_write (filename group : string) (append overwrite : bool)
  : M world (handle * handle) :=
  found ← os_path_exists filename;
  (if found && negb append then
     if overwrite then os_remove filename else raise (FileExists filename)
   else mret ());;
  _get_group filename group append.

(** The group step of [write] for an open handle (lines 184-188). *)
Definition group_under (h : handle) (group : string) : M world handle :=
  if PyStr.truthy group then
    present ← h5_contains h group;
    if present : bool then h5_getitem h group
    else h5_create_group h group
  else mret h.

(** The statements of [write] from the choice of the dataset name on
    (lines 198-219), for the group [g] to write into and the file [f] the
    call opened itself, if any. *)
Definition write_from (self : Table.t) (f : option handle) (g : handle)
    (group : string) (compression ignore_groups : bool) : M world unit :=
  let name :=
    if PyStr.truthy (Table.table_name self) then Table.table_name self
    else "Table" in
  name ← (if ignore_groups then mret (PyStr.basename name)
          else
            let path := PyStr.dirname name in
            (if PyStr.truthy path then _create_required_groups g path
             else mret ());;
            mret name);
  keys ← h5_keys g;
  if bool_decide (name ∈ keys) then raise (TableAlreadyExists group name)
  else
    dset ← h5_create_dataset g name (Table.data self) compression;
    for_each (map_to_list (Table.keywords self)) (λ '(keyword, v),
      h5_set_attr dset keyword v);;
    match f with
    | Some f => h5_close f
    | None => mret ()
    end.

(** The body of the loop of [write_set] (lines 268-286). *)
Definition write_set_table (g : handle) (group : string)
    (compression ignore_groups : bool) : nat * Table.t → M world unit :=
  λ '(i, tbl),
    let name :=
      if PyStr.truthy (Table.table_name tbl) then Table.table_name tbl
      else fallback_name i in
    name ← (if ignore_groups then mret (PyStr.basename name)
            else
              let path := PyStr.dirname name in
              (if PyStr.truthy path then _create_required_groups g path
               else mret ());;
              mret name);
    keys ← h5_keys g;
    if bool_decide (name ∈ keys) then raise (TableAlreadyExists group name)
    else
      dset ← h5_create_dataset g name (Table.data tbl) compression;
      for_each (map_to_list (Table.keywords tbl)) (λ '(keyword, v),
        h5_set_attr dset keyword v).

(** Calls on the file as a whole, as opposed to calls on its objects. *)
Definition is_file_event (ev : event) : bool :=
  match ev with
  | EvExists _ | EvRemove _ | EvOpen _ _ | EvClose _ => true
  | _ => false
  end.

(** The datasets created, in order: the group the call was made on and
    the name given. *)
Definition dataset_events (evs : list event) : list (handle * string) :=
  omap (λ ev, match ev with
              | EvCreateDataset p name => Some (p, name)
              | _ => None
              end) evs.

#[global] Instance handle_eq_dec : EqDecision handle.
Proof. solve_decision. Defined.

(** The attribute keys set on [obj], in order. *)
Definition attr_events (obj : handle) (evs : list event) : list string :=
  omap (λ ev, match ev with
              | EvSetAttr p key =>
                  if decide (p = obj) then Some key else None
              | _ => None
              end) evs.

Fixpoint remove_first (f : string) (l : list string) : list string :=
  match l with
  | [] => []
  | x :: l' => if decide (x = f) then l' else x :: remove_first f l'
  end.

(** The files that a sequence of calls leaves open, given those open
    before. *)
Definition track_handle (opened : list string) (ev : event) : list string :=
  match ev with
  | EvOpen f _ => opened ++ [f]
  | EvClose f => remove_first f opened
  | _ => opened
  end.

Definition open_handles (evs : list event) : list string :=
  foldl track_handle [] evs.

(** The group step of [_get_group] (lines 28-37). *)
Definition group_in_file (f : handle) (group : string) (append : bool)
  : M world handle :=
  if PyStr.truthy group then
    if append then
      keys ← h5_keys f;
      if bool_decide (group ∈ keys) then h5_getitem f group
      else h5_create_group f group
    else h5_create_group f group
  else mret f.

(** The file-level calls [write] and [write_set] make to get at a file
    that did or did not exist. *)
Definition opening_events (p : string) (existed append : bool) : list event :=
  EvExists p ::
  (if existed && negb append then [EvRemove p] else []) ++
  [EvOpen p (if append then ModeA else ModeW)].

(** The calls a writer makes once the file is open: on objects of that
    file, and the final [close]. *)
Definition in_open_file (p : string) (ev : event) : Prop :=
  ev_under (Handle p []) ev ∨ ev = EvClose p.

(** What [write] and the loop of [write_set] do alike for one table: the
    name is resolved, checked against the members of [g], the dataset is
    created and the keywords are attached. *)
Definition store_table (g : handle) (group : string)
    (compression ignore_groups : bool) (fallback : string) (tbl : Table.t)
  : M world unit :=
  let name :=
    if PyStr.truthy (Table.table_name tbl) then Table.table_name tbl
    else fallback in
  name ← (if ignore_groups then mret (PyStr.basename name)
          else
            let path := PyStr.dirname name in
            (if PyStr.truthy path then _create_required_groups g path
             else mret ());;
            mret name);
  keys ← h5_keys g;
  if bool_decide (name ∈ keys) then raise (TableAlreadyExists group name)
  else
    dset ← h5_create_dataset g name (Table.data tbl) compression;
    for_each (map_to_list (Table.keywords tbl)) (λ '(keyword, v),
      h5_set_attr dset keyword v).

(** The events of a successful [store_table]: the groups of the path, the
    dataset, its attributes. *)
Definition is_group_event_under (g : handle) (ev : event) : Prop :=
  match ev with
  | EvCreateGroup p _ => under g p
  | _ => False
  end.

(** The group named [group] under [h], or [h] itself without a name. *)
Definition group_handle (h : handle) (group : string) : handle :=
  if PyStr.truthy group then Handle (h_file h) (h5_path h group) else h.

Definition no_dataset_event (ev : event) : Prop :=
  match ev with
  | EvCreateDataset _ _ => False
  | _ => True
  end.

(** No constraint on how the state changes. *)
Definition any_change {S} : relation S := λ _ _, True.

(** The choice of the table in [read] (lines 98-104). *)
Definition choose_table (g : handle) (table : option string)
  : M (Table.t * world) string :=
  match table with
  | None =>
      tables ← on_world (_list_tables g);
      if decide (size tables = 1) then
        match (map_to_list tables).*1 with
        | key :: _ => mret key
        | [] => raise (BackendError IndexOutOfRange)
        end
      else raise (TableException tables)
  | Some table => mret table
  end.

(** The copy of the chosen dataset into the table (lines 106-113). *)
Definition read_named (g : handle) (table : string) : M (Table.t * world) unit :=
  on_self (Table.set_table_name table);;
  n ← on_world (d ← h5_getitem g table; h5_len d);
  dtype ← on_world (d ← h5_getitem g table; h5_dtype_names d);
  on_self (Table._setup_table n dtype);;
  names ← on_world (d ← h5_getitem g table; h5_dtype_names d);
  names ← match names with
          | Some names => mret names
          | None => raise (BackendError NotIterable)
          end;
  for_each names (λ name,
    col ← on_world (d ← h5_getitem g table; h5_read_field d name);
    self ← get_self;
    match assign_column name col (Table.data self) with
    | Some r => on_self (Table.set_data r)
    | None => raise (BackendError ShapeMismatch)
    end).

(** The world is left as it was. *)
Definition same_world {T} : relation (T * world) := λ s s', s'.2 = s.2.

Definition no_event (ev : event) : Prop := False.

(** Calls that neither open nor close a file. *)
Definition handle_neutral (ev : event) : Prop :=
  match ev with
  | EvOpen _ _ | EvClose _ => False
  | _ => True
  end.

Definition is_ok {A} (r : result A) : bool :=
  match r with Ok _ => true | Raise _ => false end.

(** How a call on [filename] treats file handles, given whether it
    returned normally and the calls it made: a handle passed in is neither
    opened nor closed; a file named by a string has been opened and is
    closed again when the call returns normally, and is not closed when
    the call raises. *)
Definition handle_discipline (filename : target) (ok : bool)
    (evs : list event) : Prop :=
  match filename with
  | THandle _ => Forall (λ ev, is_file_event ev = false) evs
  | TPath p =>
      if ok then open_handles evs = [] ∧ ∃ m, EvOpen p m ∈ evs
      else ∀ f, EvClose f ∉ evs
  end.

Definition no_close (ev : event) : Prop :=
  match ev with
  | EvClose _ => False
  | _ => True
  end.

(** ** Notions used in the further properties *)

(** The object the path [name] leads to when it is given to [g]. *)
Definition h5_lookup (w : world) (g : handle) (name : string) : option node :=
  node_at w (Handle (h_file g) (h5_path g name)).


(** The node [n] after the attributes [kws] have been set on it one by
    one. *)
Definition with_attrs (kws : gmap string value) (n : node) : node :=
  match n with
  | Group a ms => Group (kws ∪ a) ms
  | Dataset a d => Dataset (kws ∪ a) d
  end.

(** The dataset [write] and [write_set] create for a table. *)
Definition dataset_of (tbl : Table.t) : node :=
  Dataset (Table.keywords tbl) (Structured (Table.data tbl)).

(** The name [write_set] resolves for the table at position [it.1]. *)
Definition set_name (ignore_groups : bool) (it : nat * Table.t) : string :=
  write_name (fallback_name it.1) ignore_groups it.2.

(** The calls that store one table under [name] in the group [g]. *)
Definition store_events (g : handle) (name : string) (tbl : Table.t)
  : list event :=
  EvCreateDataset g name ::
  map (λ kv, EvSetAttr (Handle (h_file g) (h_path g ++ [name])) kv.1)
    (map_to_list (Table.keywords tbl)).

(** The table [read] builds from the dataset the path [key] leads to
    below [root]. *)
Definition table_at (root : node) (key : string) : Table.t :=
  match resolve root (PyStr.split key) with
  | Some (Dataset _ (Structured r)) => Table.Mk key r ∅
  | _ => Table.Mk key (RecArray 0 []) ∅
  end.

(** The calls [read] makes on the file [p] when it returns normally. *)
Definition read_events (p : string) : list event :=
  [EvExists p; EvOpen p ModeA; EvClose p].


(** The chain of groups [segs] leads through, one in the other, down to
    [leaf]. *)
Fixpoint nest (segs : list string) (leaf : node) : node :=
  match segs with
  | [] => leaf
  | s :: rest => Group ∅ [(s, nest rest leaf)]
  end.

(** Nothing but the file [f] has changed. *)
Definition only_file (f : string) : relation world := λ w w',
  h5py_installed w' = h5py_installed w ∧
  ∀ q, q ≠ f → fs w' !! q = fs w !! q.

(** * Properties *)

(** ** Evaluation of the string helpers *)

Example split_abc : PyStr.split "a/b/c" = ["a"; "b"; "c"].
Proof. reflexivity. Qed.
Example split_empty_segment : PyStr.split "a//b" = ["a"; ""; "b"].
Proof. reflexivity. Qed.
Example basename_path : PyStr.basename "grp/sub/Name" = "Name".
Proof. reflexivity. Qed.
Example dirname_path : PyStr.dirname "grp/sub/Name" = "grp/sub".
Proof. reflexivity. Qed.
Example dirname_plain : PyStr.dirname "Name" = "".
Proof. reflexivity. Qed.
Example dirname_root : PyStr.dirname "/Name" = "/".
Proof. reflexivity. Qed.
Example fmt_02i_7 : PyStr.fmt_02i 7 = "07".
Proof. reflexivity. Qed.
Example fmt_02i_123 : PyStr.fmt_02i 123 = "123".
Proof. reflexivity. Qed.

(** ** Facts about Python strings *)

Module PyStrFacts.
Import PyStr.

Lemma split_not_nil s : split s ≠ [].
Proof.
  destruct s as [|c s]; simpl; [done|].
  destruct (Ascii.eqb c "/"); [done|]. by destruct (split s).
Qed.

Lemma split_no_slash s : Forall (λ x, has_slash x = false) (split s).
Proof.
  induction s as [|c s IH]; simpl.
  - by repeat constructor.
  - destruct (Ascii.eqb c "/") eqn:Hc.
    + by constructor.
    + destruct (split s) as [|x xs].
      * constructor; [|done]. simpl. by rewrite Hc.
      * inversion IH; subst. constructor; [|done]. simpl. by rewrite Hc.
Qed.

Lemma split_slash_free s : has_slash s = false → split s = [s].
Proof.
  induction s as [|c s IH]; simpl; [done|].
  intros [Hc Hs]%orb_false_elim. rewrite Hc, IH; done.
Qed.

Lemma split_cons_slash x rest :
  has_slash x = false → split (x ++ String "/" rest) = x :: split rest.
Proof.
  induction x as [|c x IH]; simpl; [done|].
  intros [Hc Hx]%orb_false_elim. by rewrite Hc, IH.
Qed.

Lemma split_join segs :
  segs ≠ [] → Forall (λ x, has_slash x = false) segs → split (join segs) = segs.
Proof.
  unfold join. induction segs as [|x [|y ys] IH]; intros Hne Hall; [done|..].
  - simpl. apply split_slash_free. by inversion Hall.
  - inversion Hall as [|?? Hx Hrest]; subst.
    change (String.concat "/" (x :: y :: ys))
      with (x ++ String "/" (String.concat "/" (y :: ys))).
    rewrite split_cons_slash by done. f_equal. by apply IH.
Qed.

Lemma join_split s : join (split s) = s.
Proof.
  unfold join. induction s as [|c s IH]; simpl; [done|].
  destruct (Ascii.eqb c "/") eqn:Hc.
  - apply Ascii.eqb_eq in Hc as ->.
    pose proof (split_not_nil s) as Hne.
    destruct (split s) as [|y ys] eqn:Hs; [done|].
    simpl in *. by rewrite IH.
  - pose proof (split_not_nil s) as Hne.
    destruct (split s) as [|y ys] eqn:Hs; [done|].
    destruct ys; simpl in *; by rewrite <- IH.
Qed.

Lemma rfind_slash_free s : has_slash s = false → rfind_slash_succ s = 0.
Proof.
  induction s as [|c s IH]; simpl; [done|].
  intros [Hc Hs]%orb_false_elim. by rewrite IH, Hc.
Qed.

Lemma basename_slash_free s : has_slash s = false → basename s = s.
Proof. intros H. unfold basename. rewrite rfind_slash_free by done. by destruct s. Qed.

Lemma dirname_slash_free s : has_slash s = false → dirname s = "".
Proof. intros H. unfold dirname. by rewrite rfind_slash_free by done. Qed.

Lemma dirname_truthy_has_slash s : truthy (dirname s) = true → has_slash s = true.
Proof.
  intros H. destruct (has_slash s) eqn:Hs; [done|].
  by rewrite dirname_slash_free in H.
Qed.

Lemma has_slash_app a b : has_slash (a ++ b) = has_slash a || has_slash b.
Proof. induction a as [|c a IH]; simpl; [done|]. by rewrite IH, orb_assoc. Qed.

Lemma string_of_uint_slash_free d :
  has_slash (NilEmpty.string_of_uint d) = false.
Proof. induction d; simpl; done. Qed.

Lemma fmt_02i_slash_free i : has_slash (fmt_02i i) = false.
Proof.
  unfold fmt_02i. case_match; [rewrite has_slash_app|];
    by rewrite string_of_uint_slash_free.
Qed.

End PyStrFacts.

Local Open Scope list_scope.

(** ** Facts about the container tree *)

Section node_induction.
Variable P : node → Prop.
Hypothesis Hgroup : ∀ a ms, Forall (λ kc, P kc.2) ms → P (Group a ms).
Hypothesis Hdataset : ∀ a d, P (Dataset a d).

Fixpoint node_ind' (n : node) : P n :=
  match n with
  | Group a ms =>
      Hgroup a ms
        ((fix go (ms : list (string * node)) : Forall (λ kc, P kc.2) ms :=
            match ms with
            | [] => List.Forall_nil _
            | kc :: rest => List.Forall_cons _ _ _ (node_ind' kc.2) (go rest)
            end) ms)
  | Dataset a d => Hdataset a d
  end.
End node_induction.

Lemma lookup_member_None name ms :
  lookup_member name ms = None ↔ name ∉ ms.*1.
Proof.
  induction ms as [|[k c] ms IH]; simpl.
  - split; [intros _; apply not_elem_of_nil | done].
  - rewrite not_elem_of_cons, <- IH. case_decide as Hk.
    + split; [done | intros [? _]; congruence].
    + split; [intros ?; split; [congruence | done] | by intros [_ ?]].
Qed.

Lemma lookup_member_Some name ms c :
  lookup_member name ms = Some c → (name, c) ∈ ms.
Proof.
  induction ms as [|[k c'] ms IH]; simpl; [done|].
  case_decide; [intros [= ->]; subst; left | right; auto].
Qed.

Lemma lookup_member_NoDup name ms c :
  NoDup ms.*1 → (name, c) ∈ ms → lookup_member name ms = Some c.
Proof.
  induction ms as [|[k c'] ms IH]; simpl; [by intros _ ?%elem_of_nil|].
  intros [Hk Hnd]%NoDup_cons [[= -> ->]|Hin]%elem_of_cons.
  - by rewrite decide_True.
  - case_decide as Heq; [|by apply IH].
    subst. exfalso. apply Hk. apply list_elem_of_fmap. by exists (name, c).
Qed.

Lemma lookup_member_app name ms ms' :
  lookup_member name (ms ++ ms') =
  match lookup_member name ms with
  | Some c => Some c
  | None => lookup_member name ms'
  end.
Proof.
  induction ms as [|[k c] ms IH]; simpl; [done|]. by case_decide.
Qed.

Lemma lookup_member_alter name name' f ms :
  lookup_member name' (alter_member name f ms) =
  if decide (name = name') then f <$> lookup_member name' ms
  else lookup_member name' ms.
Proof.
  induction ms as [|[k c] ms IH]; simpl; [by case_decide|].
  repeat (case_decide; simpl in * ); subst; try done; congruence.
Qed.

Lemma alter_member_names name f ms : (alter_member name f ms).*1 = ms.*1.
Proof.
  induction ms as [|[k c] ms IH]; csimpl; [done|].
  case_decide; csimpl; [done|]. by rewrite IH.
Qed.

Lemma resolve_app n p q :
  resolve n (p ++ q) =
  match resolve n p with Some m => resolve m q | None => None end.
Proof.
  revert n. induction p as [|s p IH]; intros n; simpl; [done|].
  destruct n as [a ms|]; [|done].
  destruct (lookup_member s ms); [apply IH | done].
Qed.

Lemma resolve_alter_at p f n m :
  resolve n p = Some m → resolve (alter_at p f n) p = Some (f m).
Proof.
  revert n. induction p as [|s p IH]; intros n; simpl.
  - by intros [= ->].
  - destruct n as [a ms|]; [|done].
    destruct (lookup_member s ms) as [c|] eqn:Hc; [|done].
    intros Hres. rewrite lookup_member_alter, decide_True, Hc by done.
    simpl. by apply IH.
Qed.

Lemma same_content_refl n : same_content n n.
Proof. by destruct n. Qed.

Lemma same_content_trans n1 n2 n3 :
  same_content n1 n2 → same_content n2 n3 → same_content n1 n3.
Proof. destruct n1, n2, n3; simpl; try done; congruence. Qed.

Lemma node_extends_refl n : node_extends n n.
Proof. intros segs m Hm. eauto using same_content_refl. Qed.

Lemma node_extends_trans n1 n2 n3 :
  node_extends n1 n2 → node_extends n2 n3 → node_extends n1 n3.
Proof.
  intros H12 H23 segs m Hm.
  destruct (H12 _ _ Hm) as (m2 & Hm2 & Hc2).
  destruct (H23 _ _ Hm2) as (m3 & Hm3 & Hc3).
  eauto using same_content_trans.
Qed.

Lemma add_member_extends name new n : node_extends n (add_member name new n).
Proof.
  intros segs m Hm. destruct n as [a ms|]; [|eauto using same_content_refl].
  destruct segs as [|s segs]; simpl in *.
  - injection Hm as <-. by eexists.
  - rewrite lookup_member_app.
    destruct (lookup_member s ms); [eauto using same_content_refl | done].
Qed.

Lemma set_attr_extends key v n : node_extends n (set_attr key v n).
Proof.
  intros segs m Hm. destruct n as [a ms|a d].
  - destruct segs as [|s segs]; simpl in *.
    + injection Hm as <-. by eexists.
    + eauto using same_content_refl.
  - destruct segs as [|s segs]; simpl in *; [|done].
    injection Hm as <-. by eexists.
Qed.

Lemma alter_at_extends p f n :
  (∀ m, node_extends m (f m)) → node_extends n (alter_at p f n).
Proof.
  intros Hf. revert n. induction p as [|s p IH]; intros n; simpl; [done|].
  destruct n as [a ms|]; [|apply node_extends_refl].
  intros segs m Hm. destruct segs as [|s' segs]; simpl in *.
  - injection Hm as <-. by eexists.
  - rewrite lookup_member_alter.
    destruct (lookup_member s' ms) as [c|] eqn:Hc; [|done].
    case_decide; simpl; [by apply IH | eauto using same_content_refl].
Qed.

(** After linking [new] under the group at [p], it is found there. *)
Lemma resolve_add_member p name new n a ms :
  resolve n p = Some (Group a ms) → lookup_member name ms = None →
  resolve (alter_at p (add_member name new) n) (p ++ [name]) = Some new.
Proof.
  intros Hp Hname. rewrite resolve_app.
  rewrite (resolve_alter_at _ _ _ _ Hp). simpl.
  rewrite lookup_member_app, Hname. simpl. by rewrite decide_True.
Qed.

Lemma names_ok_group a ms :
  names_ok (Group a ms) = true ↔
  NoDup ms.*1 ∧ Forall (λ kc, valid_name kc.1 = true ∧ names_ok kc.2 = true) ms.
Proof.
  simpl. rewrite andb_true_iff, bool_decide_eq_true.
  apply and_iff_compat_l. induction ms as [|[k c] ms IH]; simpl.
  - split; [by constructor | done].
  - rewrite Forall_cons, !andb_true_iff, IH. simpl. tauto.
Qed.

Lemma names_ok_alter_at p f n :
  (∀ m, resolve n p = Some m → names_ok m = true → names_ok (f m) = true) →
  names_ok n = true → names_ok (alter_at p f n) = true.
Proof.
  revert n. induction p as [|s p IH]; intros n Hf Hn; simpl; [by apply Hf|].
  destruct n as [a ms|]; [|done].
  apply names_ok_group in Hn as [Hnd Hall]. apply names_ok_group.
  rewrite alter_member_names. split; [done|].
  simpl in Hf. clear Hnd.
  induction Hall as [|[k c] ms [Hk Hc] Hall IHall]; simpl in *; [done|].
  case_decide as Hks.
  - constructor; [|done]. split; [done|]. simpl in *. apply IH; [|done].
    intros m. apply Hf.
  - constructor; [done|]. apply IHall. done.
Qed.

Lemma names_ok_add_member name new n :
  (∀ a ms, n = Group a ms → lookup_member name ms = None) →
  valid_name name = true → names_ok new = true →
  names_ok n = true → names_ok (add_member name new n) = true.
Proof.
  intros Hfresh Hvalid Hnew Hn. destruct n as [a ms|]; [|done].
  specialize (Hfresh _ _ eq_refl). apply lookup_member_None in Hfresh.
  apply names_ok_group in Hn as [Hnd Hall]. apply names_ok_group.
  rewrite fmap_app. simpl. split.
  - apply NoDup_app. split_and!; [done| |apply NoDup_singleton].
    intros x Hx ->%list_elem_of_singleton. done.
  - apply Forall_app. split; [done|]. by repeat constructor.
Qed.

Lemma names_ok_set_attr key v n : names_ok (set_attr key v n) = names_ok n.
Proof. by destruct n. Qed.

Lemma names_ok_resolve n p m :
  names_ok n = true → resolve n p = Some m → names_ok m = true.
Proof.
  revert n. induction p as [|s p IH]; intros n Hn; simpl.
  - by intros [= <-].
  - destruct n as [a ms|]; [|done].
    destruct (lookup_member s ms) as [c|] eqn:Hc; [|done].
    apply names_ok_group in Hn as [_ Hall].
    apply lookup_member_Some in Hc.
    rewrite Forall_forall in Hall. apply Hall in Hc as [_ Hc]. by apply IH.
Qed.

(** ** Reasoning about computations *)

Ltac unfold_M :=
  unfold mbind, M_bind, mret, M_ret, raise, emit, gets, modify,
    on_world, on_self, get_self in *.

Ltac solve_tc :=
  match goal with
  | |- Reflexive _ => apply _
  | |- Transitive _ => apply _
  end.

(** Apply a rule for [sat], discharging the order-theoretic side goals. *)
Tactic Notation "sat_apply" uconstr(lem) := eapply lem; try solve_tc.

Lemma bind_run {S A B} (m : M S A) (k : A → M S B) s :
  (m ≫= k) s =
  match m s with
  | (Ok a, s', evs) =>
      match k a s' with
      | (r, s'', evs') => (r, s'', (evs ++ evs')%list)
      end
  | (Raise e, s', evs) => (Raise e, s', evs)
  end.
Proof. reflexivity. Qed.

Section sat_rules.
Context {S : Type} (R : S → S → Prop) `{!Reflexive R, !Transitive R}.
Context (P : event → Prop).

Lemma sat_ret {A} (a : A) (Q : A → Prop) E : Q a → sat (mret a) R P Q E.
Proof. intros Ha s r s' evs [= <- <- <-]. done. Qed.

Lemma sat_raise {A} e (Q : A → Prop) (E : exn → Prop) :
  E e → sat (raise e) R P Q E.
Proof. intros He s r s' evs [= <- <- <-]. done. Qed.

Lemma sat_gets {A} (f : S → A) (Q : A → Prop) E :
  (∀ s, Q (f s)) → sat (gets f) R P Q E.
Proof. intros Hf s r s' evs [= <- <- <-]. done. Qed.

Lemma sat_emit ev (Q : unit → Prop) E : P ev → Q () → sat (emit ev) R P Q E.
Proof. intros Hev HQ s r s' evs [= <- <- <-]. split_and!; [done| |done]. by constructor. Qed.

Lemma sat_modify (f : S → S) (Q : unit → Prop) E :
  (∀ s, R s (f s)) → Q () → sat (modify f) R P Q E.
Proof. intros Hf HQ s r s' evs [= <- <- <-]. done. Qed.

Lemma sat_bind {A B} (m : M S A) (k : A → M S B) Q1 Q E :
  sat m R P Q1 E → (∀ a, Q1 a → sat (k a) R P Q E) → sat (m ≫= k) R P Q E.
Proof.
  intros Hm Hk s r s' evs. unfold mbind, M_bind.
  destruct (m s) as [[[a|e] s1] e1] eqn:Hms.
  - destruct (Hm _ _ _ _ Hms) as (HR1 & HP1 & HQ1).
    destruct (k a s1) as [[r2 s2] e2] eqn:Hks. intros [= <- <- <-].
    destruct (Hk _ HQ1 _ _ _ _ Hks) as (HR2 & HP2 & HQ2).
    split_and!; [by etrans | by apply Forall_app | done].
  - intros [= <- <- <-]. by apply (Hm _ _ _ _ Hms).
Qed.

Lemma sat_weaken {A} (m : M S A) (Q Q' : A → Prop) (E E' : exn → Prop) :
  sat m R P Q E → (∀ a, Q a → Q' a) → (∀ e, E e → E' e) → sat m R P Q' E'.
Proof.
  intros Hm HQ HE s r s' evs Hrun.
  destruct (Hm _ _ _ _ Hrun) as (? & ? & Hr). split_and!; [done..|].
  destruct r; auto.
Qed.

Lemma sat_foldM {A B} (f : B → A → M S B) (b : B) (l : list A) (I : B → Prop) E :
  I b → (∀ b x, I b → sat (f b x) R P I E) → sat (foldM f b l) R P I E.
Proof.
  intros Hb Hf. revert b Hb. induction l as [|x l IH]; intros b Hb; simpl.
  - by apply sat_ret.
  - eapply sat_bind; [by apply Hf|]. intros b' Hb'. by apply IH.
Qed.

Lemma sat_foldM_Forall {A B} (f : B → A → M S B) (b : B) (l : list A)
    (I : B → Prop) (F : A → Prop) E :
  Forall F l → I b → (∀ b x, F x → I b → sat (f b x) R P I E) →
  sat (foldM f b l) R P I E.
Proof.
  intros Hl Hb Hf. revert b Hb. induction Hl as [|x l Hx _ IH]; intros b Hb; simpl.
  - by apply sat_ret.
  - eapply sat_bind; [by apply Hf|]. intros b' Hb'. by apply IH.
Qed.

Lemma sat_for_each {A} (l : list A) (f : A → M S unit) E :
  (∀ x, sat (f x) R P (λ _, True) E) → sat (for_each l f) R P (λ _, True) E.
Proof. intros Hf. apply sat_foldM; [done|]. intros _ x _. apply Hf. Qed.
End sat_rules.

Lemma sat_events {S A} (m : M S A) R (P P' : event → Prop) Q E :
  sat m R P Q E → (∀ ev, P ev → P' ev) → sat m R P' Q E.
Proof.
  intros Hm HP s r s' evs Hrun.
  destruct (Hm _ _ _ _ Hrun) as (? & Hevs & ?). split_and!; [done| |done].
  eapply Forall_impl; eauto.
Qed.

(** Close a goal about [mret] or [raise]. *)
Ltac sat_leaf :=
  lazymatch goal with
  | |- sat (mret _) _ _ _ _ => sat_apply sat_ret
  | |- sat (raise _) _ _ _ _ => sat_apply sat_raise
  end.

(** Step over a leading [gets], about whose result nothing is recorded. *)
Ltac sat_gets :=
  sat_apply sat_bind;
  [sat_apply sat_gets; instantiate (1 := λ _, True); done|].

(** ** How the backend operations change the world *)

#[global] Instance world_extends_refl : Reflexive world_extends.
Proof. intros w file root Hroot. eauto using node_extends_refl. Qed.

#[global] Instance world_extends_trans : Transitive world_extends.
Proof.
  intros w1 w2 w3 H12 H23 file root Hroot.
  destruct (H12 _ _ Hroot) as (r2 & Hr2 & He2).
  destruct (H23 _ _ Hr2) as (r3 & Hr3 & He3).
  eauto using node_extends_trans.
Qed.

#[global] Instance evolves_refl : Reflexive evolves.
Proof. intros w. by split_and!. Qed.

#[global] Instance evolves_trans : Transitive evolves.
Proof.
  intros w1 w2 w3 (Hi12 & He12 & Ho12) (Hi23 & He23 & Ho23).
  split_and!; [congruence | by etrans | auto].
Qed.

Lemma under_refl g : under g g.
Proof. by split. Qed.

Lemma under_app g0 g segs :
  under g0 g → under g0 (Handle (h_file g) (h_path g ++ segs)).
Proof.
  intros [Hf Hp]. split; simpl; [done|].
  by apply prefix_app_r.
Qed.

Lemma evolves_update_file file f w :
  (∀ root, fs w !! file = Some root →
     node_extends root (f root) ∧ (names_ok root = true → names_ok (f root) = true)) →
  evolves w (update_file file f w).
Proof.
  intros Hf. split_and!; [done|..].
  - intros file' root Hroot. simpl.
    destruct (decide (file = file')) as [<-|Hne].
    + rewrite lookup_alter_eq, Hroot. simpl. eexists; split; [done|].
      by apply Hf.
    + rewrite lookup_alter_ne by done. eauto using node_extends_refl.
  - intros Hok file' root'. simpl.
    destruct (decide (file = file')) as [<-|Hne].
    + rewrite lookup_alter_eq.
      destruct (fs w !! file) as [root|] eqn:Hroot; simpl; [|done].
      intros [= <-]. apply Hf; [done|]. by apply (Hok file).
    + rewrite lookup_alter_ne by done. apply Hok.
Qed.

(** ** HDF5 path names *)

Lemma h5_segments_valid name :
  Forall (λ s, valid_name s = true) (h5_segments name).
Proof.
  unfold h5_segments. apply Forall_forall.
  intros s [Hin Ht]%list_elem_of_In%filter_In.
  unfold valid_name. rewrite Ht. simpl.
  pose proof (PyStrFacts.split_no_slash name) as Hall.
  rewrite Forall_forall in Hall. rewrite (Hall s); [done|].
  by apply list_elem_of_In.
Qed.

Lemma filter_truthy_valid segs :
  Forall (λ s, valid_name s = true) segs → List.filter PyStr.truthy segs = segs.
Proof.
  induction 1 as [|x xs Hx _ IH]; simpl; [done|].
  unfold valid_name in Hx. apply andb_true_iff in Hx as [-> _]. by f_equal.
Qed.

Lemma valid_slash_free segs :
  Forall (λ s, valid_name s = true) segs →
  Forall (λ s, PyStr.has_slash s = false) segs.
Proof.
  intros H. eapply Forall_impl; [done|].
  intros s [_ Hs]%andb_true_iff. by apply negb_true_iff.
Qed.

(** A path made of link names is read back as those names. *)
Lemma h5_segments_join segs :
  Forall (λ s, valid_name s = true) segs → h5_segments (PyStr.join segs) = segs.
Proof.
  intros Hall. destruct segs as [|x xs]; [done|].
  unfold h5_segments.
  rewrite PyStrFacts.split_join; [by apply filter_truthy_valid|done|].
  by apply valid_slash_free.
Qed.

Lemma h5_absolute_app a b :
  PyStr.truthy a = true → h5_absolute (a ++ b) = h5_absolute a.
Proof. by destruct a. Qed.

Lemma h5_absolute_valid s : valid_name s = true → h5_absolute s = false.
Proof.
  destruct s as [|c s]; [done|]. unfold valid_name. simpl.
  by intros [Hc _]%negb_true_iff%orb_false_elim.
Qed.

Lemma h5_absolute_join segs :
  Forall (λ s, valid_name s = true) segs → h5_absolute (PyStr.join segs) = false.
Proof.
  intros Hall. destruct Hall as [|x xs Hx Hxs]; [done|].
  unfold PyStr.join. destruct xs as [|y ys].
  - by apply h5_absolute_valid.
  - change (String.concat "/" (x :: y :: ys))
      with (x ++ String "/" (String.concat "/" (y :: ys)))%string.
    rewrite h5_absolute_app; [by apply h5_absolute_valid|].
    unfold valid_name in Hx. by apply andb_true_iff in Hx as [? _].
Qed.

Lemma h5_path_join g segs :
  Forall (λ s, valid_name s = true) segs →
  h5_path g (PyStr.join segs) = h_path g ++ segs.
Proof.
  intros Hall. unfold h5_path.
  by rewrite h5_absolute_join, h5_segments_join.
Qed.

Lemma h5_path_valid g s : valid_name s = true → h5_path g s = h_path g ++ [s].
Proof. intros Hs. apply (h5_path_join g [s]). by constructor. Qed.

(** A path without empty components, not starting at the root, leads
    through its components. *)
Lemma h5_path_split g name :
  Forall (λ s, valid_name s = true) (PyStr.split name) →
  h5_path g name = h_path g ++ PyStr.split name.
Proof.
  intros Hall. rewrite <- (PyStrFacts.join_split name) at 1.
  by apply h5_path_join.
Qed.

Lemma h5_absolute_slash_free s : PyStr.has_slash s = false → h5_absolute s = false.
Proof. destruct s as [|c s]; [done|]. simpl. by intros [? _]%orb_false_elim. Qed.

(** A name without a slash is looked up in the object itself. *)
Lemma h5_path_relative g s :
  PyStr.has_slash s = false → h5_path g s = h_path g ++ h5_segments s.
Proof. intros Hs. unfold h5_path. by rewrite h5_absolute_slash_free. Qed.

Lemma h5_segments_leaf name :
  PyStr.truthy (List.last (h5_segments name) "") = true →
  h5_segments name =
    removelast (h5_segments name) ++ [List.last (h5_segments name) ""] ∧
  valid_name (List.last (h5_segments name) "") = true.
Proof.
  pose proof (h5_segments_valid name) as Hall.
  destruct (h5_segments name) as [|x xs _] using rev_ind; [done|].
  intros _. rewrite last_last, removelast_last. split; [done|].
  apply Forall_app in Hall as [_ Hx]. by inversion Hx.
Qed.

Lemma h5_path_leaf g name :
  PyStr.truthy (List.last (h5_segments name) "") = true →
  h5_path g name =
    removelast (h5_path g name) ++ [List.last (h5_segments name) ""].
Proof.
  unfold h5_path.
  destruct (h5_segments name) as [|x xs _] using rev_ind; [done|].
  intros _. by rewrite last_last, app_assoc, removelast_last.
Qed.

(** Every object of a file lies below its root group. *)
Lemma under_root g p : h_file p = h_file g → under (Handle (h_file g) []) p.
Proof. intros Hf. split; [done|]. apply prefix_nil. Qed.

Lemma under_root_of g p : under g p → under (Handle (h_file g) []) p.
Proof. intros [Hf _]. by apply under_root. Qed.

Lemma ev_under_root_of g ev : ev_under g ev → ev_under (Handle (h_file g) []) ev.
Proof. destruct ev; simpl; auto using under_root_of. Qed.

Section backend_specs.
Context (P : event → Prop) (E : exn → Prop).
Hypothesis HE : ∀ b, E (BackendError b).

Lemma sat_h5_contains g name Q :
  (∀ b, Q b) → sat (h5_contains g name) evolves P Q E.
Proof.
  intros HQ. unfold h5_contains. sat_gets.
  intros [[]|] _; try (sat_leaf; auto).
  destruct (PyStr.truthy name); [|sat_leaf; auto].
  sat_gets. intros m _. sat_leaf; auto.
Qed.

Lemma sat_h5_getitem g name (Q : handle → Prop) :
  Q (Handle (h_file g) (h5_path g name)) →
  sat (h5_getitem g name) evolves P Q E.
Proof.
  intros HQ. unfold h5_getitem. sat_gets.
  intros [[a ms|]|] _; try (sat_leaf; auto).
  destruct (PyStr.truthy name); [|sat_leaf; auto].
  sat_gets. intros [m|] _; sat_leaf; auto.
Qed.

Lemma sat_h5_keys g Q : (∀ ks, Q ks) → sat (h5_keys g) evolves P Q E.
Proof.
  intros HQ. unfold h5_keys. sat_gets.
  intros [[]|] _; sat_leaf; auto.
Qed.

Lemma sat_h5_create g name new (Q : handle → Prop) :
  names_ok new = true →
  Q (Handle (h_file g) (h5_path g name)) →
  sat (h5_create g name new) evolves P Q E.
Proof.
  intros Hnew HQ s r s' evs. unfold h5_create. unfold_M. simpl.
  destruct (node_at s g) as [[a0 ms0|]|] eqn:Hg;
    try (intros [= <- <- <-]; split_and!; done).
  destruct (PyStr.truthy _) eqn:Hleaf; simpl;
    [|intros [= <- <- <-]; split_and!; done].
  destruct (node_at s (Handle _ _)) as [[a ms|]|] eqn:Hp;
    try (intros [= <- <- <-]; split_and!; done).
  case_bool_decide as Hmem; simpl; intros [= <- <- <-];
    [split_and!; done|].
  split_and!; [|done..].
  unfold node_at in Hp. simpl in Hp.
  apply evolves_update_file. intros root Hroot. rewrite Hroot in Hp. split.
  - apply alter_at_extends. intros m. apply add_member_extends.
  - apply names_ok_alter_at. intros m Hm Hok. rewrite Hp in Hm.
    injection Hm as <-. apply names_ok_add_member; [|  |done..].
    + intros ?? [= <- <-]. destruct (lookup_member _ ms) eqn:Hl; [|done].
      exfalso. apply Hmem. by eexists.
    + by apply h5_segments_leaf.
Qed.

Lemma sat_h5_create_group g name (Q : handle → Prop) :
  P (EvCreateGroup g name) →
  Q (Handle (h_file g) (h5_path g name)) →
  sat (h5_create_group g name) evolves P Q E.
Proof.
  intros HP HQ. unfold h5_create_group. sat_apply sat_bind; [apply sat_h5_create; [done|exact HQ]|].
  intros h Hh. sat_apply sat_bind; [sat_apply sat_emit; [done|instantiate (1 := λ _, True); done]|].
  intros _ _. by sat_apply sat_ret.
Qed.

Lemma sat_h5_create_dataset g name data compression (Q : handle → Prop) :
  P (EvCreateDataset g name) →
  Q (Handle (h_file g) (h5_path g name)) →
  sat (h5_create_dataset g name data compression) evolves P Q E.
Proof.
  intros HP HQ. unfold h5_create_dataset.
  destruct (fields data); [sat_leaf; auto|].
  sat_apply sat_bind; [apply sat_h5_create; [done|exact HQ]|].
  intros h Hh. sat_apply sat_bind; [sat_apply sat_emit; [done|instantiate (1 := λ _, True); done]|].
  intros _ _. by sat_apply sat_ret.
Qed.

Lemma sat_h5_set_attr obj key v (Q : unit → Prop) :
  P (EvSetAttr obj key) → Q () →
  sat (h5_set_attr obj key v) evolves P Q E.
Proof.
  intros HP HQ. unfold h5_set_attr. sat_gets.
  intros [n|] _; [|sat_apply sat_raise; auto].
  sat_apply sat_bind; [|intros _ _; by sat_apply sat_emit].
  sat_apply sat_modify; [|instantiate (1 := λ _, True); done].
  intros s. apply evolves_update_file. intros root _. split.
  - apply alter_at_extends. intros m. apply set_attr_extends.
  - apply names_ok_alter_at. intros m _. by rewrite names_ok_set_attr.
Qed.
End backend_specs.

(** ** What the backend operations return *)

Lemma node_at_app w g segs m :
  node_at w (Handle (h_file g) (h_path g ++ segs)) = Some m →
  ∃ n, node_at w g = Some n ∧ resolve n segs = Some m.
Proof.
  unfold node_at. simpl. destruct (fs w !! h_file g) as [root|]; [|done].
  rewrite resolve_app. destruct (resolve root (h_path g)) as [n|]; [|done].
  eauto.
Qed.

Lemma node_at_evolves w w' h :
  evolves w w' → is_Some (node_at w h) → is_Some (node_at w' h).
Proof.
  intros (_ & Hext & _) [m Hm]. unfold node_at in *.
  destruct (fs w !! h_file h) as [root|] eqn:Hroot; [|done].
  destruct (Hext _ _ Hroot) as (root' & -> & Hroot').
  destruct (Hroot' _ _ Hm) as (m' & -> & _). by eexists.
Qed.

Lemma h5_contains_inv g name w r w' evs :
  h5_contains g name w = (r, w', evs) → w' = w ∧ evs = [].
Proof.
  unfold h5_contains. unfold_M.
  destruct (node_at w g) as [[]|]; try by intros [= <- <- <-].
  destruct (PyStr.truthy name); by intros [= <- <- <-].
Qed.

(** What [name in g] and [g[name]] give for a group [g]. *)
Lemma h5_contains_group g name w a ms :
  node_at w g = Some (Group a ms) →
  h5_contains g name w =
    (Ok (PyStr.truthy name &&
         bool_decide (is_Some (node_at w (Handle (h_file g) (h5_path g name))))),
     w, []).
Proof.
  intros Hg. unfold h5_contains. unfold_M. rewrite Hg.
  by destruct (PyStr.truthy name).
Qed.

Lemma h5_getitem_group g name w a ms :
  node_at w g = Some (Group a ms) → PyStr.truthy name = true →
  h5_getitem g name w =
    (match node_at w (Handle (h_file g) (h5_path g name)) with
     | Some _ => Ok (Handle (h_file g) (h5_path g name))
     | None => Raise (BackendError NoSuchObject)
     end, w, []).
Proof.
  intros Hg Hname. unfold h5_getitem. unfold_M. rewrite Hg, Hname.
  by destruct (node_at w (Handle _ _)).
Qed.

Lemma h5_contains_found g name w a ms :
  node_at w g = Some (Group a ms) → PyStr.truthy name = true →
  is_Some (node_at w (Handle (h_file g) (h5_path g name))) →
  h5_contains g name w = (Ok true, w, []).
Proof.
  intros Hg Hname Hm. rewrite (h5_contains_group _ _ _ _ _ Hg), Hname.
  by rewrite bool_decide_eq_true_2.
Qed.

Lemma h5_getitem_found g name w a ms :
  node_at w g = Some (Group a ms) → PyStr.truthy name = true →
  is_Some (node_at w (Handle (h_file g) (h5_path g name))) →
  h5_getitem g name w = (Ok (Handle (h_file g) (h5_path g name)), w, []).
Proof.
  intros Hg Hname [m Hm]. by rewrite (h5_getitem_group _ _ _ _ _ Hg), Hm.
Qed.

(** Only a group is asked for an object or given a new one, and only
    under a name that is not empty. *)
Lemma h5_getitem_ok g name w h w' evs :
  h5_getitem g name w = (Ok h, w', evs) →
  (∃ a ms, node_at w g = Some (Group a ms)) ∧ PyStr.truthy name = true.
Proof.
  unfold h5_getitem. unfold_M.
  destruct (node_at w g) as [[a ms|]|]; try done.
  destruct (PyStr.truthy name); [eauto|done].
Qed.

Lemma h5_create_ok g name new w h w' evs :
  h5_create g name new w = (Ok h, w', evs) →
  (∃ a ms, node_at w g = Some (Group a ms)) ∧ PyStr.truthy name = true.
Proof.
  unfold h5_create. unfold_M. simpl.
  destruct (node_at w g) as [[a ms|]|]; try done.
  destruct (PyStr.truthy (List.last _ _)) eqn:Hleaf; [|done].
  intros _. split; [eauto|]. by destruct name.
Qed.

Lemma h5_create_group_ok g name w h w' evs :
  h5_create_group g name w = (Ok h, w', evs) →
  (∃ a ms, node_at w g = Some (Group a ms)) ∧ PyStr.truthy name = true.
Proof.
  unfold h5_create_group. rewrite bind_run.
  destruct (h5_create _ _ _ _) as [[[h0|e] w1] e1] eqn:Hc; [|done].
  intros _. by eapply h5_create_ok.
Qed.

Lemma node_at_evolves_group w w' h a ms :
  evolves w w' → node_at w h = Some (Group a ms) →
  ∃ a' ms', node_at w' h = Some (Group a' ms').
Proof.
  intros (_ & Hext & _) Hm. unfold node_at in *.
  destruct (fs w !! h_file h) as [root|] eqn:Hroot; [|done].
  destruct (Hext _ _ Hroot) as (root' & -> & Hroot').
  destruct (Hroot' _ _ Hm) as ([a' ms'|] & -> & Hsame); [eauto|done].
Qed.

(** A link name of [g] that leads somewhere: [g] is a group then. *)
Lemma node_at_member w g name :
  is_Some (node_at w (Handle (h_file g) (h_path g ++ [name]))) →
  ∃ a ms, node_at w g = Some (Group a ms).
Proof.
  intros [m Hm]. apply node_at_app in Hm as (n & Hn & Hm).
  destruct n as [a ms|]; [eauto|done].
Qed.

Lemma h5_contains_present g name w :
  valid_name name = true →
  is_Some (node_at w (Handle (h_file g) (h_path g ++ [name]))) →
  h5_contains g name w = (Ok true, w, []).
Proof.
  intros Hname Hm. destruct (node_at_member _ _ _ Hm) as (a & ms & Hg).
  rewrite (h5_contains_group _ _ _ _ _ Hg), h5_path_valid by done.
  rewrite bool_decide_eq_true_2 by done.
  unfold valid_name in Hname. by apply andb_true_iff in Hname as [-> _].
Qed.

Lemma h5_getitem_present g name w :
  valid_name name = true →
  is_Some (node_at w (Handle (h_file g) (h_path g ++ [name]))) →
  h5_getitem g name w = (Ok (Handle (h_file g) (h_path g ++ [name])), w, []).
Proof.
  intros Hname Hm. destruct (node_at_member _ _ _ Hm) as (a & ms & Hg).
  rewrite (h5_getitem_group _ _ _ _ _ Hg), h5_path_valid by
    (done || by apply andb_true_iff in Hname as [? _]).
  by destruct Hm as [m ->].
Qed.

Lemma split_valid_truthy name :
  Forall (λ s, valid_name s = true) (PyStr.split name) → PyStr.truthy name = true.
Proof. destruct name; [by inversion 1|done]. Qed.

(** Names without empty components, looked up from the object. *)
Lemma h5_contains_clean g name w :
  Forall (λ s, valid_name s = true) (PyStr.split name) →
  is_Some (node_at w (Handle (h_file g) (h_path g ++ PyStr.split name))) →
  h5_contains g name w = (Ok true, w, []).
Proof.
  intros Hname [m Hm].
  pose proof Hm as Hm'. apply node_at_app in Hm' as (n & Hn & Hres).
  pose proof (PyStrFacts.split_not_nil name) as Hne.
  destruct n as [a ms|]; [|by destruct (PyStr.split name)].
  eapply h5_contains_found; [done|by apply split_valid_truthy|].
  rewrite h5_path_split by done. eauto.
Qed.

Lemma h5_getitem_clean g name w :
  Forall (λ s, valid_name s = true) (PyStr.split name) →
  is_Some (node_at w (Handle (h_file g) (h_path g ++ PyStr.split name))) →
  h5_getitem g name w =
    (Ok (Handle (h_file g) (h_path g ++ PyStr.split name)), w, []).
Proof.
  intros Hname [m Hm].
  pose proof Hm as Hm'. apply node_at_app in Hm' as (n & Hn & Hres).
  pose proof (PyStrFacts.split_not_nil name) as Hne.
  destruct n as [a ms|]; [|by destruct (PyStr.split name)].
  rewrite <- (h5_path_split g name) by done.
  eapply h5_getitem_found; [done|by apply split_valid_truthy|].
  rewrite h5_path_split by done. eauto.
Qed.

Lemma h5_getitem_inv g name w r w' evs :
  h5_getitem g name w = (r, w', evs) →
  w' = w ∧ evs = [] ∧
  ∀ h, r = Ok h →
    h = Handle (h_file g) (h5_path g name) ∧
    is_Some (node_at w h).
Proof.
  unfold h5_getitem. unfold_M.
  destruct (node_at w g) as [[a ms|]|] eqn:Hg;
    try (intros [= <- <- <-]; done).
  destruct (PyStr.truthy name); [|intros [= <- <- <-]; done].
  destruct (node_at w (Handle _ _)) as [m|] eqn:Hm; intros [= <- <- <-]; [|done].
  split_and!; [done..|]. intros h [= <-]. split; [done|]. by rewrite Hm.
Qed.

Lemma h5_create_inv g name new w r w' evs :
  h5_create g name new w = (r, w', evs) →
  evs = [] ∧
  match r with
  | Ok h =>
      h = Handle (h_file g) (h5_path g name) ∧
      node_at w' h = Some new
  | Raise _ => w' = w
  end.
Proof.
  unfold h5_create. unfold_M. simpl.
  destruct (node_at w g) as [[a0 ms0|]|] eqn:Hg;
    try (intros [= <- <- <-]; done).
  destruct (PyStr.truthy _) eqn:Hleaf; simpl; [|intros [= <- <- <-]; done].
  destruct (node_at w (Handle _ _)) as [[a ms|]|] eqn:Hp;
    try (intros [= <- <- <-]; done).
  case_bool_decide as Hmem; simpl; intros [= <- <- <-]; [done|].
  split_and!; [done..|].
  pose proof (h5_path_leaf g name Hleaf) as Hpath.
  unfold node_at in *. simpl in *.
  destruct (fs w !! h_file g) as [root|] eqn:Hroot; [|done].
  rewrite lookup_alter_eq, Hroot. simpl.
  set (q := removelast (h5_path g name)) in *. rewrite Hpath.
  eapply resolve_add_member; [done|].
  destruct (lookup_member _ ms) eqn:Hl; [|done]. exfalso. apply Hmem. eauto.
Qed.

Lemma h5_create_group_inv g name w r w' evs :
  h5_create_group g name w = (r, w', evs) →
  match r with
  | Ok h =>
      h = Handle (h_file g) (h5_path g name) ∧
      node_at w' h = Some (Group ∅ []) ∧ evs = [EvCreateGroup g name]
  | Raise _ => w' = w ∧ evs = []
  end.
Proof.
  unfold h5_create_group. rewrite bind_run.
  destruct (h5_create _ _ _ _) as [[[h|e] w1] e1] eqn:Hc;
    apply h5_create_inv in Hc as [-> Hc].
  - unfold_M. simpl. intros [= <- <- <-]. by destruct Hc.
  - by intros [= <- <- <-].
Qed.

Lemma h5_create_dataset_inv g name data compression w r w' evs :
  h5_create_dataset g name data compression w = (r, w', evs) →
  match r with
  | Ok h =>
      fields data ≠ [] ∧
      h = Handle (h_file g) (h5_path g name) ∧
      node_at w' h = Some (Dataset ∅ (Structured data)) ∧
      evs = [EvCreateDataset g name]
  | Raise _ => w' = w ∧ evs = []
  end.
Proof.
  unfold h5_create_dataset. destruct (fields data) as [|fld flds].
  { by intros [= <- <- <-]. }
  rewrite bind_run.
  destruct (h5_create _ _ _ _) as [[[h|e] w1] e1] eqn:Hc;
    apply h5_create_inv in Hc as [-> Hc].
  - unfold_M. simpl. intros [= <- <- <-]. by destruct Hc.
  - by intros [= <- <- <-].
Qed.

(** With columns to store, [create_dataset] links a dataset as
    [h5_create] does. *)
Lemma h5_create_dataset_fields g name data compression :
  fields data ≠ [] →
  h5_create_dataset g name data compression =
  (h ← h5_create g name (Dataset ∅ (Structured data));
   emit (EvCreateDataset g name);;
   mret h).
Proof. unfold h5_create_dataset. by destruct (fields data). Qed.

(** ** Path resolution *)

Lemma sat_create_required_groups g path (P : event → Prop) (E : exn → Prop) :
  (∀ p name, under g p → P (EvCreateGroup p name)) →
  (∀ b, E (BackendError b)) →
  sat (_create_required_groups g path) evolves P (λ _, True) E.
Proof.
  intros HP HE. unfold _create_required_groups.
  sat_apply sat_bind; [|intros _ _; by sat_leaf].
  sat_apply sat_foldM_Forall;
    [apply PyStrFacts.split_no_slash|apply (under_refl g)|]. simpl.
  intros h dirname Hdir Hh.
  sat_apply sat_bind;
    [apply sat_h5_contains with (Q := λ _, True); done|].
  intros [] _; simpl.
  - apply sat_h5_getitem; [done|].
    rewrite h5_path_relative by done. by apply under_app.
  - apply sat_h5_create_group; [done|by apply HP|].
    rewrite h5_path_relative by done. by apply under_app.
Qed.

(** The loop of [_create_required_groups], started at any group. *)
Lemma ensure_path_again segs : ∀ g w r w1 evs,
  foldM (λ g dirname,
           present ← h5_contains g dirname;
           if negb present then h5_create_group g dirname
           else h5_getitem g dirname) g segs w = (r, w1, evs) →
  evolves w w1 ∧
  foldM (λ g dirname,
           present ← h5_contains g dirname;
           if negb present then h5_create_group g dirname
           else h5_getitem g dirname) g segs w1 = (r, w1, []).
Proof.
  induction segs as [|s segs IH]; intros g w r w1 evs; cbn [foldM].
  - unfold_M. by intros [= <- <- <-].
  - rewrite !bind_run.
    destruct (h5_contains g s w) as [[[present|e] w0] e0] eqn:Hc;
      pose proof Hc as Hc'; apply h5_contains_inv in Hc' as [-> ->].
    2:{ intros [= <- <- <-]. split; [done|]. by rewrite Hc. }
    assert (∀ h w' e',
      (if negb present then h5_create_group g s else h5_getitem g s) w
        = (Ok h, w', e') →
      evolves w w' ∧ h = Handle (h_file g) (h5_path g s) ∧
      is_Some (node_at w' h) ∧
      (∃ a ms, node_at w g = Some (Group a ms)) ∧
      PyStr.truthy s = true) as Hstep.
    { intros h w' e' Hrun. split_and!.
      - destruct present; simpl in Hrun.
        + apply h5_getitem_inv in Hrun as (-> & _ & _). done.
        + by destruct (sat_h5_create_group (λ _, True) (λ _, True)
                         ltac:(done) g s (λ _, True) I I _ _ _ _ Hrun).
      - destruct present; simpl in Hrun.
        + apply h5_getitem_inv in Hrun as (_ & _ & Hh). by apply Hh.
        + by apply h5_create_group_inv in Hrun as (-> & _).
      - destruct present; simpl in Hrun.
        + apply h5_getitem_inv in Hrun as (-> & _ & Hh). by apply Hh.
        + apply h5_create_group_inv in Hrun as (-> & Hn & _). eauto.
      - destruct present; simpl in Hrun.
        + by apply h5_getitem_ok in Hrun as [? _].
        + by apply h5_create_group_ok in Hrun as [? _].
      - destruct present; simpl in Hrun.
        + by apply h5_getitem_ok in Hrun as [_ ?].
        + by apply h5_create_group_ok in Hrun as [_ ?]. }
    destruct ((if negb present then h5_create_group g s
               else h5_getitem g s) w) as [[[h|e] w'] e'] eqn:Hs.
    + destruct (Hstep _ _ _ eq_refl) as (Hev & -> & Hh & (a & ms & Hg) & Hname).
      destruct (foldM _ _ segs w') as [[r2 w2] e2] eqn:Hrest.
      intros [= <- <- <-].
      destruct (IH _ _ _ _ _ Hrest) as [Hev2 Hagain].
      split; [by etrans|].
      pose proof (node_at_evolves _ _ _ Hev2 Hh) as Hh2.
      destruct (node_at_evolves_group _ _ _ _ _ (transitivity Hev Hev2) Hg)
        as (a2 & ms2 & Hg2).
      rewrite (h5_contains_found _ _ _ _ _ Hg2 Hname Hh2). simpl.
      rewrite (h5_getitem_found _ _ _ _ _ Hg2 Hname Hh2). by rewrite Hagain.
    + intros [= <- <- <-].
      assert (w' = w ∧ e' = []) as [-> ->].
      { destruct present; simpl in Hs.
        - by apply h5_getitem_inv in Hs as (-> & -> & _).
        - by apply h5_create_group_inv in Hs as [-> ->]. }
      split; [done|]. by rewrite Hc, Hs.
Qed.

(** C4: running [_create_required_groups] a second time on the same group
    and path changes nothing: it ends the same way, leaves the container
    exactly as the first run left it and creates no group; the first run
    only adds to the container and keeps the member names of every group
    distinct. *)
Theorem create_required_groups_idempotent g path w r w1 evs :
  _create_required_groups g path w = (r, w1, evs) →
  _create_required_groups g path w1 = (r, w1, []) ∧
  world_extends w w1 ∧
  (world_ok w → world_ok w1).
Proof.
  intros Hrun.
  pose proof (sat_create_required_groups g path (λ _, True) (λ _, True)
                ltac:(done) ltac:(done) _ _ _ _ Hrun) as [(_ & Hext & Hok) _].
  split; [|done].
  revert Hrun. unfold _create_required_groups.
  rewrite bind_run.
  destruct (foldM _ g (PyStr.split path) w) as [[[h|e] w'] e'] eqn:Hloop;
    unfold mret, M_ret; intros [= <- <- <-];
    apply ensure_path_again in Hloop as [_ Hagain];
    by rewrite bind_run, Hagain.
Qed.

Lemma create_required_groups_idempotent_witness :
  let w := World true {["f.h5" := Group ∅ [("a", Group ∅ [])]]} in
  let g := Handle "f.h5" [] in
  let w1 := (_create_required_groups g "a/b/c" w).1.2 in
  _create_required_groups g "a/b/c" w1 = (Ok (), w1, []) ∧
  world_extends w w1 ∧
  (world_ok w → world_ok w1).
Proof.
  intros w g w1.
  apply (create_required_groups_idempotent g "a/b/c" w (Ok ()) w1
           [EvCreateGroup (Handle "f.h5" ["a"]) "b";
            EvCreateGroup (Handle "f.h5" ["a"; "b"]) "c"]).
  vm_compute. reflexivity.
Defined.

Example create_required_groups_tree :
  fs (_create_required_groups (Handle "f.h5" []) "a/b/c"
        (World true {["f.h5" := Group ∅ [("a", Group ∅ [])]]})).1.2 !! "f.h5" =
  Some (Group ∅ [("a", Group ∅ [("b", Group ∅ [("c", Group ∅ [])])])]).
Proof. vm_compute. reflexivity. Qed.

(** ** Table discovery *)

Lemma descendants_group a ms :
  descendants (Group a ms) =
  flat_map (λ kc, [kc.1] :: map (cons kc.1) (descendants kc.2)) ms.
Proof.
  simpl. induction ms as [|[k c] ms IH]; [done|].
  simpl. by rewrite IH.
Qed.

Lemma descendants_resolve n : ∀ segs,
  names_ok n = true → segs ∈ descendants n →
  segs ≠ [] ∧ Forall (λ s, valid_name s = true) segs ∧ is_Some (resolve n segs).
Proof.
  induction n as [a ms IH|a d] using node_ind'; intros segs Hok Hin.
  2:{ by apply elem_of_nil in Hin. }
  rewrite descendants_group in Hin.
  apply list_elem_of_In, in_flat_map in Hin as ([k c] & Hkc & Hin).
  apply list_elem_of_In in Hkc, Hin. simpl in Hin.
  apply names_ok_group in Hok as [Hnd Hall].
  rewrite Forall_forall in IH, Hall.
  destruct (Hall _ Hkc) as [Hk Hc]. simpl in *.
  pose proof (lookup_member_NoDup _ _ _ Hnd Hkc) as Hlook.
  apply elem_of_cons in Hin as [->|Hin].
  - split_and!; [done|by repeat constructor|]. simpl. rewrite Hlook. eauto.
  - apply list_elem_of_fmap in Hin as (rest & -> & Hrest).
    destruct (IH _ Hkc rest Hc Hrest) as (_ & Hvalid & Hres).
    split_and!; [done|by constructor|]. simpl. by rewrite Hlook.
Qed.

Lemma resolve_descendants n : ∀ segs m,
  segs ≠ [] → resolve n segs = Some m → segs ∈ descendants n.
Proof.
  induction n as [a ms IH|a d] using node_ind'; intros segs m Hne Hres.
  2:{ by destruct segs. }
  destruct segs as [|s rest]; [done|]. simpl in Hres.
  destruct (lookup_member s ms) as [c|] eqn:Hc; [|done].
  apply lookup_member_Some in Hc.
  rewrite descendants_group. apply list_elem_of_In, in_flat_map.
  exists (s, c). split; [by apply list_elem_of_In|].
  apply list_elem_of_In. simpl.
  destruct rest as [|s' rest']; [left|right].
  rewrite Forall_forall in IH.
  apply list_elem_of_fmap. exists (s' :: rest'). split; [done|].
  by eapply (IH _ Hc).
Qed.

Lemma resolve_valid_names n : ∀ segs m,
  names_ok n = true → resolve n segs = Some m →
  Forall (λ s, valid_name s = true) segs.
Proof.
  intros segs. revert n. induction segs as [|s rest IH]; intros n m Hok Hres.
  - constructor.
  - destruct n as [a ms|]; [|done]. simpl in Hres.
    destruct (lookup_member s ms) as [c|] eqn:Hc; [|done].
    apply lookup_member_Some in Hc.
    apply names_ok_group in Hok as [_ Hall].
    rewrite Forall_forall in Hall. destruct (Hall _ Hc) as [Hs Hcok].
    constructor; [done|]. by eapply IH.
Qed.

Lemma valid_names_slash_free segs :
  Forall (λ s, valid_name s = true) segs →
  Forall (λ s, PyStr.has_slash s = false) segs.
Proof.
  intros Hall. eapply Forall_impl; [done|].
  intros s [_ Hs]%andb_true_iff. by apply negb_true_iff in Hs.
Qed.

Lemma node_at_below w g n segs :
  node_at w g = Some n →
  node_at w (Handle (h_file g) (h_path g ++ segs)) = resolve n segs.
Proof.
  unfold node_at. simpl. destruct (fs w !! h_file g) as [root|]; [|done].
  intros Hn. by rewrite resolve_app, Hn.
Qed.

Lemma collect_tables_lookup n names : ∀ tables p q,
  (∀ k v, tables !! k = Some v → v = k) →
  collect_tables n names tables !! p = Some q ↔
  tables !! p = Some q ∨
  (q = p ∧ p ∈ names ∧
   ∃ m, resolve n (PyStr.split p) = Some m ∧ is_record m = true).
Proof.
  unfold collect_tables.
  induction names as [|item names IH]; intros tables p q Hid; simpl.
  - split; [by left|]. intros [?|(_ & []%elem_of_nil & _)]. done.
  - rewrite IH; clear IH.
    2:{ intros k v. destruct (resolve n (PyStr.split item)) as [m|]; [|apply Hid].
        destruct (is_record m); [|apply Hid].
        destruct (decide (item = k)) as [->|Hne].
        - rewrite lookup_insert_eq. congruence.
        - rewrite lookup_insert_ne by done. apply Hid. }
    split.
    + intros [Hp|(-> & Hin & Hrec)].
      * destruct (resolve n (PyStr.split item)) as [m|] eqn:Hm; [|by left].
        destruct (is_record m) eqn:Hrec; [|by left].
        destruct (decide (item = p)) as [->|Hne].
        -- rewrite lookup_insert_eq in Hp. injection Hp as <-.
           right. split_and!; [done|left|eauto].
        -- rewrite lookup_insert_ne in Hp by done. by left.
      * right. split_and!; [done|by right|done].
    + intros [Hp|(-> & Hin & m & Hm & Hrec)].
      * left. destruct (resolve n (PyStr.split item)) as [m|]; [|done].
        destruct (is_record m); [|done].
        destruct (decide (item = p)) as [->|Hne].
        -- rewrite lookup_insert_eq. f_equal. symmetry. by eapply Hid.
        -- by rewrite lookup_insert_ne.
      * apply elem_of_cons in Hin as [->|Hin].
        -- left. by rewrite Hm, Hrec, lookup_insert_eq.
        -- right. eauto.
Qed.

Lemma h5_is_dataset_run w obj m :
  node_at w obj = Some m →
  h5_is_dataset obj w =
    (Ok (match m with Dataset _ _ => true | Group _ _ => false end), w, []).
Proof. intros Hm. unfold h5_is_dataset. unfold_M. rewrite Hm. by destruct m. Qed.

Lemma h5_array_run w obj a d :
  node_at w obj = Some (Dataset a d) → h5_array obj w = (Ok d, w, []).
Proof. intros Hm. unfold h5_array. unfold_M. by rewrite Hm. Qed.

Lemma h5_dtype_names_run w obj a d :
  node_at w obj = Some (Dataset a d) →
  h5_dtype_names obj w = (Ok (dtype_names d), w, []).
Proof.
  intros Hm. unfold h5_dtype_names. rewrite bind_run.
  by rewrite (h5_array_run _ _ _ _ Hm).
Qed.

Lemma h5_len_run w obj a d :
  node_at w obj = Some (Dataset a d) →
  h5_len obj w = (Ok (array_len d), w, []).
Proof.
  intros Hm. unfold h5_len. rewrite bind_run.
  by rewrite (h5_array_run _ _ _ _ Hm).
Qed.

Lemma list_tables_loop g w n names : ∀ tables,
  node_at w g = Some n → (∃ a ms, n = Group a ms) →
  Forall (λ item, Forall (λ s, valid_name s = true) (PyStr.split item) ∧
                  is_Some (resolve n (PyStr.split item))) names →
  foldM (λ (tables : gmap string string) item,
           obj ← h5_getitem g item;
           is_dataset ← h5_is_dataset obj;
           if is_dataset : bool then
             obj ← h5_getitem g item;
             names ← h5_dtype_names obj;
             if names_truthy names then mret (<[item := item]> tables)
             else mret tables
           else mret tables) tables names w
  = (Ok (collect_tables n names tables), w, []).
Proof.
  intros tables Hn Hgroup Hall. revert tables.
  induction Hall as [|item names [Hitem [m Hm]] Hall IH]; intros tables; [done|].
  cbn [foldM]. rewrite bind_run, bind_run.
  assert (node_at w (Handle (h_file g) (h_path g ++ PyStr.split item)) = Some m)
    as Hobj by (by rewrite (node_at_below _ _ _ _ Hn)).
  rewrite h5_getitem_clean by eauto.
  rewrite bind_run, (h5_is_dataset_run _ _ _ Hobj).
  unfold collect_tables. cbn [foldl]. rewrite Hm.
  destruct m as [a ms|a d]; cbn [is_record].
  - unfold mret, M_ret at 1. by rewrite IH.
  - rewrite bind_run, h5_getitem_clean by eauto.
    rewrite bind_run, (h5_dtype_names_run _ _ _ _ Hobj).
    destruct (names_truthy (dtype_names d)); unfold mret, M_ret at 1;
      by rewrite IH.
Qed.

Lemma list_tables_run g w a ms :
  node_at w g = Some (Group a ms) → names_ok (Group a ms) = true →
  _list_tables g w =
    (Ok (collect_tables (Group a ms)
           (map PyStr.join (descendants (Group a ms))) ∅), w, []).
Proof.
  intros Hn Hok. unfold _list_tables. rewrite bind_run.
  unfold h5_visit at 1. rewrite bind_run. unfold gets at 1. rewrite Hn.
  unfold mret, M_ret at 1.
  rewrite (list_tables_loop g w (Group a ms)); [done..|eauto|].
  apply Forall_forall. intros item (segs & -> & Hsegs)%list_elem_of_fmap.
  destruct (descendants_resolve _ _ Hok Hsegs) as (Hne & Hvalid & Hres).
  by rewrite PyStrFacts.split_join by auto using valid_names_slash_free.
Qed.

(** C5: on a group of a container, [_list_tables] returns a mapping from
    paths to themselves whose keys are exactly the full paths of the
    descendants that are datasets with named fields; a group or a dataset
    without named fields is never a key. *)
Theorem list_tables_finds_record_datasets g w a ms :
  node_at w g = Some (Group a ms) → names_ok (Group a ms) = true →
  ∃ tables,
    _list_tables g w = (Ok tables, w, []) ∧
    ∀ p q, tables !! p = Some q ↔
      q = p ∧
      ∃ segs m, segs ≠ [] ∧ p = PyStr.join segs ∧
        resolve (Group a ms) segs = Some m ∧ is_record m = true.
Proof.
  intros Hn Hok. eexists. split; [by apply list_tables_run|].
  intros p q. rewrite collect_tables_lookup by (intros ??; by rewrite lookup_empty).
  rewrite lookup_empty. split.
  - intros [?|(-> & Hin & m & Hm & Hrec)]; [done|]. split; [done|].
    exists (PyStr.split p), m.
    split_and!; [apply PyStrFacts.split_not_nil| |done..].
    by rewrite PyStrFacts.join_split.
  - intros (-> & segs & m & Hne & -> & Hm & Hrec). right.
    pose proof (resolve_valid_names _ _ _ Hok Hm) as Hvalid.
    split_and!; [done| |].
    + apply list_elem_of_fmap. exists segs. split; [done|].
      by eapply resolve_descendants.
    + exists m. by rewrite PyStrFacts.split_join
        by auto using valid_names_slash_free.
Qed.

Lemma list_tables_finds_record_datasets_witness :
  let root :=
    Group ∅ [("grp", Group ∅ [("obs", Dataset ∅ (Structured (RecArray 1 [("x", [VInt 1])])))]);
             ("img", Dataset ∅ (Plain [VInt 0; VInt 1]))] in
  let w := World true {["f.h5" := root]} in
  ∃ tables,
    _list_tables (Handle "f.h5" []) w = (Ok tables, w, []) ∧
    ∀ p q, tables !! p = Some q ↔
      q = p ∧
      ∃ segs m, segs ≠ [] ∧ p = PyStr.join segs ∧
        resolve root segs = Some m ∧ is_record m = true.
Proof.
  intros root w.
  apply (list_tables_finds_record_datasets (Handle "f.h5" []) w);
    vm_compute; reflexivity.
Defined.

Example list_tables_example :
  (_list_tables (Handle "f.h5" [])
     (World true {["f.h5" :=
        Group ∅ [("grp", Group ∅ [("obs", Dataset ∅ (Structured (RecArray 1 [("x", [VInt 1])])))]);
                 ("img", Dataset ∅ (Plain [VInt 0; VInt 1]))]]})).1.1
  = Ok {["grp/obs" := "grp/obs"]}.
Proof. vm_compute. reflexivity. Qed.

(** ** Single-table read *)

Lemma on_world_run {T A} (m : M world A) (t : T) w :
  on_world m (t, w) = match m w with (r, w', evs) => (r, (t, w'), evs) end.
Proof. reflexivity. Qed.

Lemma check_h5py_installed_run w :
  h5py_installed w = true → _check_h5py_installed w = (Ok (), w, []).
Proof. intros H. unfold _check_h5py_installed. unfold_M. by rewrite H. Qed.

Lemma lookup_field_app_r name done rest :
  name ∉ done.*1 → lookup_field name (done ++ rest) = lookup_field name rest.
Proof.
  induction done as [|[k c] done IH]; csimpl; [done|].
  intros [Hk Hdone]%not_elem_of_cons. rewrite decide_False by done. auto.
Qed.

Lemma set_field_app_r name col done rest :
  name ∉ done.*1 →
  set_field name col (done ++ rest) = done ++ set_field name col rest.
Proof.
  induction done as [|[k c] done IH]; csimpl; [done|].
  intros [Hk Hdone]%not_elem_of_cons. rewrite decide_False by done.
  by rewrite IH.
Qed.

Lemma assign_column_at name col old n done rest :
  name ∉ done.*1 → length old = length col →
  assign_column name col (RecArray n (done ++ (name, old) :: rest)) =
  Some (RecArray n (done ++ (name, col) :: rest)).
Proof.
  intros Hfresh Hlen. unfold assign_column. cbn [fields nrows].
  rewrite lookup_field_app_r by done. cbn [lookup_field].
  rewrite !decide_True by done.
  rewrite set_field_app_r by done. cbn [set_field].
  by rewrite decide_True.
Qed.

Lemma h5_read_field_run w obj a r name col :
  node_at w obj = Some (Dataset a (Structured r)) →
  lookup_field name (fields r) = Some col →
  h5_read_field obj name w = (Ok col, w, []).
Proof.
  intros Hobj Hcol. unfold h5_read_field. rewrite bind_run.
  rewrite (h5_array_run _ _ _ _ Hobj). by rewrite Hcol.
Qed.

(** The column loop of [read]: with the columns before [todo] already
    copied and the others still as allocated, it copies the rest. *)
Lemma read_columns g table w obj a r :
  h5_getitem g table w = (Ok obj, w, []) →
  node_at w obj = Some (Dataset a (Structured r)) →
  Forall (λ f, length f.2 = nrows r) (fields r) →
  ∀ todo done self,
    fields r = done ++ todo → NoDup (done ++ todo).*1 →
    Table.data self =
      RecArray (nrows r)
        (done ++ map (λ f, (f.1, replicate (nrows r) (VInt 0))) todo) →
    for_each todo.*1 (λ name,
      col ← on_world (d ← h5_getitem g table; h5_read_field d name);
      self ← get_self;
      match assign_column name col (Table.data self) with
      | Some r => on_self (Table.set_data r)
      | None => raise (BackendError ShapeMismatch)
      end) (self, w)
    = (Ok (), (Table.set_data (RecArray (nrows r) (fields r)) self, w), []).
Proof.
  intros Hget Hobj Hlen. unfold for_each.
  induction todo as [|[name col] todo IH]; intros done self Hfields Hnd Hdata.
  - simpl. unfold mret, M_ret. rewrite app_nil_r in *. simpl in Hdata.
    destruct self as [tn d kw]. simpl in *. subst d. by rewrite Hfields.
  - csimpl. rewrite bind_run, bind_run, on_world_run, bind_run.
    rewrite Hget.
    assert (name ∉ done.*1) as Hfresh.
    { rewrite fmap_app in Hnd. apply NoDup_app in Hnd as (_ & Hdis & _).
      intros Hin. apply (Hdis _ Hin). csimpl. left. }
    erewrite h5_read_field_run; [|done|].
    2:{ rewrite Hfields, lookup_field_app_r by done. simpl.
        by rewrite decide_True. }
    assert (length col = nrows r) as Hcol.
    { rewrite Hfields in Hlen. apply Forall_app in Hlen as [_ Hlen].
      by inversion Hlen. }
    rewrite bind_run. unfold get_self at 1. rewrite Hdata. cbn [map fst].
    rewrite assign_column_at by (by rewrite ?length_replicate).
    unfold on_self at 1.
    specialize (IH (done ++ [(name, col)])
                  (Table.set_data
                     (RecArray (nrows r)
                        (done ++ (name, col)
                           :: map (λ f, (f.1, replicate (nrows r) (VInt 0))) todo))
                     self)).
    rewrite <- !app_assoc in IH. simpl in IH.
    rewrite IH by done. by destruct self.
Qed.

Lemma read_unfold filename table verbose :
  read filename table verbose =
  (on_world _check_h5py_installed;;
   on_self Table.reset;;
   fg ← match filename with
        | THandle h => mret (None, h)
        | TPath p =>
            found ← on_world (os_path_exists p);
            if negb found then raise (FileNotFound p)
            else
              f ← on_world (h5py_File p ModeA);
              g ← on_world (h5_root f);
              mret (Some f, g)
        end;
   read_from fg.1 fg.2 table).
Proof. reflexivity. Qed.

Lemma datasets_ok_resolve n : ∀ segs a r,
  datasets_ok n = true → resolve n segs = Some (Dataset a (Structured r)) →
  recarray_ok r = true.
Proof.
  intros segs. revert n. induction segs as [|s rest IH]; intros n a r Hok Hres.
  - simpl in Hres. injection Hres as ->. done.
  - destruct n as [a0 ms|]; [|done]. simpl in Hres.
    destruct (lookup_member s ms) as [c|] eqn:Hc; [|done].
    eapply IH; [|done]. clear Hres IH.
    induction ms as [|[k c'] ms IHms]; [done|]. simpl in Hc, Hok.
    apply andb_true_iff in Hok as [Hc' Hms].
    case_decide; [by injection Hc as <-|]. by apply IHms.
Qed.

Lemma map_size_1_inv {A} (m : gmap string A) :
  size m = 1 → ∃ k v, m = {[k := v]} ∧ map_to_list m = [(k, v)].
Proof.
  intros Hsize. rewrite <- length_map_to_list in Hsize.
  destruct (map_to_list m) as [|[k v] [|??]] eqn:Hl; try done.
  exists k, v. split; [|done].
  rewrite <- (list_to_map_to_list m), Hl. simpl. by rewrite insert_empty.
Qed.

Lemma is_record_inv m :
  is_record m = true →
  ∃ a r, m = Dataset a (Structured r) ∧ fields r ≠ [].
Proof.
  destruct m as [|a [|r]]; try done. simpl. intros Hr. exists a, r.
  split; [done|]. by destruct (fields r).
Qed.

(** Reading without a table name from a group: the outcome is decided by
    the number of discovered tables. *)
Lemma read_from_discovered f g self w a ms :
  node_at w g = Some (Group a ms) →
  names_ok (Group a ms) = true → datasets_ok (Group a ms) = true →
  ∃ tables, _list_tables g w = (Ok tables, w, []) ∧
    match read_from f g None (self, w) with
    | (Ok _, (self', w'), evs) =>
        w' = w ∧ evs = closing f ∧
        ∃ key attrs r,
          tables = {[key := key]} ∧
          resolve (Group a ms) (PyStr.split key)
            = Some (Dataset attrs (Structured r)) ∧
          self' = Table.Mk key r (Table.keywords self)
    | (Raise e, (self', w'), evs) =>
        size tables ≠ 1 ∧ e = TableException tables ∧
        self' = self ∧ w' = w ∧ evs = []
    end.
Proof.
  intros Hg Hok Hdok. eexists. split; [by apply list_tables_run|].
  set (tables := collect_tables _ _ _).
  unfold read_from. rewrite bind_run, bind_run, on_world_run.
  rewrite (list_tables_run _ _ _ _ Hg Hok). fold tables.
  destruct (decide (size tables = 1)) as [Hsize|Hsize]; [|done].
  destruct (map_size_1_inv _ Hsize) as (key & v & Htables & Hlist).
  rewrite Hlist. cbn [fmap list_fmap fst]. unfold mret at 1, M_ret at 1.
  assert (tables !! key = Some v) as Hkey
    by (by rewrite Htables, lookup_singleton_eq).
  apply collect_tables_lookup in Hkey
    as [Hkey|(-> & _ & m & Hm & Hrec)]; [done| |done].
  apply is_record_inv in Hrec as (attrs & r & -> & Hfields).
  pose proof (datasets_ok_resolve _ _ _ _ Hdok Hm) as Hr.
  apply andb_true_iff in Hr as [Hnd Hlen].
  apply bool_decide_eq_true in Hnd.
  assert (Forall (λ f, length f.2 = nrows r) (fields r)) as Hlen'.
  { apply Forall_forall. intros fld Hfld.
    rewrite forallb_forall in Hlen.
    eapply bool_decide_eq_true_1, Hlen. by apply list_elem_of_In. }
  assert (node_at w (Handle (h_file g) (h_path g ++ PyStr.split key))
          = Some (Dataset attrs (Structured r))) as Hobj
    by (by rewrite (node_at_below _ _ _ _ Hg)).
  pose proof (resolve_valid_names _ _ _ Hok Hm) as Hvalid.
  pose proof (h5_getitem_clean g key w Hvalid ltac:(eauto)) as Hget.
  rewrite bind_run. unfold on_self at 1.
  rewrite bind_run, on_world_run, bind_run.
  rewrite Hget.
  rewrite (h5_len_run _ _ _ _ Hobj).
  rewrite bind_run, on_world_run, bind_run.
  rewrite Hget.
  rewrite (h5_dtype_names_run _ _ _ _ Hobj).
  rewrite bind_run. unfold on_self at 1.
  rewrite bind_run, on_world_run, bind_run.
  rewrite Hget.
  rewrite (h5_dtype_names_run _ _ _ _ Hobj).
  cbn [dtype_names]. rewrite bind_run. unfold mret at 1, M_ret at 1.
  rewrite bind_run.
  rewrite (read_columns g key w _ attrs r Hget Hobj Hlen' (fields r) []);
    [|done|done|].
  2:{ simpl. f_equal. clear. induction (fields r) as [|[k c] l IH]; [done|].
      csimpl. by rewrite IH. }
  destruct f as [f|]; simpl.
  - split_and!; [done..|]. exists key, attrs, r. by destruct r.
  - split_and!; [done..|]. exists key, attrs, r. by destruct r.
Qed.

Lemma os_path_exists_run p w :
  os_path_exists p w = (Ok (bool_decide (is_Some (fs w !! p))), w, [EvExists p]).
Proof. reflexivity. Qed.

Lemma h5py_File_existing p w root :
  fs w !! p = Some root →
  h5py_File p ModeA w = (Ok (Handle p []), w, [EvOpen p ModeA]).
Proof.
  intros Hroot. unfold h5py_File. unfold_M.
  by rewrite Hroot, bool_decide_eq_true_2 by eauto.
Qed.

(** C3: on a container whose discovery yields [tables], [read] without a
    table name returns normally exactly when [tables] has a single entry,
    and then the target table holds that dataset under its path; otherwise
    it raises the ambiguity error carrying all of [tables]. *)
Theorem read_without_table_name self filename verbose w a ms :
  h5py_installed w = true →
  node_at w (target_handle filename) = Some (Group a ms) →
  names_ok (Group a ms) = true → datasets_ok (Group a ms) = true →
  ∃ tables,
    _list_tables (target_handle filename) w = (Ok tables, w, []) ∧
    match read filename None verbose (self, w) with
    | (Ok _, (self', w'), _) =>
        w' = w ∧
        ∃ key attrs r,
          tables = {[key := key]} ∧
          resolve (Group a ms) (PyStr.split key)
            = Some (Dataset attrs (Structured r)) ∧
          self' = Table.Mk key r ∅
    | (Raise e, _, _) => size tables ≠ 1 ∧ e = TableException tables
    end.
Proof.
  intros Hinst Hg Hok Hdok.
  rewrite read_unfold, bind_run, on_world_run.
  rewrite check_h5py_installed_run by done.
  rewrite bind_run. unfold on_self at 1. rewrite bind_run.
  destruct filename as [p|h]; simpl in Hg.
  - assert (∃ root, fs w !! p = Some root) as [root Hroot].
    { unfold node_at in Hg. simpl in Hg. destruct (fs w !! p); [eauto|done]. }
    rewrite bind_run, on_world_run, os_path_exists_run.
    rewrite bool_decide_eq_true_2 by eauto. cbn [negb].
    rewrite bind_run, on_world_run, (h5py_File_existing _ _ _ Hroot).
    rewrite bind_run. unfold on_world at 1, h5_root at 1.
    unfold mret at 1 2, M_ret at 1 2. cbn [fst snd h_file].
    destruct (read_from_discovered (Some (Handle p [])) (Handle p [])
                (Table.reset self) w a ms Hg Hok Hdok)
      as (tables & Htables & Hread).
    exists tables. split; [done|].
    destruct (read_from _ _ _ _) as [[[[]|e] [self' w']] evs]; simpl.
    + destruct Hread as (-> & _ & Hrest). done.
    + destruct Hread as (? & ? & _). done.
  - unfold mret at 1, M_ret at 1. cbn [fst snd].
    destruct (read_from_discovered None h (Table.reset self) w a ms Hg Hok Hdok)
      as (tables & Htables & Hread).
    exists tables. split; [done|].
    destruct (read_from _ _ _ _) as [[[[]|e] [self' w']] evs]; simpl.
    + destruct Hread as (-> & _ & Hrest). done.
    + destruct Hread as (? & ? & _). done.
Qed.

Lemma read_without_table_name_witness :
  let root :=
    Group ∅ [("obs", Dataset {["k" := VInt 7]}
                       (Structured (RecArray 2 [("x", [VInt 1; VInt 2])])))] in
  let w := World true {["f.h5" := root]} in
  ∃ tables,
    _list_tables (Handle "f.h5" []) w = (Ok tables, w, []) ∧
    match read (TPath "f.h5") None true (Table.new, w) with
    | (Ok _, (self', w'), _) =>
        w' = w ∧
        ∃ key attrs r,
          tables = {[key := key]} ∧
          resolve root (PyStr.split key)
            = Some (Dataset attrs (Structured r)) ∧
          self' = Table.Mk key r ∅
    | (Raise e, _, _) => size tables ≠ 1 ∧ e = TableException tables
    end.
Proof.
  intros root w.
  apply (read_without_table_name Table.new (TPath "f.h5") true w);
    vm_compute; reflexivity.
Defined.

Example read_single_table :
  (read (TPath "f.h5") None true
     (Table.new,
      World true {["f.h5" :=
        Group ∅ [("obs", Dataset {["k" := VInt 7]}
                           (Structured (RecArray 2 [("x", [VInt 1; VInt 2])])))]]})).1
  = (Ok (),
     (Table.Mk "obs" (RecArray 2 [("x", [VInt 1; VInt 2])]) ∅,
      World true {["f.h5" :=
        Group ∅ [("obs", Dataset {["k" := VInt 7]}
                           (Structured (RecArray 2 [("x", [VInt 1; VInt 2])])))]]})).
Proof. vm_compute. reflexivity. Qed.

Example read_two_tables_ambiguous :
  (read (TPath "f.h5") None true
     (Table.new,
      World true {["f.h5" :=
        Group ∅ [("a", Dataset ∅ (Structured (RecArray 1 [("x", [VInt 1])])));
                 ("b", Dataset ∅ (Structured (RecArray 1 [("y", [VInt 2])])))]]})).1.1
  = Raise (TableException {["a" := "a"; "b" := "b"]}).
Proof. vm_compute. reflexivity. Qed.

(** ** The shape of [write] and [write_set] *)

Lemma bind_assoc {S A B C} (m : M S A) (k : A → M S B) (k' : B → M S C) s :
  ((m ≫= k) ≫= k') s = (m ≫= λ a, k a ≫= k') s.
Proof.
  rewrite !bind_run. destruct (m s) as [[[a|e] s1] e1]; [|done].
  rewrite bind_run. destruct (k a s1) as [[[b|e] s2] e2]; [|done].
  destruct (k' b s2) as [[r s3] e3]. by rewrite app_assoc.
Qed.

Lemma bind_ext {S A B} (m : M S A) (k k' : A → M S B) s :
  (∀ a s', k a s' = k' a s') → (m ≫= k) s = (m ≫= k') s.
Proof.
  intros Hk. rewrite !bind_run. destruct (m s) as [[[a|e] s1] e1]; [|done].
  by rewrite Hk.
Qed.

Lemma bind_ret_r {S A B} (m : M S A) (f : A → B) (k : B → M S unit) s :
  ((a ← m; mret (f a)) ≫= k) s = (m ≫= λ a, k (f a)) s.
Proof.
  rewrite bind_assoc. apply bind_ext. intros a s'.
  rewrite bind_run. unfold mret, M_ret. destruct (k (f a) s') as [[??]?]. done.
Qed.

Lemma write_handle_unfold self h compression group append overwrite ignore_groups w :
  write self (THandle h) compression group append overwrite ignore_groups w =
  (_check_h5py_installed;;
   g ← group_under h group;
   write_from self None g group compression ignore_groups) w.
Proof.
  unfold write. apply bind_ext. intros _ s.
  apply (bind_ret_r (group_under h group) (λ g, (None, g))
           (λ fg, write_from self fg.1 fg.2 group compression ignore_groups)).
Qed.

Lemma write_path_unfold self p compression group append overwrite ignore_groups w :
  write self (TPath p) compression group append overwrite ignore_groups w =
  (_check_h5py_installed;;
   fg ← open_for_write p group append overwrite;
   write_from self (Some fg.1) fg.2 group compression ignore_groups) w.
Proof.
  unfold write, open_for_write. apply bind_ext. intros _ s.
  rewrite !bind_assoc. apply bind_ext. intros found s1.
  rewrite !bind_assoc. apply bind_ext. intros _ s2.
  apply (bind_ret_r (_get_group p group append) (λ fg, (Some fg.1, fg.2))
           (λ fg, write_from self fg.1 fg.2 group compression ignore_groups)).
Qed.

Lemma write_set_unfold self p compression group append overwrite ignore_groups w :
  write_set self p compression group append overwrite ignore_groups w =
  (_check_h5py_installed;;
   fg ← open_for_write p group append overwrite;
   for_each (map_to_list (TableSet.keywords self)) (λ '(keyword, v),
     h5_set_attr fg.2 keyword v);;
   for_each (imap pair (TableSet.tables self))
     (write_set_table fg.2 group compression ignore_groups);;
   h5_close fg.1) w.
Proof.
  unfold write_set, open_for_write. apply bind_ext. intros _ s.
  rewrite !bind_assoc. apply bind_ext. intros found s1.
  rewrite !bind_assoc. done.
Qed.

(** ** What the writing steps may do *)

Section write_specs.
Context (P : event → Prop) (E : exn → Prop).
Hypothesis HE : ∀ b, E (BackendError b).

Lemma sat_group_under h group :
  P (EvCreateGroup h group) →
  sat (group_under h group) evolves P (under (Handle (h_file h) [])) E.
Proof.
  intros HP. unfold group_under.
  destruct (PyStr.truthy group); [|sat_leaf; by apply under_root].
  sat_apply sat_bind; [apply sat_h5_contains with (Q := λ _, True); done|].
  intros [] _.
  - apply sat_h5_getitem; [done|]. by apply under_root.
  - apply sat_h5_create_group; [done..|]. by apply under_root.
Qed.

Lemma sat_set_attrs obj (kws : list (string * value)) :
  (∀ key, P (EvSetAttr obj key)) →
  sat (for_each kws (λ '(keyword, v), h5_set_attr obj keyword v))
    evolves P (λ _, True) E.
Proof.
  intros HP. sat_apply sat_for_each. intros [key v].
  by apply sat_h5_set_attr.
Qed.

Lemma sat_resolve_name g name (ignore_groups : bool) :
  (∀ ev, ev_under (Handle (h_file g) []) ev → P ev) →
  sat (if ignore_groups then (mret (PyStr.basename name) : M world string)
       else
         let path := PyStr.dirname name in
         (if PyStr.truthy path then _create_required_groups g path
          else mret ());;
         mret name)
    evolves P (λ _, True) E.
Proof.
  intros HP. destruct ignore_groups; [by sat_leaf|].
  sat_apply sat_bind; [|intros _ _; by sat_leaf].
  destruct (PyStr.truthy _).
  - apply sat_create_required_groups; [|done]. intros p nm Hp.
    apply HP. by apply under_root_of.
  - by sat_leaf.
Qed.

Lemma sat_write_from self f g group compression ignore_groups :
  (∀ ev, ev_under (Handle (h_file g) []) ev → P ev) →
  (∀ f', f = Some f' → P (EvClose (h_file f'))) →
  (∀ name, E (TableAlreadyExists group name)) →
  sat (write_from self f g group compression ignore_groups)
    evolves P (λ _, True) E.
Proof.
  intros HP Hclose HEx. unfold write_from.
  sat_apply sat_bind; [by apply sat_resolve_name|]. intros name _.
  sat_apply sat_bind; [apply sat_h5_keys with (Q := λ _, True); done|].
  intros keys _. case_bool_decide; [by sat_leaf|].
  sat_apply sat_bind.
  { apply sat_h5_create_dataset with (Q := under (Handle (h_file g) []));
      [done| |].
    - apply HP. by apply under_root.
    - by apply under_root. }
  intros dset Hdset.
  sat_apply sat_bind.
  { apply sat_set_attrs. intros key. by apply HP. }
  intros _ _. destruct f as [f'|]; [|by sat_leaf].
  unfold h5_close. sat_apply sat_emit; [|done]. by apply Hclose.
Qed.

Lemma sat_store_table g group compression ignore_groups fallback tbl :
  (∀ ev, ev_under (Handle (h_file g) []) ev → P ev) →
  (∀ name, E (TableAlreadyExists group name)) →
  sat (store_table g group compression ignore_groups fallback tbl)
    evolves P (λ _, True) E.
Proof.
  intros HP HEx. unfold store_table.
  sat_apply sat_bind; [by apply sat_resolve_name|]. intros name _.
  sat_apply sat_bind; [apply sat_h5_keys with (Q := λ _, True); done|].
  intros keys _. case_bool_decide; [by sat_leaf|].
  sat_apply sat_bind.
  { apply sat_h5_create_dataset with (Q := under (Handle (h_file g) []));
      [done| |].
    - apply HP. by apply under_root.
    - by apply under_root. }
  intros dset Hdset. apply sat_set_attrs. intros key. by apply HP.
Qed.

Lemma sat_write_set_table g group compression ignore_groups it :
  (∀ ev, ev_under (Handle (h_file g) []) ev → P ev) →
  (∀ name, E (TableAlreadyExists group name)) →
  sat (write_set_table g group compression ignore_groups it)
    evolves P (λ _, True) E.
Proof. destruct it as [i tbl]. apply sat_store_table. Qed.
End write_specs.

(** ** Opening the file for writing *)

Lemma get_group_unfold p group append :
  _get_group p group append =
  (f ← (if append then h5py_File p ModeA else h5py_File p ModeW);
   g ← group_in_file f group append;
   mret (f, g)).
Proof. reflexivity. Qed.

Lemma h5py_File_W p w :
  h5py_File p ModeW w =
  (Ok (Handle p []),
   World (h5py_installed w) (<[p := Group ∅ []]> (fs w)), [EvOpen p ModeW]).
Proof.
  unfold h5py_File. unfold_M.
  by destruct (bool_decide (is_Some (fs w !! p))).
Qed.

Lemma h5py_File_A_missing p w :
  fs w !! p = None →
  h5py_File p ModeA w =
  (Ok (Handle p []),
   World (h5py_installed w) (<[p := Group ∅ []]> (fs w)), [EvOpen p ModeA]).
Proof.
  intros Hp. unfold h5py_File. unfold_M.
  rewrite bool_decide_eq_false_2; [done|]. rewrite Hp. by intros [??].
Qed.

Lemma os_remove_run p w root :
  fs w !! p = Some root →
  os_remove p w =
  (Ok (), World (h5py_installed w) (delete p (fs w)), [EvRemove p]).
Proof.
  intros Hp. unfold os_remove. unfold_M.
  by rewrite bool_decide_eq_true_2 by eauto.
Qed.

Lemma sat_group_in_file f group append (P : event → Prop) (E : exn → Prop) :
  (∀ b, E (BackendError b)) → P (EvCreateGroup f group) →
  sat (group_in_file f group append) evolves P
    (under (Handle (h_file f) [])) E.
Proof.
  intros HE HP. unfold group_in_file.
  destruct (PyStr.truthy group); [|sat_leaf; by apply under_root].
  destruct append.
  - sat_apply sat_bind; [apply sat_h5_keys with (Q := λ _, True); done|].
    intros keys _. case_bool_decide.
    + apply sat_h5_getitem; [done|]. by apply under_root.
    + apply sat_h5_create_group; [done..|]. by apply under_root.
  - apply sat_h5_create_group; [done..|]. by apply under_root.
Qed.

Lemma h5_keys_inv g w r w' evs :
  h5_keys g w = (r, w', evs) →
  w' = w ∧ evs = [] ∧
  match r with
  | Ok keys => ∃ a ms, node_at w g = Some (Group a ms) ∧ keys = ms.*1
  | Raise e => is_backend e
  end.
Proof.
  unfold h5_keys. unfold_M.
  destruct (node_at w g) as [[a ms|]|]; intros [= <- <- <-];
    split_and!; simpl; eauto.
Qed.

(** The group step either leaves the file as it is or returns a group it
    has just created. *)
Lemma group_in_file_inv f group append w r w1 evs :
  group_in_file f group append w = (r, w1, evs) →
  match r with
  | Ok g =>
      (w1 = w ∧ evs = [] ∧
       (g = f ∨ ∃ a ms, node_at w f = Some (Group a ms) ∧ group ∈ ms.*1)) ∨
      node_at w1 g = Some (Group ∅ [])
  | Raise e => is_backend e ∧ w1 = w ∧ evs = []
  end.
Proof.
  unfold group_in_file. destruct (PyStr.truthy group).
  2:{ unfold mret, M_ret. intros [= <- <- <-]. left. auto. }
  assert (∀ r w1 evs, h5_create_group f group w = (r, w1, evs) →
          match r with
          | Ok g =>
              (w1 = w ∧ evs = [] ∧
       (g = f ∨ ∃ a ms, node_at w f = Some (Group a ms) ∧ group ∈ ms.*1)) ∨
              node_at w1 g = Some (Group ∅ [])
          | Raise e => is_backend e ∧ w1 = w ∧ evs = []
          end) as Hcreate.
  { clear. intros r w1 evs Hrun. pose proof Hrun as Hrun'.
    apply h5_create_group_inv in Hrun. destruct r as [g|e].
    - right. by destruct Hrun as (_ & ? & _).
    - destruct Hrun as [-> ->]. split; [|done].
      by destruct (sat_h5_create_group (λ _, True) is_backend ltac:(done)
                     f group (λ _, True) I I _ _ _ _ Hrun') as (_ & _ & ?). }
  destruct append; [|by apply Hcreate].
  rewrite bind_run. destruct (h5_keys f w) as [[[keys|e] w0] e0] eqn:Hkeys;
    apply h5_keys_inv in Hkeys as (-> & -> & Hkeys).
  2:{ by intros [= <- <- <-]. }
  destruct ((if bool_decide (group ∈ keys) then h5_getitem f group
             else h5_create_group f group) w) as [[r' w'] e'] eqn:Hstep.
  simpl. intros [= <- <- <-].
  case_bool_decide; [|by apply Hcreate].
  pose proof Hstep as Hget.
  apply h5_getitem_inv in Hget as (-> & -> & _). destruct r' as [g|e].
  - left. destruct Hkeys as (a & ms & Hf & ->). split_and!; eauto.
  - split; [|done].
    by destruct (sat_h5_getitem (λ _, True) is_backend ltac:(done)
                   f group (λ _, True) I _ _ _ _ Hstep) as (_ & _ & ?).
Qed.

Lemma world_ok_insert_empty p w :
  world_ok w → world_ok (World (h5py_installed w) (<[p := Group ∅ []]> (fs w))).
Proof.
  intros Hok file root. simpl. destruct (decide (p = file)) as [->|Hne].
  - rewrite lookup_insert_eq. by intros [= <-].
  - rewrite lookup_insert_ne by done. apply Hok.
Qed.

Lemma world_ok_delete p w :
  world_ok w → world_ok (World (h5py_installed w) (delete p (fs w))).
Proof.
  intros Hok file root. simpl. destruct (decide (p = file)) as [->|Hne].
  - by rewrite lookup_delete_eq.
  - rewrite lookup_delete_ne by done. apply Hok.
Qed.

(** From the opened file on: what [_get_group] leaves behind. *)
Lemma get_group_tail p group append w0 r w1 evs root0 :
  fs w0 !! p = Some root0 →
  (g ← group_in_file (Handle p []) group append;
   mret (Handle p [], g)) w0 = (r, w1, evs) →
  Forall (ev_under (Handle p [])) evs ∧
  evolves w0 w1 ∧
  match r with
  | Ok fg =>
      fg.1 = Handle p [] ∧ under (Handle p []) fg.2 ∧
      ((w1 = w0 ∧
        (fg.2 = Handle p [] ∨
         ∃ a ms, node_at w0 (Handle p []) = Some (Group a ms) ∧ group ∈ ms.*1)) ∨
       node_at w1 fg.2 = Some (Group ∅ []))
  | Raise e => is_backend e
  end.
Proof.
  intros Hroot. rewrite bind_run.
  destruct (group_in_file _ _ _ w0) as [[[g|e] w'] e'] eqn:Hg.
  - unfold mret, M_ret. intros [= <- <- <-]. rewrite app_nil_r.
    destruct (sat_group_in_file (Handle p []) group append
                (ev_under (Handle p [])) is_backend ltac:(done)
                (under_refl _) _ _ _ _ Hg) as (Hev & Hevs & Hunder).
    split_and!; [done..|].
    apply group_in_file_inv in Hg as [(-> & -> & Hg)|Hg]; auto.
  - intros [= <- <- <-].
    destruct (sat_group_in_file (Handle p []) group append
                (ev_under (Handle p [])) is_backend ltac:(done)
                (under_refl _) _ _ _ _ Hg) as (Hev & Hevs & Hunder).
    done.
Qed.

(** What [open_for_write] does, by whether the file existed. *)
Lemma open_for_write_inv p group append overwrite w r w1 evs :
  open_for_write p group append overwrite w = (r, w1, evs) →
  let existed := bool_decide (is_Some (fs w !! p)) in
  if existed && negb append && negb overwrite
  then r = Raise (FileExists p) ∧ w1 = w ∧ evs = [EvExists p]
  else
    ∃ evs',
      evs = opening_events p existed append ++ evs' ∧
      Forall (ev_under (Handle p [])) evs' ∧
      is_Some (fs w1 !! p) ∧
      h5py_installed w1 = h5py_installed w ∧
      (world_ok w → world_ok w1) ∧
      (append = true → ∀ root, fs w !! p = Some root →
         ∃ root', fs w1 !! p = Some root' ∧ node_extends root root') ∧
      match r with
      | Ok fg =>
          fg.1 = Handle p [] ∧ under (Handle p []) fg.2 ∧
          ((fs w1 = fs w ∧ existed = true) ∨
           node_at w1 fg.2 = Some (Group ∅ []))
      | Raise e => is_backend e
      end.
Proof.
  intros Hrun existed. revert Hrun. unfold open_for_write.
  rewrite bind_run, os_path_exists_run. fold existed.
  assert (∀ w0 root0 r w1 evs',
    fs w0 !! p = Some root0 →
    h5py_installed w0 = h5py_installed w →
    (world_ok w → world_ok w0) →
    (append = true → ∀ root, fs w !! p = Some root → root0 = root) →
    (fs w0 = fs w ∧ existed = true ∨ root0 = Group ∅ []) →
    (g ← group_in_file (Handle p []) group append; mret (Handle p [], g)) w0
      = (r, w1, evs') →
    Forall (ev_under (Handle p [])) evs' ∧
    is_Some (fs w1 !! p) ∧
    h5py_installed w1 = h5py_installed w ∧
    (world_ok w → world_ok w1) ∧
    (append = true → ∀ root, fs w !! p = Some root →
       ∃ root', fs w1 !! p = Some root' ∧ node_extends root root') ∧
    match r with
    | Ok fg =>
        fg.1 = Handle p [] ∧ under (Handle p []) fg.2 ∧
        ((fs w1 = fs w ∧ existed = true) ∨
         node_at w1 fg.2 = Some (Group ∅ []))
    | Raise e => is_backend e
    end) as Htail.
  { clear r w1 evs. intros w0 root0 r w1 evs' Hroot0 Hinst Hok Hroot Hfresh Hg.
    destruct (get_group_tail _ _ _ _ _ _ _ _ Hroot0 Hg)
      as (Hevs & (Hi & Hext & Hok') & Hres).
    destruct (Hext _ _ Hroot0) as (root' & Hroot' & Hext').
    split_and!; [done|eauto|congruence|auto| |].
    - intros Ha root Hr. rewrite <- (Hroot Ha _ Hr). eauto.
    - destruct r as [[f g]|e]; [|done]. simpl in *.
      destruct Hres as (-> & Hunder & [(-> & Hg')|Hnew]);
        split_and!; [done|done| |done|done|by right].
      destruct Hfresh as [Hsame|Hempty]; [by left|]. subst root0. right.
      destruct Hg' as [Hgf|(a & ms & Hf & Hin)].
      + rewrite Hgf. unfold node_at. simpl. by rewrite Hroot0.
      + unfold node_at in Hf. simpl in Hf. rewrite Hroot0 in Hf.
        injection Hf as <- <-. by apply elem_of_nil in Hin. }
  destruct (fs w !! p) as [root|] eqn:Hroot.
  - assert (existed = true) as Hex by (by apply bool_decide_eq_true_2).
    rewrite Hex. destruct append; simpl.
    + (* append, existing file *)
      rewrite bind_run. unfold mret at 1, M_ret at 1.
      rewrite get_group_unfold, bind_run, (h5py_File_existing _ _ _ Hroot).
      destruct ((g ← group_in_file _ _ _; mret (Handle p [], g)) w)
        as [[r' w'] e'] eqn:Hg.
      intros [= <- <- <-]. exists e'. split; [done|].
      eapply Htail; [done|done|done| |by left|done].
      intros _ root1. congruence.
    + destruct overwrite; simpl.
      * rewrite bind_run, (os_remove_run _ _ _ Hroot).
        rewrite get_group_unfold, bind_run, h5py_File_W.
        destruct ((g ← group_in_file _ _ _; mret (Handle p [], g)) _)
          as [[r' w'] e'] eqn:Hg.
        intros [= <- <- <-]. exists e'. split; [done|].
        eapply Htail; [| | | |by right|done].
        -- simpl. by rewrite lookup_insert_eq.
        -- done.
        -- intros Hok. apply (world_ok_insert_empty p (World _ _)).
           by apply world_ok_delete.
        -- done.
      * by intros [= <- <- <-].
  - assert (existed = false) as Hex.
    { apply bool_decide_eq_false_2. by intros [??]. }
    rewrite Hex. simpl. rewrite bind_run. unfold mret at 1, M_ret at 1.
    rewrite get_group_unfold, bind_run.
    destruct append.
    + rewrite (h5py_File_A_missing _ _ Hroot).
      destruct ((g ← group_in_file _ _ _; mret (Handle p [], g)) _)
        as [[r' w'] e'] eqn:Hg.
      intros [= <- <- <-]. exists e'. split; [done|].
      eapply Htail; [| | | |by right|done].
      * simpl. by rewrite lookup_insert_eq.
      * done.
      * apply world_ok_insert_empty.
      * intros _ root1. done.
    + rewrite h5py_File_W.
      destruct ((g ← group_in_file _ _ _; mret (Handle p [], g)) _)
        as [[r' w'] e'] eqn:Hg.
      intros [= <- <- <-]. exists e'. split; [done|].
      eapply Htail; [| | | |by right|done].
      * simpl. by rewrite lookup_insert_eq.
      * done.
      * apply world_ok_insert_empty.
      * done.
Qed.

(** ** File policy of the writers *)

Lemma under_trans g0 g p : under g0 g → under g p → under g0 p.
Proof. intros [Hf Hp] [Hf' Hp']. split; [congruence | by etrans]. Qed.

Lemma ev_under_trans g0 g ev : under g0 g → ev_under g ev → ev_under g0 ev.
Proof. intros Hg. destruct ev; simpl; eauto using under_trans. Qed.

Lemma ev_under_file p g ev :
  under (Handle p []) g → ev_under (Handle (h_file g) []) ev →
  ev_under (Handle p []) ev.
Proof. intros [Hf _]. simpl in Hf. by rewrite Hf. Qed.

Lemma sat_write_set_tail (self : TableSet.t) f g group compression ignore_groups
    (P : event → Prop) (E : exn → Prop) :
  (∀ b, E (BackendError b)) →
  (∀ name, E (TableAlreadyExists group name)) →
  (∀ ev, ev_under (Handle (h_file g) []) ev → P ev) → P (EvClose (h_file f)) →
  sat (for_each (map_to_list (TableSet.keywords self)) (λ '(keyword, v),
         h5_set_attr g keyword v);;
       for_each (imap pair (TableSet.tables self))
         (write_set_table g group compression ignore_groups);;
       h5_close f) evolves P (λ _, True) E.
Proof.
  intros HE HEx HP Hclose.
  sat_apply sat_bind.
  { apply sat_set_attrs; [done|]. intros key. apply HP. by apply under_root. }
  intros _ _. sat_apply sat_bind.
  { sat_apply sat_for_each. intros it. by apply sat_write_set_table. }
  intros _ _. unfold h5_close. by sat_apply sat_emit.
Qed.

Lemma run_after_silent {S A} (x : result A * S * list event) r s evs :
  (let (p, evs') := x in let (r', s') := p in (r', s', [] ++ evs'))
    = (r, s, evs) →
  x = (r, s, evs).
Proof. by destruct x as [[??]?]. Qed.

(** C6: [write] and [write_set] on a file name.  An existing file without
    [append] and without [overwrite] is refused with the file-exists error
    before anything else happens; with [overwrite] it is removed before the
    new file is created.  With [append] the file is opened in place and
    keeps everything it held; a missing file is created.  Afterwards the
    file is neither removed nor opened again. *)
Theorem write_file_policy self tset p compression group append overwrite
    ignore_groups w r w' evs :
  h5py_installed w = true →
  write self (TPath p) compression group append overwrite ignore_groups w
    = (r, w', evs) ∨
  write_set tset p compression group append overwrite ignore_groups w
    = (r, w', evs) →
  let existed := bool_decide (is_Some (fs w !! p)) in
  if existed && negb append && negb overwrite
  then r = Raise (FileExists p) ∧ w' = w ∧ evs = [EvExists p]
  else
    ∃ evs',
      evs =
        EvExists p ::
        (if existed && negb append then [EvRemove p] else []) ++
        [EvOpen p (if append then ModeA else ModeW)] ++ evs' ∧
      Forall (in_open_file p) evs' ∧
      is_Some (fs w' !! p) ∧
      (append = true → ∀ root, fs w !! p = Some root →
         ∃ root', fs w' !! p = Some root' ∧ node_extends root root').
Proof.
  intros Hinst Hrun existed.
  assert (∃ tail : handle * handle → M world unit,
    (∀ fg, fg.1 = Handle p [] → under (Handle p []) fg.2 →
       sat (tail fg) evolves (in_open_file p) (λ _, True) (λ _, True)) ∧
    (fg ← open_for_write p group append overwrite; tail fg) w = (r, w', evs))
    as (tail & Htail & Hrun').
  { destruct Hrun as [Hrun|Hrun].
    - rewrite write_path_unfold, bind_run, check_h5py_installed_run in Hrun
        by done.
      eexists (λ fg, write_from self (Some fg.1) fg.2 group compression
                       ignore_groups).
      split.
      + intros fg Hf Hg. apply sat_write_from; [done| | |done].
        * intros ev Hev. left. by eapply ev_under_file.
        * intros f' [= <-]. rewrite Hf. by right.
      + by apply run_after_silent in Hrun.
    - rewrite write_set_unfold, bind_run, check_h5py_installed_run in Hrun
        by done.
      eexists (λ fg,
        for_each (map_to_list (TableSet.keywords tset)) (λ '(keyword, v),
          h5_set_attr fg.2 keyword v);;
        for_each (imap pair (TableSet.tables tset))
          (write_set_table fg.2 group compression ignore_groups);;
        h5_close fg.1).
      split.
      + intros fg Hf Hg. apply sat_write_set_tail; [done|done| |].
        * intros ev Hev. left. by eapply ev_under_file.
        * rewrite Hf. by right.
      + by apply run_after_silent in Hrun. }
  clear Hrun. revert Hrun'. rewrite bind_run.
  destruct (open_for_write p group append overwrite w)
    as [[[fg|e] w1] e1] eqn:Hopen;
    apply open_for_write_inv in Hopen; cbv zeta in Hopen;
    fold existed in Hopen;
    destruct (existed && negb append && negb overwrite) eqn:Hcase.
  - by destruct Hopen.
  - destruct Hopen as (e1' & -> & He1' & Hfile & _ & _ & Hkeep & Hf & Hg & _).
    destruct (tail fg w1) as [[r2 w2] e2] eqn:Hrun2. intros [= <- <- <-].
    destruct (Htail fg Hf Hg _ _ _ _ Hrun2) as ((_ & Hext & _) & He2 & _).
    exists (e1' ++ e2). split_and!.
    + unfold opening_events. simpl. by rewrite <- !app_assoc.
    + apply Forall_app. split; [|done].
      eapply Forall_impl; [done|]. intros ev Hev. by left.
    + destruct Hfile as [root1 Hroot1].
      destruct (Hext _ _ Hroot1) as (root2 & -> & _). eauto.
    + intros Ha root Hroot. destruct (Hkeep Ha _ Hroot) as (root1 & Hroot1 & Hx).
      destruct (Hext _ _ Hroot1) as (root2 & Hroot2 & Hx').
      eauto using node_extends_trans.
  - destruct Hopen as ([= ->] & -> & ->). by intros [= <- <- <-].
  - intros [= <- <- <-].
    destruct Hopen as (e1' & -> & He1' & Hfile & _ & _ & Hkeep & _).
    exists e1'. split_and!; [|  |done|done].
    { unfold opening_events. simpl. by rewrite <- !app_assoc. }
    eapply Forall_impl; [done|]. intros ev Hev. by left.
Qed.

(** ** Storing one table *)

Lemma write_set_table_store g group compression ignore_groups i tbl :
  write_set_table g group compression ignore_groups (i, tbl) =
  store_table g group compression ignore_groups (fallback_name i) tbl.
Proof. reflexivity. Qed.

Lemma write_from_store self f g group compression ignore_groups w :
  write_from self f g group compression ignore_groups w =
  (store_table g group compression ignore_groups "Table" self;;
   match f with
   | Some f => h5_close f
   | None => mret ()
   end) w.
Proof.
  unfold write_from, store_table. rewrite !bind_assoc.
  apply bind_ext. intros name s. rewrite !bind_assoc.
  apply bind_ext. intros keys s'. case_bool_decide; [done|].
  by rewrite bind_assoc.
Qed.

Lemma h5_set_attr_inv obj key v w r w' evs :
  h5_set_attr obj key v w = (r, w', evs) →
  match r with
  | Ok _ => evs = [EvSetAttr obj key]
  | Raise _ => evs = [] ∧ w' = w
  end.
Proof.
  unfold h5_set_attr. unfold_M.
  destruct (node_at w obj); by intros [= <- <- <-].
Qed.

Lemma set_attrs_ok obj (kws : list (string * value)) : ∀ w w' evs,
  for_each kws (λ '(keyword, v), h5_set_attr obj keyword v) w
    = (Ok (), w', evs) →
  evs = map (λ kv, EvSetAttr obj kv.1) kws.
Proof.
  unfold for_each. induction kws as [|[key v] kws IH]; intros w w' evs.
  - by intros [= <- <-].
  - cbn [foldM]. rewrite bind_run.
    destruct (h5_set_attr obj key v w) as [[[[]|e] w1] e1] eqn:Hset; [|done].
    apply h5_set_attr_inv in Hset as ->.
    destruct (foldM _ () kws w1) as [[[[]|e] w2] e2] eqn:Hrest; [|done].
    apply IH in Hrest as ->. by intros [= <- <-].
Qed.


Lemma bind_ok_inv {S A B} (m : M S A) (k : A → M S B) s b s' evs :
  (m ≫= k) s = (Ok b, s', evs) →
  ∃ a s1 e1 e2,
    m s = (Ok a, s1, e1) ∧ k a s1 = (Ok b, s', e2) ∧ evs = e1 ++ e2.
Proof.
  rewrite bind_run. destruct (m s) as [[[a|e] s1] e1]; [|done].
  destruct (k a s1) as [[r s2] e2] eqn:Hk. intros [= -> <- <-].
  by exists a, s1, e1, e2.
Qed.

Lemma bind_inv {S A B} (m : M S A) (k : A → M S B) s r s' evs :
  (m ≫= k) s = (r, s', evs) →
  (∃ a s1 e1 e2,
     m s = (Ok a, s1, e1) ∧ k a s1 = (r, s', e2) ∧ evs = e1 ++ e2) ∨
  (∃ e, m s = (Raise e, s', evs) ∧ r = Raise e).
Proof.
  rewrite bind_run. destruct (m s) as [[[a|e] s1] e1].
  - destruct (k a s1) as [[r2 s2] e2] eqn:Hk. intros [= <- <- <-].
    left. by exists a, s1, e1, e2.
  - intros [= <- <- <-]. right. by exists e.
Qed.

(** A successful [store_table] creates the groups of the path, then the
    dataset under the resolved name, then sets its attributes. *)
Lemma store_table_ok g group compression ignore_groups fallback tbl w w' evs :
  store_table g group compression ignore_groups fallback tbl w
    = (Ok (), w', evs) →
  let name := write_name fallback ignore_groups tbl in
  let dset := Handle (h_file g) (h5_path g name) in
  ∃ pre,
    Forall (is_group_event_under g) pre ∧
    evs = pre ++ EvCreateDataset g name ::
            map (λ kv, EvSetAttr dset kv.1) (map_to_list (Table.keywords tbl)).
Proof.
  unfold store_table, write_name.
  set (name0 := if PyStr.truthy (Table.table_name tbl)
                then Table.table_name tbl else fallback).
  intros (name & w1 & pre & e1 & Hname & Hrun & ->)%bind_ok_inv.
  assert (Forall (is_group_event_under g) pre ∧
          name = if ignore_groups then PyStr.basename name0 else name0)
    as [Hpre ->].
  { destruct ignore_groups.
    - by injection Hname as <- <- <-.
    - apply bind_ok_inv in Hname as ([] & w0 & e0 & e0' & Hgroups & Hret & ->).
      injection Hret as <- <- <-. rewrite app_nil_r. split; [|done].
      destruct (PyStr.truthy (PyStr.dirname name0)).
      + by destruct (sat_create_required_groups g _ (is_group_event_under g)
                       (λ _, True) ltac:(done) ltac:(done) _ _ _ _ Hgroups)
          as (_ & ? & _).
      + by injection Hgroups as <- <-. }
  apply bind_ok_inv in Hrun as (keys & w2 & e2 & e3 & Hkeys & Hrun & ->).
  apply h5_keys_inv in Hkeys as (-> & -> & _).
  case_bool_decide; [done|].
  apply bind_ok_inv in Hrun as (dset & w3 & e4 & e5 & Hcreate & Hattrs & ->).
  apply h5_create_dataset_inv in Hcreate as (_ & -> & _ & ->).
  apply set_attrs_ok in Hattrs as ->.
  exists pre. by split.
Qed.

(** ** Writing through an open handle *)


Lemma is_backend_inv e : is_backend e → ∃ b, e = BackendError b.
Proof. destruct e; try done. eauto. Qed.

Lemma h5_contains_raise g name w e w' evs :
  h5_contains g name w = (Raise e, w', evs) → is_backend e.
Proof.
  intros H.
  by destruct (sat_h5_contains (λ _, True) is_backend ltac:(done)
                 g name (λ _, True) ltac:(done) _ _ _ _ H) as (_ & _ & ?).
Qed.

Lemma h5_getitem_raise g name w e w' evs :
  h5_getitem g name w = (Raise e, w', evs) → is_backend e.
Proof.
  intros H.
  by destruct (sat_h5_getitem (λ _, True) is_backend ltac:(done)
                 g name (λ _, True) I _ _ _ _ H) as (_ & _ & ?).
Qed.

Lemma h5_create_group_raise g name w e w' evs :
  h5_create_group g name w = (Raise e, w', evs) → is_backend e.
Proof.
  intros H.
  by destruct (sat_h5_create_group (λ _, True) is_backend ltac:(done)
                 g name (λ _, True) I I _ _ _ _ H) as (_ & _ & ?).
Qed.





Lemma group_under_inv h group w r w1 evs :
  group_under h group w = (r, w1, evs) →
  if PyStr.truthy group then
    let g := Handle (h_file h) (h5_path h group) in
    (r = Ok g ∧ w1 = w ∧ evs = []) ∨
    (r = Ok g ∧ evs = [EvCreateGroup h group] ∧
     node_at w1 g = Some (Group ∅ [])) ∨
    (∃ b, r = Raise (BackendError b) ∧ w1 = w ∧ evs = [])
  else r = Ok h ∧ w1 = w ∧ evs = [].
Proof.
  unfold group_under. destruct (PyStr.truthy group).
  2:{ by intros [= <- <- <-]. }
  simpl.
  intros [(present & w0 & e0 & e0' & Hc & Hstep & ->)|(e & Hc & ->)]%bind_inv.
  - pose proof Hc as Hc'. apply h5_contains_inv in Hc' as [-> ->].
    destruct present; simpl in Hstep.
    + pose proof Hstep as Hget.
      apply h5_getitem_inv in Hget as (-> & -> & Hh). destruct r as [g|e].
      * left. by destruct (Hh _ eq_refl) as [-> Hsome].
      * apply h5_getitem_raise, is_backend_inv in Hstep as [b ->].
        right. right. eauto.
    + pose proof Hstep as Hcreate.
      apply h5_create_group_inv in Hcreate. destruct r as [g|e].
      * destruct Hcreate as (-> & Hn & ->). right. by left.
      * destruct Hcreate as [-> ->].
        apply h5_create_group_raise, is_backend_inv in Hstep as [b ->].
        right. right. eauto.
  - pose proof Hc as Hc'. apply h5_contains_inv in Hc' as [-> ->].
    apply h5_contains_raise, is_backend_inv in Hc as [b ->]. right. right. eauto.
Qed.

Lemma not_under_extension h segs :
  segs ≠ [] → ¬ under (Handle (h_file h) (h_path h ++ segs)) h.
Proof.
  intros Hne [_ Hpre]. simpl in Hpre. apply prefix_length in Hpre.
  rewrite length_app in Hpre. destruct segs; [done|]. simpl in Hpre. lia.
Qed.

Lemma ev_under_not_file g ev : ev_under g ev → is_file_event ev = false.
Proof. by destruct ev. Qed.

Lemma sat_check_h5py_installed (P : event → Prop) (E : exn → Prop) :
  E H5pyRequired → sat _check_h5py_installed evolves P (λ _, True) E.
Proof.
  intros HE. unfold _check_h5py_installed.
  sat_gets. intros [] _; simpl; by sat_leaf.
Qed.

(** Through an open handle [write] makes no file-level call and never
    raises the file-exists error. *)
Lemma write_handle_no_file_calls self h compression group append overwrite
    ignore_groups w r w' evs :
  write self (THandle h) compression group append overwrite ignore_groups w
    = (r, w', evs) →
  Forall (λ ev, is_file_event ev = false) evs ∧
  (∀ f, r ≠ Raise (FileExists f)).
Proof.
  rewrite write_handle_unfold. intros Hrun. split.
  - assert (sat (_check_h5py_installed;;
                 g ← group_under h group;
                 write_from self None g group compression ignore_groups)
              evolves (ev_under (Handle (h_file h) [])) (λ _, True)
              (λ _, True)) as Hsat.
    { sat_apply sat_bind; [by apply sat_check_h5py_installed|]. intros _ _.
      sat_apply sat_bind;
        [apply sat_group_under; [done|by apply under_root]|].
      intros g' Hg'. apply sat_write_from; [done| |done|done].
      intros ev Hev. by eapply ev_under_file. }
    destruct (Hsat _ _ _ _ Hrun) as (_ & Hevs & _).
    eapply Forall_impl; [done|]. apply ev_under_not_file.
  - assert (sat (_check_h5py_installed;;
                 g ← group_under h group;
                 write_from self None g group compression ignore_groups)
              evolves (λ _, True) (λ _, True)
              (λ e, ∀ f, e ≠ FileExists f)) as Hsat.
    { sat_apply sat_bind; [by apply sat_check_h5py_installed|]. intros _ _.
      sat_apply sat_bind;
        [by apply sat_group_under with (E := λ e, ∀ f, e ≠ FileExists f)|].
      intros g' Hg'. by apply sat_write_from. }
    destruct (Hsat _ _ _ _ Hrun) as (_ & _ & Hr).
    intros f ->. by apply (Hr f).
Qed.

Lemma write_file_policy_witness :
  let w := World true {["f.h5" := Group ∅ [("old", Group ∅ [])]]} in
  let t := Table.Mk "obs" (RecArray 1 [("x", [VInt 1])]) ∅ in
  let res := write t (TPath "f.h5") false "" false true false w in
  ∃ evs',
    res.2 =
      EvExists "f.h5" :: [EvRemove "f.h5"] ++ [EvOpen "f.h5" ModeW] ++ evs' ∧
    Forall (in_open_file "f.h5") evs' ∧
    is_Some (fs res.1.2 !! "f.h5") ∧
    (false = true → ∀ root, fs w !! "f.h5" = Some root →
       ∃ root', fs res.1.2 !! "f.h5" = Some root' ∧ node_extends root root').
Proof.
  intros w t res.
  apply (write_file_policy t (TableSet.Mk [] ∅) "f.h5" false "" false true
           false w res.1.1 res.1.2 res.2).
  - reflexivity.
  - left. vm_compute. reflexivity.
Defined.

Example write_refuses_existing_file :
  write (Table.Mk "obs" (RecArray 1 [("x", [VInt 1])]) ∅) (TPath "f.h5")
    false "" false false false (World true {["f.h5" := Group ∅ []]})
  = (Raise (FileExists "f.h5"), World true {["f.h5" := Group ∅ []]},
     [EvExists "f.h5"]).
Proof. vm_compute. reflexivity. Qed.

(** ** Table sets *)

#[global] Instance any_change_refl {S} : Reflexive (@any_change S).
Proof. done. Qed.

#[global] Instance any_change_trans {S} : Transitive (@any_change S).
Proof. done. Qed.

Lemma sat_any_change {S A} (m : M S A) R P Q E :
  sat m R P Q E → sat m any_change P Q E.
Proof.
  intros Hm s r s' evs Hrun. by destruct (Hm _ _ _ _ Hrun) as (_ & ? & ?).
Qed.

Lemma dataset_events_none evs :
  Forall no_dataset_event evs → dataset_events evs = [].
Proof.
  unfold dataset_events. induction 1 as [|ev evs Hev _ IH]; [done|].
  destruct ev; try done; exact IH.
Qed.

Lemma dataset_events_app evs evs' :
  dataset_events (evs ++ evs') = dataset_events evs ++ dataset_events evs'.
Proof. apply omap_app. Qed.

Lemma dataset_events_cons p name evs :
  dataset_events (EvCreateDataset p name :: evs) = (p, name) :: dataset_events evs.
Proof. reflexivity. Qed.

Lemma dataset_events_attrs obj (kws : list (string * value)) :
  dataset_events (map (λ kv, EvSetAttr obj kv.1) kws) = [].
Proof.
  apply dataset_events_none, Forall_forall.
  by intros ev (kv & -> & _)%list_elem_of_fmap.
Qed.

Lemma group_events_no_dataset g evs :
  Forall (is_group_event_under g) evs → Forall no_dataset_event evs.
Proof. intros H. eapply Forall_impl; [done|]. by intros []. Qed.

Lemma sat_group_in_file_handle f group append (P : event → Prop) :
  P (EvCreateGroup f group) →
  sat (group_in_file f group append) evolves P (eq (group_handle f group))
    (λ _, True).
Proof.
  intros HP. unfold group_in_file, group_handle.
  destruct (PyStr.truthy group); [|by sat_leaf].
  destruct append.
  - sat_apply sat_bind; [apply sat_h5_keys with (Q := λ _, True); done|].
    intros keys _. case_bool_decide.
    + by apply sat_h5_getitem.
    + by apply sat_h5_create_group.
  - by apply sat_h5_create_group.
Qed.

(** Opening for writing creates no dataset and returns the file and the
    requested group. *)
Lemma sat_open_for_write p group append overwrite :
  sat (open_for_write p group append overwrite) any_change no_dataset_event
    (eq (Handle p [], group_handle (Handle p []) group)) (λ _, True).
Proof.
  unfold open_for_write.
  sat_apply sat_bind.
  { unfold os_path_exists.
    sat_apply sat_bind;
      [sat_apply sat_emit; [|instantiate (1 := λ _, True)]; done|].
    intros _ _. sat_apply sat_gets. instantiate (1 := λ _, True). done. }
  intros found _. sat_apply sat_bind.
  { instantiate (1 := λ _, True).
    destruct (found && negb append); [|by sat_leaf].
    destruct overwrite; [|by sat_leaf].
    unfold os_remove. sat_gets. intros [] _; [|by sat_leaf].
    sat_apply sat_bind;
      [sat_apply sat_modify; [|instantiate (1 := λ _, True)]; done|].
    intros _ _. by sat_apply sat_emit. }
  intros _ _. rewrite get_group_unfold.
  sat_apply sat_bind.
  { instantiate (1 := eq (Handle p [])).
    destruct append; unfold h5py_File; sat_gets; intros ex _;
      (sat_apply sat_bind;
       [instantiate (1 := λ _, True); destruct ex;
          (by sat_leaf || by sat_apply sat_modify)|]);
      intros _ _;
      (sat_apply sat_bind;
       [sat_apply sat_emit; [|instantiate (1 := λ _, True)]; done|]);
      intros _ _; by sat_leaf. }
  intros f <-. sat_apply sat_bind.
  { eapply sat_any_change. by apply sat_group_in_file_handle. }
  intros g <-. by sat_leaf.
Qed.

(** The loop of [write_set] creates one dataset per table, in order, under
    the name resolved for its position. *)
Lemma write_set_loop_datasets g group compression ignore_groups tbls :
  ∀ (pos : nat → nat) w w' evs,
  for_each (imap (λ i tbl, (pos i, tbl)) tbls)
    (write_set_table g group compression ignore_groups) w = (Ok (), w', evs) →
  dataset_events evs =
  imap (λ i tbl, (g, write_name (fallback_name (pos i)) ignore_groups tbl)) tbls.
Proof.
  unfold for_each.
  induction tbls as [|tbl tbls IH]; intros pos w w' evs.
  - by intros [= <- <-].
  - cbn [imap foldM].
    intros ([] & w1 & e1 & e2 & Hstore & Hrest & ->)%bind_ok_inv.
    rewrite write_set_table_store in Hstore.
    apply store_table_ok in Hstore as (pre & Hpre & ->).
    apply (IH (pos ∘ S)) in Hrest.
    rewrite !dataset_events_app, Hrest, dataset_events_cons.
    rewrite (dataset_events_none pre) by eauto using group_events_no_dataset.
    by rewrite dataset_events_attrs.
Qed.

Lemma fallback_name_slash_free i : PyStr.has_slash (fallback_name i) = false.
Proof.
  unfold fallback_name. rewrite PyStrFacts.has_slash_app.
  by rewrite PyStrFacts.fmt_02i_slash_free.
Qed.

(** C9 (as amended): a [write_set] that returns normally has attached the
    file-level keywords to the target group before creating any dataset,
    and has then created one dataset per table, in the stored order: under
    the positional fallback name [Table_%02i] for a table without a name,
    and for a named table under its own name, reduced to its last path
    segment when [ignore_groups] is set. *)
Theorem write_set_names self p compression group append overwrite
    ignore_groups w w' evs :
  write_set self p compression group append overwrite ignore_groups w
    = (Ok (), w', evs) →
  let g := group_handle (Handle p []) group in
  (∃ pre tabs,
     evs = pre ++
           map (λ kv, EvSetAttr g kv.1) (map_to_list (TableSet.keywords self))
           ++ tabs ++ [EvClose p] ∧
     dataset_events pre = [] ∧
     dataset_events tabs =
       imap (λ i tbl, (g, write_name (fallback_name i) ignore_groups tbl))
         (TableSet.tables self)) ∧
  (∀ i tbl, PyStr.truthy (Table.table_name tbl) = false →
     write_name (fallback_name i) ignore_groups tbl = fallback_name i) ∧
  (∀ i tbl, PyStr.truthy (Table.table_name tbl) = true →
     write_name (fallback_name i) ignore_groups tbl =
     if ignore_groups then PyStr.basename (Table.table_name tbl)
     else Table.table_name tbl).
Proof.
  intros Hrun g. split_and!.
  - rewrite write_set_unfold in Hrun.
    apply bind_ok_inv in Hrun as ([] & w0 & e0 & e0' & Hcheck & Hrun & ->).
    assert (e0 = []) as ->.
    { revert Hcheck. unfold _check_h5py_installed. unfold_M.
      destruct (negb _); by intros [= <- <-]. }
    apply bind_ok_inv in Hrun as (fg & w1 & pre & e1 & Hopen & Hrun & ->).
    destruct (sat_open_for_write _ _ _ _ _ _ _ _ Hopen) as (_ & Hpre & <-).
    simpl in Hrun.
    apply bind_ok_inv in Hrun as ([] & w2 & e2 & e3 & Hattrs & Hrun & ->).
    apply set_attrs_ok in Hattrs as ->.
    apply bind_ok_inv in Hrun as ([] & w3 & tabs & e4 & Htabs & Hclose & ->).
    injection Hclose as <- <-.
    apply (write_set_loop_datasets _ _ _ _ _ id) in Htabs.
    exists pre, tabs. split_and!; [done| |done].
    by apply dataset_events_none.
  - intros i tbl Hname. unfold write_name. rewrite Hname.
    destruct ignore_groups; [|done].
    apply PyStrFacts.basename_slash_free, fallback_name_slash_free.
  - intros i tbl Hname. unfold write_name. by rewrite Hname.
Qed.

Lemma write_set_names_witness :
  let tset :=
    TableSet.Mk
      [Table.Mk "" (RecArray 1 [("x", [VInt 1])]) ∅;
       Table.Mk "grp/obs" (RecArray 1 [("y", [VInt 2])]) ∅]
      {["origin" := VStr "survey"]} in
  let res := write_set tset "f.h5" false "" false false false (World true ∅) in
  let g := Handle "f.h5" [] in
  ∃ pre tabs,
    res.2 = pre ++ [EvSetAttr g "origin"] ++ tabs ++ [EvClose "f.h5"] ∧
    dataset_events pre = [] ∧
    dataset_events tabs = [(g, "Table_00"); (g, "grp/obs")].
Proof.
  intros tset res g.
  apply (write_set_names tset "f.h5" false "" false false false
           (World true ∅) res.1.2 res.2).
  vm_compute. reflexivity.
Defined.

Example write_set_three_unnamed :
  dataset_events
    (write_set
       (TableSet.Mk
          [Table.Mk "" (RecArray 1 [("x", [VInt 1])]) ∅;
           Table.Mk "" (RecArray 1 [("x", [VInt 2])]) ∅;
           Table.Mk "" (RecArray 1 [("x", [VInt 3])]) ∅] ∅)
       "f.h5" false "" false false false (World true ∅)).2
  = [(Handle "f.h5" [], "Table_00"); (Handle "f.h5" [], "Table_01");
     (Handle "f.h5" [], "Table_02")].
Proof. vm_compute. reflexivity. Qed.

(** C9 as stated fails for a named table when [ignore_groups] is set: the
    table named [grp/obs] is written as [obs]. *)
Lemma write_set_own_name_counterexample :
  let tset :=
    TableSet.Mk [Table.Mk "grp/obs" (RecArray 1 [("x", [VInt 1])]) ∅] ∅ in
  let res := write_set tset "f.h5" false "" false false true (World true ∅) in
  res.1.1 = Ok () ∧
  dataset_events res.2 = [(Handle "f.h5" [], "obs")] ∧
  (Handle "f.h5" [], "grp/obs") ∉ dataset_events res.2.
Proof.
  vm_compute. split_and!; [done..|].
  intros Hin. apply list_elem_of_In in Hin. simpl in Hin.
  destruct Hin as [[=]|[]].
Qed.

(** ** What reading may do *)

Lemma read_from_split f g table s :
  read_from f g table s =
  (tbl ← choose_table g table;
   read_named g tbl;;
   match f with
   | Some f => on_world (h5_close f)
   | None => mret ()
   end) s.
Proof.
  unfold read_from, read_named. apply bind_ext. intros tbl s1.
  repeat (rewrite ?bind_assoc; apply bind_ext; intros ? ?).
  by rewrite ?bind_assoc.
Qed.

#[global] Instance same_world_refl {T} : Reflexive (@same_world T).
Proof. done. Qed.

#[global] Instance same_world_trans {T} : Transitive (@same_world T).
Proof. intros s1 s2 s3 H12 H23. unfold same_world in *. congruence. Qed.

Section readonly_specs.
Context (R : relation world) `{!Reflexive R, !Transitive R}.
Context (P : event → Prop) (E : exn → Prop).
Hypothesis HE : ∀ b, E (BackendError b).

Lemma sat_ro_getitem g name :
  sat (h5_getitem g name) R P (λ _, True) E.
Proof.
  unfold h5_getitem. sat_gets.
  intros [[a ms|]|] _; try (sat_leaf; auto).
  destruct (PyStr.truthy name); [|sat_leaf; auto].
  sat_gets. intros [m|] _; sat_leaf; auto.
Qed.

Lemma sat_ro_array obj : sat (h5_array obj) R P (λ _, True) E.
Proof.
  unfold h5_array. sat_gets. intros [[]|] _; sat_leaf; auto.
Qed.

Lemma sat_ro_len obj : sat (h5_len obj) R P (λ _, True) E.
Proof.
  unfold h5_len. sat_apply sat_bind; [apply sat_ro_array|].
  intros d _. by sat_leaf.
Qed.

Lemma sat_ro_dtype_names obj : sat (h5_dtype_names obj) R P (λ _, True) E.
Proof.
  unfold h5_dtype_names. sat_apply sat_bind; [apply sat_ro_array|].
  intros d _. by sat_leaf.
Qed.

Lemma sat_ro_read_field obj name :
  sat (h5_read_field obj name) R P (λ _, True) E.
Proof.
  unfold h5_read_field. sat_apply sat_bind; [apply sat_ro_array|].
  intros [|r] _; [sat_leaf; auto|].
  destruct (lookup_field _ _); sat_leaf; auto.
Qed.

Lemma sat_ro_is_dataset obj : sat (h5_is_dataset obj) R P (λ _, True) E.
Proof.
  unfold h5_is_dataset. sat_gets. intros [[]|] _; sat_leaf; auto.
Qed.

Lemma sat_ro_visit g : sat (h5_visit g) R P (λ _, True) E.
Proof.
  unfold h5_visit. sat_gets. intros [[]|] _; sat_leaf; auto.
Qed.

Lemma sat_ro_list_tables g : sat (_list_tables g) R P (λ _, True) E.
Proof.
  unfold _list_tables. sat_apply sat_bind; [apply sat_ro_visit|].
  intros names _. sat_apply sat_foldM; [done|].
  intros tables item _.
  sat_apply sat_bind; [apply sat_ro_getitem|]. intros obj _.
  sat_apply sat_bind; [apply sat_ro_is_dataset|]. intros [] _; [|by sat_leaf].
  sat_apply sat_bind; [apply sat_ro_getitem|]. intros obj' _.
  sat_apply sat_bind; [apply sat_ro_dtype_names|]. intros names' _.
  destruct (names_truthy names'); by sat_leaf.
Qed.
End readonly_specs.

Lemma sat_on_world {T A} (m : M world A) (P : event → Prop) Q E :
  sat m eq P Q E → sat (on_world (T := T) m) same_world P Q E.
Proof.
  intros Hm [t w] r [t' w'] evs. rewrite on_world_run.
  destruct (m w) as [[r0 w0] e0] eqn:Hrun. intros [= <- <- <- <-].
  destruct (Hm _ _ _ _ Hrun) as (-> & ? & ?). done.
Qed.

Lemma sat_on_self {T} (f : T → T) (P : event → Prop) E :
  sat (on_self (W := world) f) same_world P (λ _, True) E.
Proof. intros [t w] r [t' w'] evs [= <- <- <- <-]. done. Qed.

Lemma sat_get_self {T} (P : event → Prop) E :
  sat (get_self (T := T) (W := world)) same_world P (λ _, True) E.
Proof. intros [t w] r [t' w'] evs [= <- <- <- <-]. done. Qed.

(** Copying the chosen dataset makes no call that is recorded, leaves the
    world as it is, and can only fail in the backend. *)
Lemma sat_read_named g table :
  sat (read_named g table) same_world no_event (λ _, True) is_backend.
Proof.
  assert (∀ A (m : handle → M world A),
    (∀ d, sat (m d) eq no_event (λ _, True) is_backend) →
    sat (on_world (T := Table.t) (d ← h5_getitem g table; m d))
      same_world no_event (λ _, True) is_backend) as Hget.
  { intros A m Hm. apply sat_on_world.
    sat_apply sat_bind; [sat_apply sat_ro_getitem; done|]. intros d _. apply Hm. }
  unfold read_named.
  sat_apply sat_bind; [apply sat_on_self|]. intros _ _.
  sat_apply sat_bind; [apply Hget; intros d; sat_apply sat_ro_len; done|].
  intros n _.
  sat_apply sat_bind; [apply Hget; intros d; sat_apply sat_ro_dtype_names; done|].
  intros dtype _.
  sat_apply sat_bind; [apply sat_on_self|]. intros _ _.
  sat_apply sat_bind; [apply Hget; intros d; sat_apply sat_ro_dtype_names; done|].
  intros names _.
  sat_apply sat_bind.
  { instantiate (1 := λ _, True). destruct names; by sat_leaf. }
  intros names' _. sat_apply sat_for_each. intros name.
  sat_apply sat_bind; [apply Hget; intros d; sat_apply sat_ro_read_field; done|].
  intros col _. sat_apply sat_bind; [apply sat_get_self|]. intros self _.
  destruct (assign_column _ _ _); [apply sat_on_self | by sat_leaf].
Qed.

(** Choosing the table changes nothing; without a name it fails with the
    ambiguity error unless exactly one table was discovered. *)
Lemma choose_table_inv g table self w r s' evs :
  choose_table g table (self, w) = (r, s', evs) →
  s' = (self, w) ∧ evs = [] ∧
  match r with
  | Ok _ => True
  | Raise e => is_backend e ∨ (table = None ∧ ∃ tables, e = TableException tables)
  end.
Proof.
  unfold choose_table. destruct table as [table|].
  { by intros [= <- <- <-]. }
  intros [(tables & [t1 w1] & e1 & e2 & Hlist & Hrest & ->)|(e & Hlist & ->)]%bind_inv.
  - pose proof (sat_on_world (T := Table.t) _ _ _ _
                  (sat_ro_list_tables eq no_event is_backend ltac:(done) g)
                  _ _ _ _ Hlist) as (Hw & Hevs & _).
    rewrite on_world_run in Hlist. destruct (_list_tables g w) as [[??]?].
    unfold same_world in Hw. simpl in Hw. simplify_eq.
    assert (e1 = []) as ->.
    { destruct e1 as [|ev ?]; [done|]. by inversion Hevs. }
    destruct (decide (size tables = 1)).
    + destruct ((map_to_list tables).*1); injection Hrest as <- <- <-;
        split_and!; simpl; auto.
    + injection Hrest as <- <- <-. split_and!; simpl; eauto.
  - pose proof (sat_on_world (T := Table.t) _ _ _ _
                  (sat_ro_list_tables eq no_event is_backend ltac:(done) g)
                  _ _ _ _ Hlist) as (Hw & Hevs & He).
    destruct s' as [t1 w1].
    rewrite on_world_run in Hlist. destruct (_list_tables g w) as [[??]?].
    unfold same_world in Hw. simpl in Hw. simplify_eq.
    split_and!; [done| |by left].
    destruct evs as [|ev ?]; [done|]. by inversion Hevs.
Qed.

Lemma no_event_nil evs : Forall no_event evs → evs = [].
Proof. destruct 1 as [|ev evs []]. done. Qed.

(** [read] from the choice of the table on: the world is left as it was;
    the file the call opened is closed when the call returns normally, and
    only then; the ambiguity error finds the table as it was. *)
Lemma read_from_inv f g table self w r self' w' evs :
  read_from f g table (self, w) = (r, (self', w'), evs) →
  w' = w ∧
  match r with
  | Ok _ => evs = closing f
  | Raise e =>
      evs = [] ∧
      (is_backend e ∨
       (table = None ∧ self' = self ∧ ∃ tables, e = TableException tables))
  end.
Proof.
  rewrite read_from_split.
  intros [(tbl & s1 & e1 & e2 & Hchoose & Hrun & ->)|(e & Hchoose & ->)]%bind_inv.
  2:{ apply choose_table_inv in Hchoose as ([= -> ->] & -> & He).
      split_and!; [done..|]. destruct He as [?|[? ?]]; auto. }
  apply choose_table_inv in Hchoose as (-> & -> & _).
  apply bind_inv in Hrun
    as [([] & [t2 w2] & e3 & e4 & Hnamed & Hclose & ->)|(e & Hnamed & ->)].
  - destruct (sat_read_named _ _ _ _ _ _ Hnamed) as (Hw & ->%no_event_nil & _).
    unfold same_world in Hw. simpl in Hw. subst w2.
    unfold on_world, h5_close, emit, mret, M_ret in Hclose.
    by destruct f as [f|]; injection Hclose as <- <- <- <-.
  - destruct (sat_read_named _ _ _ _ _ _ Hnamed) as (Hw & ->%no_event_nil & He).
    unfold same_world in Hw. simpl in Hw. subst w'. auto.
Qed.

(** The whole of [read]. *)
Lemma read_inv filename table verbose self w r self' w' evs :
  read filename table verbose (self, w) = (r, (self', w'), evs) →
  w' = w ∧
  (h5py_installed w = false → r = Raise H5pyRequired ∧ self' = self ∧ evs = []) ∧
  (h5py_installed w = true →
   match filename with
   | THandle h =>
       match r with
       | Ok _ => evs = []
       | Raise e =>
           evs = [] ∧
           (is_backend e ∨
            (table = None ∧ self' = Table.reset self ∧
             ∃ tables, e = TableException tables))
       end
   | TPath p =>
       match r with
       | Ok _ => evs = [EvExists p; EvOpen p ModeA; EvClose p]
       | Raise e =>
           (e = FileNotFound p ∧ self' = Table.reset self ∧
            evs = [EvExists p]) ∨
           (evs = [EvExists p; EvOpen p ModeA] ∧
            (is_backend e ∨
             (table = None ∧ self' = Table.reset self ∧
              ∃ tables, e = TableException tables)))
       end
   end).
Proof.
  rewrite read_unfold, bind_run, on_world_run.
  destruct (h5py_installed w) eqn:Hinst.
  2:{ unfold _check_h5py_installed. unfold_M. rewrite Hinst. simpl.
      intros [= <- <- <- <-]. done. }
  rewrite check_h5py_installed_run by done.
  rewrite bind_run. unfold on_self at 1. rewrite bind_run.
  intros Hrun. split_and!; [|done|intros _].
  - destruct filename as [p|h].
    + revert Hrun. rewrite bind_run, on_world_run, os_path_exists_run.
      case_bool_decide as Hex; cbn [negb].
      2:{ by intros [= <- <- <- <-]. }
      destruct Hex as [root Hroot].
      rewrite bind_run, on_world_run, (h5py_File_existing _ _ _ Hroot).
      rewrite bind_run. unfold on_world at 1, h5_root at 1.
      unfold mret at 1 2, M_ret at 1 2. cbn [fst snd h_file].
      destruct (read_from _ _ _ _) as [[r0 [t0 w0]] e0] eqn:Hfrom.
      apply read_from_inv in Hfrom as [-> _]. by intros [= <- <- <- <-].
    + revert Hrun. unfold mret at 1, M_ret at 1. cbn [fst snd].
      destruct (read_from _ _ _ _) as [[r0 [t0 w0]] e0] eqn:Hfrom.
      apply read_from_inv in Hfrom as [-> _]. by intros [= <- <- <- <-].
  - destruct filename as [p|h].
    + revert Hrun. rewrite bind_run, on_world_run, os_path_exists_run.
      case_bool_decide as Hex; cbn [negb].
      2:{ intros [= <- <- <- <-]. by left. }
      destruct Hex as [root Hroot].
      rewrite bind_run, on_world_run, (h5py_File_existing _ _ _ Hroot).
      rewrite bind_run. unfold on_world at 1, h5_root at 1.
      unfold mret at 1 2, M_ret at 1 2. cbn [fst snd h_file].
      destruct (read_from _ _ _ _) as [[r0 [t0 w0]] e0] eqn:Hfrom.
      apply read_from_inv in Hfrom as [-> Hr]. intros [= <- <- <- <-].
      destruct r0 as [[]|e]; [by subst e0|].
      destruct Hr as [-> He]. right. done.
    + revert Hrun. unfold mret at 1, M_ret at 1. cbn [fst snd].
      destruct (read_from _ _ _ _) as [[r0 [t0 w0]] e0] eqn:Hfrom.
      apply read_from_inv in Hfrom as [-> Hr]. intros [= <- <- <- <-].
      destruct r0 as [[]|e]; [by subst e0|]. by destruct Hr as [-> He].
Qed.

(** ** Opening and closing *)

Lemma track_neutral evs : ∀ opened,
  Forall handle_neutral evs → foldl track_handle opened evs = opened.
Proof.
  induction evs as [|ev evs IH]; intros opened Hall; [done|].
  inversion Hall as [|?? Hev Hevs]; subst. simpl.
  rewrite IH by done. by destruct ev.
Qed.

Lemma open_handles_balanced before p m between :
  Forall handle_neutral before → Forall handle_neutral between →
  open_handles (before ++ EvOpen p m :: between ++ [EvClose p]) = [].
Proof.
  intros Hbefore Hbetween. unfold open_handles.
  rewrite foldl_app, (track_neutral before) by done. simpl.
  rewrite foldl_app, (track_neutral between) by done. simpl.
  by rewrite decide_True.
Qed.

Lemma ev_under_neutral g ev : ev_under g ev → handle_neutral ev.
Proof. by destruct ev. Qed.

Lemma neutral_not_close evs f :
  Forall handle_neutral evs → EvClose f ∉ evs.
Proof.
  intros Hall Hin. rewrite Forall_forall in Hall. by apply Hall in Hin.
Qed.

Lemma under_neutral g evs : Forall (ev_under g) evs → Forall handle_neutral evs.
Proof. intros H. eapply Forall_impl; [done|]. apply ev_under_neutral. Qed.

Lemma group_events_under g evs :
  Forall (is_group_event_under g) evs → Forall (ev_under g) evs.
Proof. intros H. eapply Forall_impl; [done|]. by intros []. Qed.

Lemma opening_events_split p existed append :
  ∃ before m,
    Forall handle_neutral before ∧
    ∀ rest, opening_events p existed append ++ rest
            = before ++ EvOpen p m :: rest.
Proof.
  unfold opening_events.
  exists (EvExists p :: if existed && negb append then [EvRemove p] else []),
    (if append then ModeA else ModeW).
  split.
  - destruct (existed && negb append); by repeat constructor.
  - intros rest. simpl. by rewrite <- app_assoc.
Qed.

(** [write] from the choice of the name on: the events stay below the
    group, and the file the call opened is closed at the very end of a
    normal return, and not at all otherwise. *)
Lemma write_from_inv self f g group compression ignore_groups w r w' evs :
  write_from self f g group compression ignore_groups w = (r, w', evs) →
  match r with
  | Ok _ => ∃ mid, evs = mid ++ closing f ∧ Forall (ev_under (Handle (h_file g) [])) mid
  | Raise e =>
      Forall (ev_under (Handle (h_file g) [])) evs ∧
      (is_backend e ∨ ∃ name, e = TableAlreadyExists group name)
  end.
Proof.
  rewrite write_from_store.
  pose proof (sat_store_table (ev_under (Handle (h_file g) []))
                (λ e, is_backend e ∨ ∃ name, e = TableAlreadyExists group name)
                ltac:(by left) g group compression ignore_groups "Table" self
                (λ _ H, H) ltac:(by right; eexists)) as Hsat.
  intros [([] & w1 & e1 & e2 & Hstore & Hclose & ->)|(e & Hstore & ->)]%bind_inv.
  - destruct (Hsat _ _ _ _ Hstore) as (_ & Hevs & _).
    assert (r = Ok () ∧ e2 = closing f) as [-> ->]
      by (by destruct f; injection Hclose as <- <- <-).
    eauto.
  - by destruct (Hsat _ _ _ _ Hstore) as (_ & Hevs & He).
Qed.

(** The same for [write_set] from the keywords on. *)
Lemma write_set_tail_inv (self : TableSet.t) f g group compression
    ignore_groups w r w' evs :
  (for_each (map_to_list (TableSet.keywords self)) (λ '(keyword, v),
     h5_set_attr g keyword v);;
   for_each (imap pair (TableSet.tables self))
     (write_set_table g group compression ignore_groups);;
   h5_close f) w = (r, w', evs) →
  match r with
  | Ok _ => ∃ mid, evs = mid ++ [EvClose (h_file f)] ∧ Forall (ev_under (Handle (h_file g) [])) mid
  | Raise e =>
      Forall (ev_under (Handle (h_file g) [])) evs ∧
      (is_backend e ∨ ∃ name, e = TableAlreadyExists group name)
  end.
Proof.
  set (E := λ e, is_backend e ∨ ∃ name, e = TableAlreadyExists group name).
  intros [([] & w1 & e1 & e2 & Hattrs & Hrun & ->)|(e & Hattrs & ->)]%bind_inv.
  2:{ by destruct (sat_set_attrs (ev_under (Handle (h_file g) [])) E ltac:(by left) g _
                    ltac:(intros; by apply under_root) _ _ _ _ Hattrs)
        as (_ & ? & ?). }
  destruct (sat_set_attrs (ev_under (Handle (h_file g) [])) E ltac:(by left) g _
              ltac:(intros; by apply under_root) _ _ _ _ Hattrs) as (_ & He1 & _).
  assert (sat (for_each (imap pair (TableSet.tables self))
                 (write_set_table g group compression ignore_groups))
            evolves (ev_under (Handle (h_file g) [])) (λ _, True) E) as Htabs.
  { sat_apply sat_for_each. intros it.
    apply sat_write_set_table; [by left|done|by right; eexists]. }
  apply bind_inv in Hrun
    as [([] & w2 & e3 & e4 & Hloop & Hclose & ->)|(e & Hloop & ->)].
  - destruct (Htabs _ _ _ _ Hloop) as (_ & He3 & _).
    injection Hclose as <- <- <-. exists (e1 ++ e3).
    split; [by rewrite app_assoc|]. by apply Forall_app.
  - destruct (Htabs _ _ _ _ Hloop) as (_ & He3 & He).
    split; [by apply Forall_app|done].
Qed.

Lemma check_h5py_installed_inv w r w' evs :
  _check_h5py_installed w = (r, w', evs) →
  w' = w ∧ evs = [] ∧
  (r = Ok () ∧ h5py_installed w = true ∨
   r = Raise H5pyRequired ∧ h5py_installed w = false).
Proof.
  unfold _check_h5py_installed. unfold_M.
  destruct (h5py_installed w); intros [= <- <- <-]; auto.
Qed.

Lemma no_close_not_elem evs f : Forall no_close evs → EvClose f ∉ evs.
Proof.
  intros Hall Hin. rewrite Forall_forall in Hall. by apply Hall in Hin.
Qed.

Lemma neutral_no_close evs : Forall handle_neutral evs → Forall no_close evs.
Proof. intros H. eapply Forall_impl; [done|]. by intros []. Qed.

Lemma opening_events_no_close p existed append :
  Forall no_close (opening_events p existed append).
Proof.
  unfold opening_events. constructor; [done|].
  apply Forall_app. split; [|by repeat constructor].
  destruct (existed && negb append); by repeat constructor.
Qed.

(** A writer on a file name: the file policy, then a tail that closes the
    file at the end of a normal return and not otherwise. *)
Lemma path_writer_discipline p group append overwrite
    (tail : handle * handle → M world unit) w r w' evs :
  (∀ fg w1 r w2 e2,
     fg.1 = Handle p [] → tail fg w1 = (r, w2, e2) →
     match r with
     | Ok _ => ∃ mid, e2 = mid ++ [EvClose p] ∧ Forall handle_neutral mid
     | Raise _ => Forall handle_neutral e2
     end) →
  (_check_h5py_installed;;
   fg ← open_for_write p group append overwrite;
   tail fg) w = (r, w', evs) →
  handle_discipline (TPath p) (is_ok r) evs.
Proof.
  intros Htail.
  intros [([] & w0 & e0 & e1 & Hcheck & Hrun & ->)|(e & Hcheck & ->)]%bind_inv.
  2:{ apply check_h5py_installed_inv in Hcheck as (_ & -> & _).
      simpl. intros f. apply not_elem_of_nil. }
  apply check_h5py_installed_inv in Hcheck as (-> & -> & _).
  apply bind_inv in Hrun
    as [(fg & w1 & e1' & e2 & Hopen & Hrun & ->)|(e & Hopen & ->)].
  - apply open_for_write_inv in Hopen. cbv zeta in Hopen.
    destruct (_ && _ && _); [by destruct Hopen|].
    destruct Hopen as (e1 & -> & He1 & _ & _ & _ & _ & Hf & _).
    apply Htail in Hrun; [|done]. destruct r as [[]|e].
    + simpl. destruct Hrun as (mid & -> & Hmid).
      match goal with
      | |- context [EvExists p :: ((?X ++ [EvOpen p ?m]) ++ e1) ++ _] =>
          replace (EvExists p :: ((X ++ [EvOpen p m]) ++ e1)
                     ++ mid ++ [EvClose p])
            with ((EvExists p :: X) ++ EvOpen p m :: (e1 ++ mid) ++ [EvClose p])
            by (simpl; by rewrite <- !app_assoc);
          assert (Forall handle_neutral (EvExists p :: X)) as Hbefore
            by (destruct (_ && _); by repeat constructor)
      end.
      split.
      * apply open_handles_balanced; [done|].
        apply Forall_app. eauto using under_neutral, group_events_under.
      * eexists. apply elem_of_app. right. left.
    + cbn [is_ok handle_discipline]. intros f. apply no_close_not_elem.
      rewrite app_nil_l. apply Forall_app. split; [apply Forall_app; split|];
        eauto using opening_events_no_close, neutral_no_close, under_neutral.
  - simpl. intros f. apply no_close_not_elem.
    apply open_for_write_inv in Hopen. cbv zeta in Hopen.
    destruct (_ && _ && _).
    + destruct Hopen as (_ & _ & ->). by repeat constructor.
    + destruct Hopen as (e3 & -> & He3 & _).
      apply Forall_app.
      eauto using opening_events_no_close, neutral_no_close, under_neutral.
Qed.

(** C7 (as amended): [read], [write] and [write_set] never open or close
    anything when given an open handle; on a file name, a call that returns
    normally has opened the file and closed every file it opened, and a
    call that raises closes nothing (a file opened before the error stays
    open). *)
Theorem handles_closed_on_normal_exit self tset filename table verbose
    compression group append overwrite ignore_groups w r evs :
  (∃ s', read filename table verbose (self, w) = (r, s', evs)) ∨
  (∃ w', write self filename compression group append overwrite
           ignore_groups w = (r, w', evs)) ∨
  (∃ p w', filename = TPath p ∧
           write_set tset p compression group append overwrite
             ignore_groups w = (r, w', evs)) →
  handle_discipline filename (is_ok r) evs.
Proof.
  intros [([self' w'] & Hrun)|[(w' & Hrun)|(p & w' & -> & Hrun)]].
  - apply read_inv in Hrun as (_ & Hno & Hyes).
    destruct (h5py_installed w).
    2:{ destruct (Hno eq_refl) as (-> & _ & ->).
        destruct filename; simpl; [intros f; apply not_elem_of_nil|done]. }
    specialize (Hyes eq_refl). destruct filename as [p|h]; simpl.
    + destruct r as [[]|e]; simpl.
      * subst evs. split; [|exists ModeA; by right; left].
        by apply (open_handles_balanced [EvExists p] p ModeA []);
          repeat constructor.
      * intros f. apply no_close_not_elem.
        destruct Hyes as [(_ & _ & ->)|(-> & _)]; by repeat constructor.
    + destruct r as [[]|e]; [by subst evs|]. by destruct Hyes as [-> _].
  - destruct filename as [p|h];
      [|by apply write_handle_no_file_calls in Hrun as [? _]].
    rewrite write_path_unfold in Hrun.
    eapply (path_writer_discipline _ _ _ _
              (λ fg, write_from self (Some fg.1) fg.2 group compression
                       ignore_groups)); [|done].
    intros fg w1 r' w2 e2 Hf Htail. apply write_from_inv in Htail.
    destruct r' as [[]|e].
    + destruct Htail as (mid & -> & Hmid). exists mid. simpl. rewrite Hf.
      eauto using under_neutral.
    + destruct Htail as [Hevs _]. eauto using under_neutral.
  - rewrite write_set_unfold in Hrun.
    eapply (path_writer_discipline _ _ _ _
              (λ fg,
                 for_each (map_to_list (TableSet.keywords tset))
                   (λ '(keyword, v), h5_set_attr fg.2 keyword v);;
                 for_each (imap pair (TableSet.tables tset))
                   (write_set_table fg.2 group compression ignore_groups);;
                 h5_close fg.1)); [|done].
    intros fg w1 r' w2 e2 Hf Htail. apply write_set_tail_inv in Htail.
    destruct r' as [[]|e].
    + destruct Htail as (mid & -> & Hmid). exists mid. rewrite Hf.
      eauto using under_neutral.
    + destruct Htail as [Hevs _]. eauto using under_neutral.
Qed.

Lemma handles_closed_on_normal_exit_witness :
  let w := World true ∅ in
  let t := Table.Mk "obs" (RecArray 1 [("x", [VInt 1])]) ∅ in
  let res := write t (TPath "f.h5") false "" false false false w in
  handle_discipline (TPath "f.h5") (is_ok res.1.1) res.2.
Proof.
  intros w t res.
  apply (handles_closed_on_normal_exit t (TableSet.Mk [] ∅) (TPath "f.h5")
           None true false "" false false false w).
  right. left. exists res.1.2. vm_compute. reflexivity.
Defined.

(** C7 as stated fails on an error exit: [read] without a table name on a
    file that holds no table raises the ambiguity error after opening the
    file, and the file is left open. *)
Lemma read_error_leaves_file_open_counterexample :
  let w := World true {["f.h5" := Group ∅ []]} in
  let res := read (TPath "f.h5") None true (Table.new, w) in
  res.1.1 = Raise (TableException ∅) ∧
  res.2 = [EvExists "f.h5"; EvOpen "f.h5" ModeA] ∧
  open_handles res.2 = ["f.h5"].
Proof. vm_compute. done. Qed.

(** [read_set] opens the file a second time for the discovery and never
    closes that handle, also on a normal return. *)
Example read_set_leaves_discovery_handle_open :
  let w := World true {["f.h5" :=
    Group ∅ [("obs", Dataset ∅ (Structured (RecArray 1 [("x", [VInt 1])])))]]} in
  let res := read_set "f.h5" false true (TableSet.Mk [] ∅, w) in
  res.1.1 = Ok () ∧
  TableSet.tables res.1.2.1
    = [Table.Mk "obs" (RecArray 1 [("x", [VInt 1])]) ∅] ∧
  res.2 = [EvOpen "f.h5" ModeR; EvClose "f.h5"; EvOpen "f.h5" ModeA;
           EvExists "f.h5"; EvOpen "f.h5" ModeA; EvClose "f.h5"] ∧
  open_handles res.2 = ["f.h5"].
Proof. vm_compute. done. Qed.

(** ** Errors and state *)

Lemma world_eq w w' :
  fs w' = fs w → h5py_installed w' = h5py_installed w → w' = w.
Proof. destruct w, w'. simpl. by intros -> ->. Qed.

Lemma node_at_names_ok w g a ms :
  world_ok w → node_at w g = Some (Group a ms) →
  Forall (λ k, valid_name k = true) ms.*1.
Proof.
  intros Hok Hg. unfold node_at in Hg.
  destruct (fs w !! h_file g) as [root|] eqn:Hroot; [|done].
  pose proof (names_ok_resolve _ _ _ (Hok _ _ Hroot) Hg) as Hn.
  apply names_ok_group in Hn as [_ Hall].
  apply Forall_fmap. eapply Forall_impl; [done|]. by intros [k c] [? _].
Qed.

(** When [store_table] raises the table-exists error nothing has been
    changed, and the group already had members. *)
Lemma store_table_exists g group compression ignore_groups fallback tbl
    w w' evs grp name :
  store_table g group compression ignore_groups fallback tbl w
    = (Raise (TableAlreadyExists grp name), w', evs) →
  world_ok w →
  w' = w ∧ evs = [] ∧ ∃ a ms, node_at w g = Some (Group a ms) ∧ ms ≠ [].
Proof.
  unfold store_table.
  set (name0 := if PyStr.truthy (Table.table_name tbl)
                then Table.table_name tbl else fallback).
  intros Hrun Hok.
  apply bind_inv in Hrun
    as [(nm & w1 & e1 & e2 & Hname & Hrun & ->)|(e & Hname & [= <-])].
  2:{ by destruct (sat_resolve_name (λ _, True) is_backend ltac:(done)
                     g name0 ignore_groups ltac:(done) _ _ _ _ Hname)
        as (_ & _ & ?). }
  apply bind_inv in Hrun
    as [(keys & w2 & e3 & e4 & Hkeys & Hrun & ->)|(e & Hkeys & [= <-])];
    apply h5_keys_inv in Hkeys as (-> & -> & Hkeys); [|done].
  destruct Hkeys as (a & ms & Hg & ->).
  case_bool_decide as Hin.
  2:{ exfalso. apply bind_inv in Hrun
        as [(dset & w3 & e5 & e6 & Hcreate & Hrun & ->)|(e & Hcreate & [= <-])].
      - by destruct (sat_set_attrs (λ _, True) is_backend ltac:(done) dset _
                       ltac:(done) _ _ _ _ Hrun) as (_ & _ & ?).
      - by destruct (sat_h5_create_dataset (λ _, True) is_backend ltac:(done)
                       g nm (Table.data tbl) compression (λ _, True) I I
                       _ _ _ _ Hcreate) as (_ & _ & ?). }
  injection Hrun as <- <- <- <-.
  assert (ms ≠ []) as Hms by (intros ->; by apply elem_of_nil in Hin).
  destruct ignore_groups.
  { injection Hname as <- <- <-. eauto 10. }
  apply bind_inv in Hname
    as [([] & w0 & e0 & e0' & Hgroups & Hret & ->)|(e & _ & [=])].
  injection Hret as <- <- <-.
  destruct (PyStr.truthy (PyStr.dirname name0)) eqn:Hdir.
  2:{ injection Hgroups as <- <-. eauto 10. }
  exfalso.
  destruct (sat_create_required_groups g _ (λ _, True) (λ _, True)
              ltac:(done) ltac:(done) _ _ _ _ Hgroups)
    as ((_ & _ & Hok') & _).
  pose proof (node_at_names_ok _ _ _ _ (Hok' Hok) Hg) as Hvalid.
  rewrite Forall_forall in Hvalid. apply Hvalid in Hin.
  apply andb_true_iff in Hin as [_ Hslash].
  apply PyStrFacts.dirname_truthy_has_slash in Hdir. by rewrite Hdir in Hslash.
Qed.

Lemma write_from_exists self f g group compression ignore_groups w w' evs
    grp name :
  write_from self f g group compression ignore_groups w
    = (Raise (TableAlreadyExists grp name), w', evs) →
  world_ok w →
  w' = w ∧ ∃ a ms, node_at w g = Some (Group a ms) ∧ ms ≠ [].
Proof.
  rewrite write_from_store.
  intros [([] & w1 & e1 & e2 & _ & Hclose & _)|(e & Hstore & [= <-])]%bind_inv Hok.
  { by destruct f. }
  by apply store_table_exists in Hstore as (-> & _ & ?).
Qed.

(** When the loop of [write_set] raises the table-exists error, the tables
    before the offending one have been written and nothing else: the loop
    over those tables alone ends normally in the same state. *)
Lemma write_set_loop_exists g group compression ignore_groups tbls :
  ∀ (pos : nat → nat) w w' evs grp name,
  world_ok w →
  for_each (imap (λ i tbl, (pos i, tbl)) tbls)
    (write_set_table g group compression ignore_groups) w
    = (Raise (TableAlreadyExists grp name), w', evs) →
  ∃ written rest,
    tbls = written ++ rest ∧ rest ≠ [] ∧
    for_each (imap (λ i tbl, (pos i, tbl)) written)
      (write_set_table g group compression ignore_groups) w
      = (Ok (), w', evs).
Proof.
  unfold for_each.
  induction tbls as [|tbl tbls IH]; intros pos w w' evs grp name Hok; [done|].
  cbn [imap foldM].
  intros [([] & w1 & e1 & e2 & Hstore & Hrest & ->)|(e & Hstore & [= <-])]%bind_inv.
  - destruct (sat_write_set_table (λ _, True) (λ _, True) ltac:(done) g group
                compression ignore_groups (pos 0, tbl) ltac:(done) ltac:(done)
                _ _ _ _ Hstore) as ((_ & _ & Hok1) & _).
    apply (IH (pos ∘ S)) in Hrest as (written & rest & -> & Hrest & Hloop);
      [|auto].
    exists (tbl :: written), rest. split_and!; [done..|].
    cbn [imap foldM]. rewrite bind_run, Hstore.
    change (imap ((λ i tbl, (pos i, tbl)) ∘ S) written)
      with (imap (λ i tbl, ((pos ∘ S) i, tbl)) written).
    by rewrite Hloop.
  - rewrite write_set_table_store in Hstore.
    apply store_table_exists in Hstore as (-> & -> & _); [|done].
    by exists [], (tbl :: tbls).
Qed.

Lemma write_set_exists (self : TableSet.t) p compression group append
    overwrite ignore_groups w w' evs grp name :
  write_set self p compression group append overwrite ignore_groups w
    = (Raise (TableAlreadyExists grp name), w', evs) →
  world_ok w →
  ∃ written rest,
    TableSet.tables self = written ++ rest ∧ rest ≠ [] ∧
    write_set (TableSet.Mk written (TableSet.keywords self)) p compression
      group append overwrite ignore_groups w
      = (Ok (), w', evs ++ [EvClose p]).
Proof.
  rewrite write_set_unfold. intros Hrun Hok.
  apply bind_inv in Hrun
    as [([] & w0 & e0 & e1 & Hcheck & Hrun & ->)|(e & Hcheck & [= <-])].
  2:{ by apply check_h5py_installed_inv in Hcheck as (_ & _ & [[[=] _]|[[=] _]]). }
  pose proof Hcheck as Hcheck'.
  apply check_h5py_installed_inv in Hcheck' as (-> & -> & _).
  apply bind_inv in Hrun
    as [(fg & w1 & e1' & e2 & Hopen & Hrun & ->)|(e & Hopen & [= <-])].
  2:{ apply open_for_write_inv in Hopen. cbv zeta in Hopen.
      destruct (_ && _ && _); [by destruct Hopen as ([=] & _)|].
      by destruct Hopen as (? & _ & _ & _ & _ & _ & _ & []). }
  pose proof Hopen as Hopen'.
  apply open_for_write_inv in Hopen'. cbv zeta in Hopen'.
  destruct (_ && _ && _); [by destruct Hopen'|].
  destruct Hopen' as (e3 & _ & _ & _ & _ & Hok1 & _ & Hf & _).
  apply bind_inv in Hrun
    as [([] & w2 & e4 & e5 & Hattrs & Hrun & ->)|(e & Hattrs & [= <-])].
  2:{ by destruct (sat_set_attrs (λ _, True) is_backend ltac:(done) fg.2 _
                    ltac:(done) _ _ _ _ Hattrs) as (_ & _ & ?). }
  destruct (sat_set_attrs (λ _, True) (λ _, True) ltac:(done) fg.2 _
              ltac:(done) _ _ _ _ Hattrs) as ((_ & _ & Hok2) & _).
  apply bind_inv in Hrun
    as [([] & w3 & e6 & e7 & _ & [=] & _)|(e & Hloop & [= <-])].
  apply (write_set_loop_exists _ _ _ _ _ id) in Hloop
    as (written & rest & Htables & Hrest & Hloop); [|auto].
  exists written, rest. split_and!; [done..|].
  rewrite write_set_unfold, bind_run, Hcheck, bind_run, Hopen. simpl.
  rewrite bind_run, Hattrs, bind_run.
  change (imap pair written) with (imap (λ i tbl, (id i, tbl)) written).
  rewrite Hloop. unfold h5_close, emit. rewrite Hf. simpl.
  by rewrite <- !app_assoc.
Qed.

(** C8 (as amended).  The missing-file and ambiguity errors of [read] leave
    the world untouched, but find the target table already reset.  The
    file-exists error of [write] and [write_set] is raised before anything
    is changed.  The table-exists error of [write] is raised with the
    container as it was before the call.  The table-exists error of
    [write_set] is raised before anything is written for the offending
    table, but after the keywords and the tables before it: the state is
    the one that writing only those tables leaves. *)
Theorem errors_and_state self tset filename table verbose compression group
    append overwrite ignore_groups w :
  (∀ r self' w' evs,
     read filename table verbose (self, w) = (r, (self', w'), evs) →
     (∃ q, r = Raise (FileNotFound q)) ∨
     (∃ tables, r = Raise (TableException tables)) →
     w' = w ∧ self' = Table.reset self) ∧
  (∀ r w' evs q,
     write self filename compression group append overwrite ignore_groups w
       = (r, w', evs) ∨
     (∃ p, filename = TPath p ∧
           write_set tset p compression group append overwrite
             ignore_groups w = (r, w', evs)) →
     r = Raise (FileExists q) → w' = w) ∧
  (∀ w' evs grp name,
     write self filename compression group append overwrite ignore_groups w
       = (Raise (TableAlreadyExists grp name), w', evs) →
     world_ok w → w' = w) ∧
  (∀ p w' evs grp name,
     write_set tset p compression group append overwrite ignore_groups w
       = (Raise (TableAlreadyExists grp name), w', evs) →
     world_ok w →
     ∃ written rest,
       TableSet.tables tset = written ++ rest ∧ rest ≠ [] ∧
       write_set (TableSet.Mk written (TableSet.keywords tset)) p compression
         group append overwrite ignore_groups w
         = (Ok (), w', evs ++ [EvClose p])).
Proof.
  split_and!; [| | |intros p w' evs grp name; apply write_set_exists].
  - intros r self' w' evs Hrun Herr.
    apply read_inv in Hrun as (-> & Hno & Hyes). split; [done|].
    destruct (h5py_installed w).
    2:{ destruct (Hno eq_refl) as (-> & _). by destruct Herr as [[? [=]]|[? [=]]]. }
    specialize (Hyes eq_refl).
    destruct Herr as [[q ->]|[tables ->]]; destruct filename as [p|h].
    + by destruct Hyes as [(_ & ? & _)|(_ & [[]|(_ & ? & _)])].
    + by destruct Hyes as (_ & [[]|(_ & ? & _)]).
    + by destruct Hyes as [(_ & ? & _)|(_ & [[]|(_ & ? & _)])].
    + by destruct Hyes as (_ & [[]|(_ & ? & _)]).
  - intros r w' evs q Hrun ->.
    assert (∃ p (tail : handle * handle → M world unit),
      (∀ fg w1 e w2 e2, tail fg w1 = (Raise e, w2, e2) →
         is_backend e ∨ ∃ name, e = TableAlreadyExists group name) ∧
      (_check_h5py_installed;;
       fg ← open_for_write p group append overwrite;
       tail fg) w = (Raise (FileExists q), w', evs))
      as (p & tail & Htail & Hrun').
    { destruct Hrun as [Hrun|(p & -> & Hrun)]; [destruct filename as [p|h]|].
      - rewrite write_path_unfold in Hrun. eexists p, _. split; [|exact Hrun].
        intros fg w1 e w2 e2 Hr. simpl in Hr.
        by apply write_from_inv in Hr as [_ ?].
      - apply write_handle_no_file_calls in Hrun as (_ & Hne).
        by destruct (Hne q).
      - rewrite write_set_unfold in Hrun. eexists p, _. split; [|exact Hrun].
        intros fg w1 e w2 e2 Hr. simpl in Hr.
        by apply write_set_tail_inv in Hr as [_ ?]. }
    clear Hrun.
    apply bind_inv in Hrun'
      as [([] & w0 & e0 & e1 & Hcheck & Hrun & ->)|(e & Hcheck & [= <-])].
    2:{ by apply check_h5py_installed_inv in Hcheck as (_ & _ & [[[=] _]|[[=] _]]). }
    apply check_h5py_installed_inv in Hcheck as (-> & -> & _).
    apply bind_inv in Hrun
      as [(fg & w1 & e1' & e2 & Hopen & Hrun & ->)|(e & Hopen & [= <-])].
    + apply Htail in Hrun as [[]|[? [=]]].
    + apply open_for_write_inv in Hopen. cbv zeta in Hopen.
      destruct (_ && _ && _); [by destruct Hopen as (_ & -> & _)|].
      by destruct Hopen as (? & _ & _ & _ & _ & _ & _ & []).
  - intros w' evs grp name Hrun Hok. destruct filename as [p|h].
    + rewrite write_path_unfold in Hrun.
      apply bind_inv in Hrun
        as [([] & w0 & e0 & e1 & Hcheck & Hrun & ->)|(e & Hcheck & [= <-])].
      2:{ by apply check_h5py_installed_inv in Hcheck as (_ & _ & [[[=] _]|[[=] _]]). }
      apply check_h5py_installed_inv in Hcheck as (-> & -> & _).
      apply bind_inv in Hrun
        as [(fg & w1 & e1' & e2 & Hopen & Hrun & ->)|(e & Hopen & [= <-])].
      * apply open_for_write_inv in Hopen. cbv zeta in Hopen.
        destruct (_ && _ && _); [by destruct Hopen|].
        destruct Hopen as (e3 & _ & _ & _ & Hinst & Hok1 & _ & _ & _ & Hfresh).
        apply write_from_exists in Hrun as (-> & a & ms & Hg & Hms); [|auto].
        destruct Hfresh as [[Hfs _]|Hnew]; [by apply world_eq|].
        rewrite Hnew in Hg. by injection Hg as <- <-.
      * apply open_for_write_inv in Hopen. cbv zeta in Hopen.
        destruct (_ && _ && _); [by destruct Hopen as ([=] & _)|].
        by destruct Hopen as (? & _ & _ & _ & _ & _ & _ & []).
    + rewrite write_handle_unfold in Hrun.
      apply bind_inv in Hrun
        as [([] & w0 & e0 & e1 & Hcheck & Hrun & ->)|(e & Hcheck & [= <-])].
      2:{ by apply check_h5py_installed_inv in Hcheck as (_ & _ & [[[=] _]|[[=] _]]). }
      apply check_h5py_installed_inv in Hcheck as (-> & -> & _).
      apply bind_inv in Hrun
        as [(g & w1 & e1' & e2 & Hgroup & Hrun & ->)|(e & Hgroup & [= <-])].
      * destruct (sat_group_under (λ _, True) (λ _, True) ltac:(done) h group I
                    _ _ _ _ Hgroup) as ((_ & _ & Hok1) & _).
        apply write_from_exists in Hrun as (-> & a & ms & Hg & Hms); [|auto].
        apply group_under_inv in Hgroup.
        destruct (PyStr.truthy group); [|by destruct Hgroup as (_ & -> & _)].
        simpl in Hgroup.
        destruct Hgroup as [(_ & -> & _)|[([= ->] & _ & Hnew)|(b & [=] & _)]];
          [done|].
        rewrite Hnew in Hg. by injection Hg as <- <-.
      * apply group_under_inv in Hgroup.
        destruct (PyStr.truthy group); [|by destruct Hgroup as ([=] & _)].
        simpl in Hgroup.
        by destruct Hgroup as [([=] & _)|[([=] & _)|(b & [=] & _)]].
Qed.

Lemma errors_and_state_witness :
  let self :=
    Table.Mk "old" (RecArray 1 [("x", [VInt 1])]) {["k" := VInt 7]} in
  let w := World true ∅ in
  let res := read (TPath "missing.h5") None true (self, w) in
  res.1.2.2 = w ∧ res.1.2.1 = Table.reset self.
Proof.
  intros self w res.
  apply (proj1 (errors_and_state self (TableSet.Mk [] ∅) (TPath "missing.h5")
                  None true false "" false false false w)
           res.1.1 res.1.2.1 res.1.2.2 res.2).
  - vm_compute. reflexivity.
  - left. exists "missing.h5". vm_compute. reflexivity.
Defined.

(** C8 as stated fails: [read] resets the target table before it looks for
    the file, so the missing-file error finds the columns and keywords
    dropped; and [write_set] raises the table-exists error for a later
    table after the keywords and the earlier tables have been written. *)
Lemma errors_after_mutation_counterexample :
  (let self :=
     Table.Mk "old" (RecArray 1 [("x", [VInt 1])]) {["k" := VInt 7]} in
   let res := read (TPath "missing.h5") None true (self, World true ∅) in
   res.1.1 = Raise (FileNotFound "missing.h5") ∧
   res.1.2.1 = Table.Mk "old" (RecArray 0 []) ∅ ∧
   res.1.2.1 ≠ self) ∧
  (let tset :=
     TableSet.Mk
       [Table.Mk "obs" (RecArray 1 [("x", [VInt 1])]) ∅;
        Table.Mk "obs" (RecArray 1 [("x", [VInt 2])]) ∅]
       {["origin" := VStr "survey"]} in
   let res := write_set tset "f.h5" false "" false false false (World true ∅) in
   res.1.1 = Raise (TableAlreadyExists "" "obs") ∧
   fs res.1.2 !! "f.h5" =
     Some (Group {["origin" := VStr "survey"]}
             [("obs", Dataset ∅ (Structured (RecArray 1 [("x", [VInt 1])])))]) ∧
   fs (World true ∅) !! "f.h5" = None).
Proof. vm_compute. split_and!; done. Qed.

(** ** Existing tables *)

(** When the resolved name has no slash and is a member of the group,
    [store_table] raises the table-exists error and changes nothing. *)
Lemma store_table_refuses_member g group compression ignore_groups fallback
    tbl w a ms :
  let name := write_name fallback ignore_groups tbl in
  node_at w g = Some (Group a ms) → name ∈ ms.*1 →
  ignore_groups = true ∨ PyStr.has_slash name = false →
  store_table g group compression ignore_groups fallback tbl w
    = (Raise (TableAlreadyExists group name), w, []).
Proof.
  intros name Hg Hin Hflat. unfold store_table. subst name.
  unfold write_name in *.
  set (name0 := if PyStr.truthy (Table.table_name tbl)
                then Table.table_name tbl else fallback) in *.
  assert ((if ignore_groups then mret (PyStr.basename name0)
           else
             (if PyStr.truthy (PyStr.dirname name0)
              then _create_required_groups g (PyStr.dirname name0)
              else mret ());;
             mret name0) w
          = (Ok (if ignore_groups then PyStr.basename name0 else name0), w, []))
    as Hname.
  { destruct ignore_groups; [done|]. destruct Hflat as [[=]|Hflat].
    by rewrite PyStrFacts.dirname_slash_free. }
  rewrite bind_run, Hname, bind_run.
  unfold h5_keys at 1. rewrite bind_run. unfold gets at 1. rewrite Hg.
  unfold mret at 1, M_ret at 1. by rewrite bool_decide_eq_true_2.
Qed.


(** Linking under a new link name of the group itself. *)
Lemma h5_segments_name name : valid_name name = true → h5_segments name = [name].
Proof. intros Hname. apply (h5_segments_join [name]). by constructor. Qed.

Lemma valid_name_truthy name : valid_name name = true → PyStr.truthy name = true.
Proof. by intros [? _]%andb_true_iff. Qed.

Lemma valid_name_slash_free name :
  valid_name name = true → PyStr.has_slash name = false.
Proof. by intros [_ ?%negb_true_iff]%andb_true_iff. Qed.

Lemma h5_create_member g name new w a ms :
  valid_name name = true → node_at w g = Some (Group a ms) → name ∉ ms.*1 →
  h5_create g name new w =
    (Ok (Handle (h_file g) (h_path g ++ [name])),
     update_file (h_file g) (alter_at (h_path g) (add_member name new)) w, []).
Proof.
  intros Hname Hg Hfresh. unfold h5_create.
  rewrite h5_path_valid, h5_segments_name, removelast_last by done.
  cbn [List.last h_path h_file]. unfold_M.
  rewrite Hg, (valid_name_truthy _ Hname). cbn [negb].
  replace (Handle (h_file g) (h_path g)) with g by (by destruct g).
  rewrite Hg, bool_decide_eq_false_2; [done|].
  apply lookup_member_None in Hfresh. rewrite Hfresh. by intros [??].
Qed.

Lemma h5_create_dataset_member g name data compression w a ms :
  valid_name name = true → fields data ≠ [] →
  node_at w g = Some (Group a ms) → name ∉ ms.*1 →
  h5_create_dataset g name data compression w =
    (Ok (Handle (h_file g) (h_path g ++ [name])),
     update_file (h_file g)
       (alter_at (h_path g) (add_member name (Dataset ∅ (Structured data)))) w,
     [EvCreateDataset g name]).
Proof.
  intros Hname Hfields Hg Hfresh.
  rewrite h5_create_dataset_fields, bind_run by done.
  by rewrite (h5_create_member _ _ _ _ _ _ Hname Hg Hfresh).
Qed.

Lemma h5_create_group_member g name w a ms :
  valid_name name = true → node_at w g = Some (Group a ms) → name ∉ ms.*1 →
  h5_create_group g name w =
    (Ok (Handle (h_file g) (h_path g ++ [name])),
     update_file (h_file g)
       (alter_at (h_path g) (add_member name (Group ∅ []))) w,
     [EvCreateGroup g name]).
Proof.
  intros Hname Hg Hfresh. unfold h5_create_group.
  by rewrite bind_run, (h5_create_member _ _ _ _ _ _ Hname Hg Hfresh).
Qed.

(** [h5_create] never replaces an object: when the path leads somewhere
    already, the call fails in the backend and nothing changes. *)
Lemma h5_create_existing g name new w :
  is_Some (node_at w (Handle (h_file g) (h5_path g name))) →
  ∃ b, h5_create g name new w = (Raise (BackendError b), w, []).
Proof.
  intros [x Hx]. unfold h5_create. unfold_M. simpl.
  destruct (node_at w g) as [[a0 ms0|]|]; eauto.
  destruct (PyStr.truthy _) eqn:Hleaf; simpl; eauto.
  destruct (node_at w (Handle _ (removelast _))) as [[a ms|]|] eqn:Hp; eauto.
  rewrite bool_decide_eq_true_2; eauto.
  rewrite (h5_path_leaf g name Hleaf) in Hx.
  unfold node_at in *. simpl in *.
  destruct (fs w !! h_file g); [|done].
  rewrite resolve_app, Hp in Hx. simpl in Hx.
  destruct (lookup_member _ ms); [eauto|done].
Qed.

Lemma h5_create_dataset_existing g name data compression w :
  is_Some (node_at w (Handle (h_file g) (h5_path g name))) →
  ∃ b, h5_create_dataset g name data compression w
         = (Raise (BackendError b), w, []).
Proof.
  intros Hx. unfold h5_create_dataset. destruct (fields data); [by eexists|].
  destruct (h5_create_existing g name (Dataset ∅ (Structured data)) w Hx)
    as [b Hb].
  rewrite bind_run, Hb. by eexists.
Qed.

(** In a container with proper link names, the components of a path that
    leads somewhere are link names. *)
Lemma node_at_valid w g segs :
  world_ok w → is_Some (node_at w (Handle (h_file g) (h_path g ++ segs))) →
  Forall (λ s, valid_name s = true) segs.
Proof.
  intros Hok [x Hx]. apply node_at_app in Hx as (n & Hn & Hres).
  unfold node_at in Hn. destruct (fs w !! h_file g) as [root|] eqn:Hroot; [|done].
  eapply resolve_valid_names; [|done].
  eapply names_ok_resolve; [|done]. by eapply Hok.
Qed.

Lemma resolve_name_inv g name0 (ignore_groups : bool) w r w1 evs :
  (if ignore_groups then (mret (PyStr.basename name0) : M world string)
   else
     (if PyStr.truthy (PyStr.dirname name0)
      then _create_required_groups g (PyStr.dirname name0)
      else mret ());;
     mret name0) w = (r, w1, evs) →
  evolves w w1 ∧
  match r with
  | Ok name => name = if ignore_groups then PyStr.basename name0 else name0
  | Raise e => is_backend e
  end.
Proof.
  intros Hrun.
  destruct (sat_resolve_name (λ _, True) is_backend ltac:(done) g name0
              ignore_groups ltac:(done) _ _ _ _ Hrun) as (Hev & _ & Hr).
  split; [done|]. destruct r as [name|e]; [|done].
  destruct ignore_groups; [by injection Hrun as <- _ _|].
  apply bind_ok_inv in Hrun as ([] & w0 & e0 & e0' & _ & Hret & _).
  by injection Hret as <- _ _.
Qed.

(** The resolved name already leads to an object below the group:
    [store_table] fails, with the module's error when the name is the name
    of a member, and in the backend when it is a path. *)
Lemma store_table_existing g group compression ignore_groups fallback tbl
    w r w' evs :
  let name := write_name fallback ignore_groups tbl in
  world_ok w →
  is_Some (node_at w (Handle (h_file g) (h_path g ++ PyStr.split name))) →
  store_table g group compression ignore_groups fallback tbl w = (r, w', evs) →
  evolves w w' ∧
  ∃ e, r = Raise e ∧
    if PyStr.has_slash name then is_backend e
    else e = TableAlreadyExists group name ∧ w' = w ∧ evs = [].
Proof.
  intros name Hok Hobj Hrun.
  pose proof (h5_path_split g name (node_at_valid _ _ _ Hok Hobj)) as Hpath.
  split.
  { by destruct (sat_store_table (λ _, True) (λ _, True) ltac:(done) g group
                   compression ignore_groups fallback tbl ltac:(done)
                   ltac:(done) _ _ _ _ Hrun) as (? & _). }
  destruct (PyStr.has_slash name) eqn:Hslash.
  - revert Hrun. unfold store_table.
    set (name0 := if PyStr.truthy (Table.table_name tbl)
                  then Table.table_name tbl else fallback).
    intros [(nm & w1 & e1 & e2 & Hname & Hrun & ->)|(e & Hname & ->)]%bind_inv.
    2:{ apply resolve_name_inv in Hname as [_ He]. by eexists. }
    apply resolve_name_inv in Hname as [Hev Hnm].
    assert (nm = name) as -> by done.
    apply bind_inv in Hrun
      as [(keys & w2 & e3 & e4 & Hkeys & Hrun & ->)|(e & Hkeys & ->)].
    2:{ apply h5_keys_inv in Hkeys as (_ & _ & He). by eexists. }
    apply h5_keys_inv in Hkeys as (-> & -> & a & ms & Hg & ->).
    assert (world_ok w1) as Hok1 by (by apply Hev).
    rewrite bool_decide_eq_false_2 in Hrun.
    2:{ intros Hin.
        pose proof (node_at_names_ok _ _ _ _ Hok1 Hg) as Hall.
        rewrite Forall_forall in Hall. apply Hall in Hin.
        apply andb_true_iff in Hin as [_ Hin]. by rewrite Hslash in Hin. }
    destruct (h5_create_dataset_existing g name (Table.data tbl) compression
                w1) as [b Hc];
      [rewrite Hpath; by eapply node_at_evolves|].
    revert Hrun. rewrite bind_run, Hc. intros [= <- <- <-]. by eexists.
  - assert (PyStr.split name = [name]) as Hsplit
      by (by apply PyStrFacts.split_slash_free).
    rewrite Hsplit in Hobj. destruct Hobj as [x Hx].
    assert (∃ a ms, node_at w g = Some (Group a ms) ∧ name ∈ ms.*1)
      as (a & ms & Hg & Hin).
    { unfold node_at in *. simpl in Hx.
      destruct (fs w !! h_file g); [|done].
      rewrite resolve_app in Hx.
      destruct (resolve n (h_path g)) as [[a ms|]|]; [|done..].
      exists a, ms. split; [done|]. simpl in Hx.
      destruct (lookup_member name ms) as [c|] eqn:Hc; [|done].
      apply lookup_member_Some in Hc. apply list_elem_of_fmap.
      by exists (name, c). }
    rewrite (store_table_refuses_member _ _ _ _ _ _ _ _ _ Hg Hin) in Hrun
      by (by right).
    injection Hrun as <- <- <-. by eexists.
Qed.

Lemma evolves_dataset w w' h a d :
  evolves w w' → node_at w h = Some (Dataset a d) →
  ∃ a', node_at w' h = Some (Dataset a' d).
Proof.
  intros (_ & Hext & _) Hh. unfold node_at in *.
  destruct (fs w !! h_file h) as [root|] eqn:Hroot; [|done].
  destruct (Hext _ _ Hroot) as (root' & -> & Hroot').
  destruct (Hroot' _ _ Hh) as ([|a' d'] & -> & Hsame); [done|].
  simpl in Hsame. subst d'. eauto.
Qed.

Lemma set_attrs_succeed obj (kws : list (string * value)) : ∀ w,
  is_Some (node_at w obj) →
  ∃ w', for_each kws (λ '(keyword, v), h5_set_attr obj keyword v) w
          = (Ok (), w', map (λ kv, EvSetAttr obj kv.1) kws) ∧
        evolves w w'.
Proof.
  unfold for_each. induction kws as [|[key v] kws IH]; intros w Hobj.
  - exists w. by split.
  - cbn [foldM]. setoid_rewrite bind_run.
    destruct (h5_set_attr obj key v w) as [[r1 w1] e1] eqn:Hset.
    assert (evolves w w1 ∧ r1 = Ok () ∧ e1 = [EvSetAttr obj key])
      as (Hev & -> & ->).
    { split.
      - assert (sat (h5_set_attr obj key v) evolves (λ _, True) (λ _, True)
                  (λ _, True)) as Hsat by (by apply sat_h5_set_attr).
        by destruct (Hsat _ _ _ _ Hset) as (? & _).
      - revert Hset. unfold h5_set_attr. unfold_M.
        destruct Hobj as [n ->]. by intros [= <- <- <-]. }
    destruct (IH w1) as (w' & -> & Hev'); [by eapply node_at_evolves|].
    exists w'. split; [done|]. by etrans.
Qed.

Lemma world_ok_singleton i p root :
  names_ok root = true → world_ok (World i {[p := root]}).
Proof.
  intros Hroot file r Hr. simpl in Hr.
  by apply lookup_singleton_Some in Hr as [_ <-].
Qed.

(** C2, for every container: when the resolved name of the table leads
    to an existing dataset, under the open group [write] writes to or
    under the root of the file [write_set] appends to, the call fails and
    the dataset keeps its data.  The table-exists error is raised when the
    name is the name of a member; when the name is a path, the membership
    test on the group's own members does not see the dataset and the call
    fails in the backend instead. *)
Theorem write_existing_path_name w :
  h5py_installed w = true → world_ok w →
  (∀ self h compression append overwrite ignore_groups attrs d r w' evs,
     let name := write_name "Table" ignore_groups self in
     let dset := Handle (h_file h) (h_path h ++ PyStr.split name) in
     node_at w dset = Some (Dataset attrs d) →
     write self (THandle h) compression "" append overwrite ignore_groups w
       = (r, w', evs) →
     (∃ attrs', node_at w' dset = Some (Dataset attrs' d)) ∧
     ∃ e, r = Raise e ∧
       if PyStr.has_slash name then is_backend e
       else e = TableAlreadyExists "" name ∧ w' = w ∧ evs = []) ∧
  (∀ tbl rest kws p compression overwrite ignore_groups attrs d r w' evs,
     let name := write_name (fallback_name 0) ignore_groups tbl in
     let dset := Handle p (PyStr.split name) in
     node_at w dset = Some (Dataset attrs d) →
     write_set (TableSet.Mk (tbl :: rest) kws) p compression "" true
       overwrite ignore_groups w = (r, w', evs) →
     (∃ attrs', node_at w' dset = Some (Dataset attrs' d)) ∧
     ∃ e, r = Raise e ∧
       if PyStr.has_slash name then is_backend e
       else e = TableAlreadyExists "" name).
Proof.
  intros Hinst Hok. split.
  - intros self h compression append overwrite ignore_groups attrs d r w' evs
      name dset Hd.
    rewrite write_handle_unfold, bind_run, check_h5py_installed_run by done.
    rewrite bind_run. unfold group_under at 1. cbn [PyStr.truthy].
    unfold mret at 1, M_ret at 1. rewrite write_from_store, bind_run.
    destruct (store_table _ _ _ _ _ _ _) as [[r1 w1] e1] eqn:Hst.
    apply store_table_existing in Hst as (Hev & e & -> & He); [|done|by eexists].
    intros [= <- <- <-]. split; [by eapply evolves_dataset|].
    exists e. split; [done|]. fold name in He.
    destruct (PyStr.has_slash name); [done|]. by destruct He as (-> & -> & ->).
  - intros tbl rest kws p compression overwrite ignore_groups attrs d r w' evs
      name dset Hd.
    assert (∃ root, fs w !! p = Some root) as [root Hroot].
    { unfold node_at in Hd. simpl in Hd. destruct (fs w !! p); [eauto|done]. }
    rewrite write_set_unfold, bind_run, check_h5py_installed_run by done.
    rewrite bind_run.
    assert (open_for_write p "" true overwrite w =
            (Ok (Handle p [], Handle p []), w, [EvExists p; EvOpen p ModeA]))
      as ->.
    { unfold open_for_write. rewrite bind_run, os_path_exists_run.
      rewrite bool_decide_eq_true_2 by eauto. cbn [andb negb].
      rewrite bind_run. unfold mret at 1, M_ret at 1.
      rewrite get_group_unfold, bind_run, (h5py_File_existing _ _ _ Hroot).
      done. }
    cbn [fst snd TableSet.keywords TableSet.tables]. rewrite bind_run.
    destruct (set_attrs_succeed (Handle p []) (map_to_list kws) w)
      as (w1 & -> & Hev1).
    { unfold node_at. simpl. rewrite Hroot. by eexists. }
    rewrite bind_run. unfold for_each at 1. cbn [imap foldM].
    rewrite bind_run, write_set_table_store.
    destruct (store_table _ _ _ _ _ _ _) as [[r2 w2] e2] eqn:Hst.
    apply store_table_existing in Hst as (Hev & e & -> & He);
      [|by apply Hev1|by eapply node_at_evolves; [|by eexists]].
    intros [= <- <- <-]. split.
    { eapply evolves_dataset; [|done]. by etrans. }
    exists e. split; [done|]. fold name in He.
    destruct (PyStr.has_slash name); [done|]. by destruct He as (-> & _).
Qed.

Lemma write_existing_path_name_witness :
  let old := Dataset ∅ (Structured (RecArray 1 [("x", [VInt 1])])) in
  let w := World true {["f.h5" := Group ∅ [("grp", Group ∅ [("obs", old)])]]} in
  let t := Table.Mk "grp/obs" (RecArray 1 [("x", [VInt 2])]) ∅ in
  let dset := Handle "f.h5" ["grp"; "obs"] in
  let res := write t (THandle (Handle "f.h5" [])) false "" false false false w in
  let res' :=
    write_set (TableSet.Mk [t] ∅) "f.h5" false "" true false false w in
  ((∃ attrs', node_at res.1.2 dset
               = Some (Dataset attrs' (Structured (RecArray 1 [("x", [VInt 1])])))) ∧
   ∃ e, res.1.1 = Raise e ∧ is_backend e) ∧
  ((∃ attrs', node_at res'.1.2 dset
               = Some (Dataset attrs' (Structured (RecArray 1 [("x", [VInt 1])])))) ∧
   ∃ e, res'.1.1 = Raise e ∧ is_backend e).
Proof.
  intros old w t dset res res'.
  assert (world_ok w) as Hok
    by (apply world_ok_singleton; vm_compute; reflexivity).
  destruct (write_existing_path_name w eq_refl Hok) as [Hw Hs].
  split.
  - apply (Hw t (Handle "f.h5" []) false false false false ∅ _
             res.1.1 res.1.2 res.2); vm_compute; reflexivity.
  - apply (Hs t [] ∅ "f.h5" false false false ∅ _
             res'.1.1 res'.1.2 res'.2); vm_compute; reflexivity.
Defined.

(** The failing input of C2: the table is named [grp/obs] and the dataset
    [grp/obs] exists under the target group.  The membership test on the
    immediate members of the group does not see it, the module's
    table-exists error is not raised, and the call fails in the backend's
    [create_dataset] instead; the existing dataset is left as it was.  The
    same happens in [write_set]. *)
Example existing_path_fails_in_backend :
  let old := Dataset ∅ (Structured (RecArray 1 [("x", [VInt 1])])) in
  let w := World true {["f.h5" := Group ∅ [("grp", Group ∅ [("obs", old)])]]} in
  let t := Table.Mk "grp/obs" (RecArray 1 [("x", [VInt 2])]) ∅ in
  node_at w (Handle "f.h5" ["grp"; "obs"]) = Some old ∧
  write t (THandle (Handle "f.h5" [])) false "" false false false w
    = (Raise (BackendError NameExists), w, []) ∧
  write t (TPath "f.h5") false "" true false false w
    = (Raise (BackendError NameExists), w,
       [EvExists "f.h5"; EvOpen "f.h5" ModeA]) ∧
  write_set (TableSet.Mk [t] ∅) "f.h5" false "" true false false w
    = (Raise (BackendError NameExists), w,
       [EvExists "f.h5"; EvOpen "f.h5" ModeA]).
Proof. vm_compute. split_and!; reflexivity. Qed.

Example write_existing_plain_name :
  let old := Dataset ∅ (Structured (RecArray 1 [("x", [VInt 1])])) in
  let w := World true {["f.h5" := Group ∅ [("obs", old)]]} in
  let t := Table.Mk "obs" (RecArray 1 [("x", [VInt 2])]) ∅ in
  write t (THandle (Handle "f.h5" [])) false "" false false false w
    = (Raise (TableAlreadyExists "" "obs"), w, []).
Proof. vm_compute. reflexivity. Qed.

(** ** Round trip *)

Lemma foldl_insert_attrs (kvs : list (string * value)) : ∀ a : gmap string value,
  NoDup kvs.*1 →
  foldl (λ a kv, <[kv.1 := kv.2]> a) a kvs = list_to_map kvs ∪ a.
Proof.
  induction kvs as [|[k v] kvs IH]; intros a Hnd.
  - simpl. by rewrite (left_id ∅ (∪)).
  - csimpl in *. apply NoDup_cons in Hnd as [Hk Hnd].
    rewrite IH by done. rewrite <- insert_union_l.
    by rewrite insert_union_r by (by apply not_elem_of_list_to_map_1).
Qed.

Lemma foldl_insert_map_to_list (m : gmap string value) :
  foldl (λ a kv, <[kv.1 := kv.2]> a) ∅ (map_to_list m) = m.
Proof.
  rewrite foldl_insert_attrs by apply NoDup_fst_map_to_list.
  by rewrite (right_id ∅ (∪)), list_to_map_to_list.
Qed.

Lemma node_at_new_file i (m : gmap string node) p root path :
  node_at (World i (<[p := root]> m)) (Handle p path) = resolve root path.
Proof. unfold node_at. simpl. by rewrite lookup_insert_eq. Qed.

Lemma update_new_file i (m : gmap string node) p root f :
  update_file p f (World i (<[p := root]> m)) = World i (<[p := f root]> m).
Proof. unfold update_file. simpl. by rewrite alter_insert_eq. Qed.

Lemma set_attrs_new_file i (m : gmap string node) p name d kvs : ∀ a,
  for_each kvs (λ '(keyword, v), h5_set_attr (Handle p [name]) keyword v)
    (World i (<[p := Group ∅ [(name, Dataset a d)]]> m))
  = (Ok (),
     World i (<[p := Group ∅
                  [(name, Dataset (foldl (λ a kv, <[kv.1 := kv.2]> a) a kvs) d)]]> m),
     map (λ kv, EvSetAttr (Handle p [name]) kv.1) kvs).
Proof.
  unfold for_each. induction kvs as [|[k v] kvs IH]; intros a; [done|].
  cbn [foldM]. rewrite bind_run.
  unfold h5_set_attr at 1. rewrite bind_run. unfold gets at 1.
  rewrite node_at_new_file. cbn [resolve lookup_member].
  rewrite decide_True by done.
  rewrite bind_run. unfold modify at 1. rewrite update_new_file.
  cbn [h_path alter_at alter_member]. rewrite decide_True by done.
  cbn [set_attr]. unfold emit at 1. by rewrite IH.
Qed.

Lemma own_name_truthy self :
  PyStr.truthy (if PyStr.truthy (Table.table_name self)
                then Table.table_name self else "Table") = true.
Proof. by destruct (PyStr.truthy (Table.table_name self)) eqn:H. Qed.

Lemma write_from_new_file self i (m : gmap string node) p compression
    ignore_groups :
  let name := if PyStr.truthy (Table.table_name self)
              then Table.table_name self else "Table" in
  PyStr.has_slash name = false → fields (Table.data self) ≠ [] →
  write_from self (Some (Handle p [])) (Handle p []) "" compression
    ignore_groups (World i (<[p := Group ∅ []]> m)) =
    (Ok (),
     World i
       (<[p := Group ∅ [(name, Dataset (Table.keywords self)
                                 (Structured (Table.data self)))]]> m),
     EvCreateDataset (Handle p []) name ::
     map (λ kv, EvSetAttr (Handle p [name]) kv.1)
       (map_to_list (Table.keywords self)) ++ [EvClose p]).
Proof.
  intros name Hname Hfields. unfold write_from. fold name. rewrite bind_run.
  assert (valid_name name = true) as Hvalid.
  { unfold valid_name. rewrite Hname. unfold name at 1.
    by rewrite own_name_truthy. }
  assert ((if ignore_groups then mret (PyStr.basename name)
           else (if PyStr.truthy (PyStr.dirname name)
                 then _create_required_groups (Handle p []) (PyStr.dirname name)
                 else mret ());; mret name)
            (World i (<[p := Group ∅ []]> m))
          = (Ok name, World i (<[p := Group ∅ []]> m), [])) as ->.
  { destruct ignore_groups.
    - by rewrite PyStrFacts.basename_slash_free.
    - by rewrite PyStrFacts.dirname_slash_free. }
  rewrite bind_run. unfold h5_keys at 1. rewrite bind_run. unfold gets at 1.
  rewrite node_at_new_file. cbn [resolve]. unfold mret at 1, M_ret at 1.
  cbn [fmap list_fmap]. rewrite bool_decide_eq_false_2 by apply not_elem_of_nil.
  rewrite bind_run.
  rewrite (h5_create_dataset_member (Handle p []) name _ compression _ ∅ [])
    by (done || by rewrite node_at_new_file || apply not_elem_of_nil).
  cbn [h_file h_path]. rewrite update_new_file.
  cbn [alter_at add_member app].
  rewrite bind_run, set_attrs_new_file, foldl_insert_map_to_list.
  unfold h5_close. cbn [h_file]. unfold emit. by rewrite ?app_nil_r.
Qed.

Lemma write_new_file self p compression append overwrite ignore_groups w :
  let name := if PyStr.truthy (Table.table_name self)
              then Table.table_name self else "Table" in
  h5py_installed w = true → fs w !! p = None →
  PyStr.has_slash name = false → fields (Table.data self) ≠ [] →
  write self (TPath p) compression "" append overwrite ignore_groups w =
    (Ok (),
     World true
       (<[p := Group ∅ [(name, Dataset (Table.keywords self)
                                 (Structured (Table.data self)))]]> (fs w)),
     [EvExists p; EvOpen p (if append then ModeA else ModeW);
      EvCreateDataset (Handle p []) name] ++
     map (λ kv, EvSetAttr (Handle p [name]) kv.1)
       (map_to_list (Table.keywords self)) ++ [EvClose p]).
Proof.
  intros name Hinst Hp Hname Hfields.
  rewrite write_path_unfold, bind_run, check_h5py_installed_run by done.
  rewrite bind_run.
  assert (open_for_write p "" append overwrite w =
          (Ok (Handle p [], Handle p []),
           World true (<[p := Group ∅ []]> (fs w)),
           [EvExists p; EvOpen p (if append then ModeA else ModeW)])) as ->.
  { unfold open_for_write. rewrite bind_run, os_path_exists_run.
    rewrite bool_decide_eq_false_2 by (rewrite Hp; by intros [??]).
    cbn [andb]. rewrite bind_run. unfold mret at 1, M_ret at 1.
    rewrite get_group_unfold, bind_run.
    assert ((if append then h5py_File p ModeA else h5py_File p ModeW) w =
            (Ok (Handle p []), World true (<[p := Group ∅ []]> (fs w)),
             [EvOpen p (if append then ModeA else ModeW)])) as ->.
    { rewrite <- Hinst.
      destruct append; [by apply h5py_File_A_missing|apply h5py_File_W]. }
    done. }
  cbn [fst snd]. by rewrite (write_from_new_file self true (fs w)).
Qed.

Lemma read_single_dataset p name attrs r self verbose w :
  h5py_installed w = true →
  fs w !! p = Some (Group ∅ [(name, Dataset attrs (Structured r))]) →
  PyStr.truthy name = true → PyStr.has_slash name = false →
  recarray_ok r = true → fields r ≠ [] →
  read (TPath p) None verbose (self, w) =
    (Ok (), (Table.Mk name r ∅, w), [EvExists p; EvOpen p ModeA; EvClose p]).
Proof.
  intros Hinst Hroot Htruthy Hslash Hr Hfields.
  set (root := Group ∅ [(name, Dataset attrs (Structured r))]) in *.
  assert (node_at w (Handle p []) = Some root) as Hg
    by (unfold node_at; simpl; by rewrite Hroot).
  assert (names_ok root = true) as Hok.
  { cbn [names_ok root fmap list_fmap fst]. unfold valid_name.
    rewrite Htruthy, Hslash. cbn [negb andb names_ok].
    rewrite bool_decide_eq_true_2; [done|]. apply NoDup_singleton. }
  assert (datasets_ok root = true) as Hdok by (simpl; by rewrite Hr).
  rewrite read_unfold, bind_run, on_world_run.
  rewrite check_h5py_installed_run by done.
  rewrite bind_run. unfold on_self at 1. rewrite bind_run.
  rewrite bind_run, on_world_run, os_path_exists_run.
  rewrite bool_decide_eq_true_2 by eauto. cbn [negb].
  rewrite bind_run, on_world_run, (h5py_File_existing _ _ _ Hroot).
  rewrite bind_run. unfold on_world at 1, h5_root at 1.
  unfold mret at 1 2, M_ret at 1 2. cbn [fst snd h_file].
  destruct (read_from_discovered (Some (Handle p [])) (Handle p [])
              (Table.reset self) w _ _ Hg Hok Hdok)
    as (tables & Htables & Hread).
  rewrite (list_tables_run _ _ _ _ Hg Hok) in Htables.
  injection Htables as <-.
  destruct (read_from _ _ _ _) as [[[[]|e] [self' w']] evs]; simpl.
  - destruct Hread as (-> & -> & key & attrs' & r' & _ & Hres & ->).
    destruct (PyStr.split key) as [|s rest] eqn:Hsplit;
      [by apply PyStrFacts.split_not_nil in Hsplit|].
    simpl in Hres. case_decide as Hs; [subst s|done].
    destruct rest; [|done]. injection Hres as -> ->.
    rewrite <- (PyStrFacts.join_split key), Hsplit. done.
  - destruct Hread as (Hsize & _). exfalso. apply Hsize.
    unfold collect_tables. cbn [descendants map app foldl].
    change (PyStr.join [name]) with (String.concat "/" [name]). cbn [String.concat].
    rewrite PyStrFacts.split_slash_free by done. simpl.
    rewrite decide_True by done. simpl.
    destruct (fields r); [done|]. simpl. by rewrite insert_empty, map_size_singleton.
Qed.

(** C1, for every table: a table with at least one column, written under a
    name without a slash to a file that does not exist yet, is stored as
    one dataset that carries the columns as its data and the keywords as
    its attributes.  [read] of that file into any table returns normally
    with the name, the row count, the column names and the column data of
    the table written, and with no keywords: [read] never looks at the
    attributes, so the keywords come back equal only when there were
    none. *)
Theorem write_read_drops_keywords t t2 p compression append overwrite
    ignore_groups verbose w :
  let name := if PyStr.truthy (Table.table_name t)
              then Table.table_name t else "Table" in
  let written :=
    write t (TPath p) compression "" append overwrite ignore_groups w in
  let res := read (TPath p) None verbose (t2, written.1.2) in
  h5py_installed w = true → fs w !! p = None →
  PyStr.has_slash name = false →
  recarray_ok (Table.data t) = true → fields (Table.data t) ≠ [] →
  written.1.1 = Ok () ∧
  node_at written.1.2 (Handle p [name])
    = Some (Dataset (Table.keywords t) (Structured (Table.data t))) ∧
  res.1.1 = Ok () ∧
  res.1.2.2 = written.1.2 ∧
  Table.table_name res.1.2.1 = name ∧
  Table.data res.1.2.1 = Table.data t ∧
  Table.keywords res.1.2.1 = ∅ ∧
  (Table.keywords res.1.2.1 = Table.keywords t ↔ Table.keywords t = ∅).
Proof.
  intros name written res Hinst Hp Hname Hr Hfields.
  unfold res, written. rewrite write_new_file by done. fold name. cbn [fst snd].
  rewrite (read_single_dataset p name (Table.keywords t) (Table.data t));
    [|done|by cbn [fs]; rewrite lookup_insert_eq|apply own_name_truthy|done..].
  cbn [fst snd Table.table_name Table.data Table.keywords].
  split_and!; try done.
  rewrite node_at_new_file. cbn [resolve lookup_member].
  by rewrite decide_True.
Qed.

Lemma write_read_drops_keywords_witness :
  let t :=
    Table.Mk "obs" (RecArray 2 [("x", [VInt 1; VInt 2])]) {["k" := VInt 7]} in
  let w1 := (write t (TPath "f.h5") false "" false false false
               (World true ∅)).1.2 in
  let res := read (TPath "f.h5") None true (Table.new, w1) in
  fs w1 !! "f.h5" =
    Some (Group ∅ [("obs", Dataset {["k" := VInt 7]}
                             (Structured (Table.data t)))]) ∧
  res.1.1 = Ok () ∧
  Table.table_name res.1.2.1 = Table.table_name t ∧
  Table.data res.1.2.1 = Table.data t ∧
  Table.keywords res.1.2.1 = ∅ ∧
  Table.keywords res.1.2.1 ≠ Table.keywords t.
Proof.
  intros t w1 res.
  destruct (write_read_drops_keywords t Table.new "f.h5" false false false
              false true (World true ∅))
    as (_ & _ & Hok & _ & Hname & Hdata & Hkw & Hiff);
    [reflexivity|reflexivity|reflexivity|reflexivity|discriminate|].
  split_and!; [vm_compute; reflexivity|exact Hok|exact Hname|exact Hdata|
               exact Hkw|].
  intros Heq. apply Hiff in Heq. revert Heq. vm_compute. intros [=].
Defined.

(** ** Writing through an open handle *)




(** A group that is missing is created first. *)
Example write_to_handle_creates_group :
  write (Table.Mk "obs" (RecArray 1 [("x", [VInt 1])]) ∅)
    (THandle (Handle "f.h5" [])) false "g1" false false false
    (World true {["f.h5" := Group ∅ []]})
  = (Ok (),
     World true
       {["f.h5" :=
           Group ∅
             [("g1", Group ∅
                       [("obs", Dataset ∅
                                  (Structured (RecArray 1 [("x", [VInt 1])])))])]]},
     [EvCreateGroup (Handle "f.h5" []) "g1";
      EvCreateDataset (Handle "f.h5" ["g1"]) "obs"]).
Proof. vm_compute. reflexivity. Qed.

(** A group that exists is reused, also when it is named from the root of
    the file: the members it had are kept and no group is created. *)
Example write_to_handle_reuses_group :
  let old := Dataset ∅ (Structured (RecArray 1 [("y", [VInt 0])])) in
  write (Table.Mk "obs" (RecArray 1 [("x", [VInt 1])]) ∅)
    (THandle (Handle "f.h5" ["g1"])) false "/g1" false false false
    (World true {["f.h5" := Group ∅ [("g1", Group ∅ [("old", old)])]]})
  = (Ok (),
     World true
       {["f.h5" :=
           Group ∅
             [("g1", Group ∅
                       [("old", old);
                        ("obs", Dataset ∅
                                  (Structured (RecArray 1 [("x", [VInt 1])])))])]]},
     [EvCreateDataset (Handle "f.h5" ["g1"]) "obs"]).
Proof. vm_compute. reflexivity. Qed.
(** * Further properties of the module *)

(** ** Reading a table by name *)

Lemma recarray_ok_inv r :
  recarray_ok r = true →
  NoDup (fields r).*1 ∧ Forall (λ f, length f.2 = nrows r) (fields r).
Proof.
  intros [Hnd Hlen]%andb_true_iff. split.
  - by apply bool_decide_eq_true in Hnd.
  - apply Forall_forall. intros fld Hfld. rewrite forallb_forall in Hlen.
    eapply bool_decide_eq_true_1, Hlen. by apply list_elem_of_In.
Qed.

(** A path of link names given to a group leads where the names lead. *)
Lemma h5_lookup_clean w g name n :
  node_at w g = Some n →
  Forall (λ s, valid_name s = true) (PyStr.split name) →
  h5_lookup w g name = resolve n (PyStr.split name).
Proof.
  intros Hg Hname. unfold h5_lookup. rewrite h5_path_split by done.
  by apply node_at_below.
Qed.

Lemma h5_lookup_name w g name a ms :
  node_at w g = Some (Group a ms) → valid_name name = true →
  h5_lookup w g name = lookup_member name ms.
Proof.
  intros Hg Hname. unfold h5_lookup. rewrite h5_path_valid by done.
  rewrite (node_at_below _ _ _ _ Hg). simpl.
  by destruct (lookup_member name ms).
Qed.

(** The copy of a structured dataset into the table, lines 106-113. *)
Lemma read_named_run g table w a ms attrs r self :
  node_at w g = Some (Group a ms) → PyStr.truthy table = true →
  h5_lookup w g table = Some (Dataset attrs (Structured r)) →
  recarray_ok r = true →
  read_named g table (self, w)
    = (Ok (), (Table.Mk table r (Table.keywords self), w), []).
Proof.
  intros Hg Htable Hobj [Hnd Hlen]%recarray_ok_inv.
  pose proof (h5_getitem_found g table w a ms Hg Htable ltac:(eauto)) as Hget.
  unfold h5_lookup in Hobj. unfold read_named.
  rewrite bind_run. unfold on_self at 1.
  rewrite bind_run, on_world_run, bind_run.
  rewrite Hget.
  rewrite (h5_len_run _ _ _ _ Hobj).
  rewrite bind_run, on_world_run, bind_run.
  rewrite Hget.
  rewrite (h5_dtype_names_run _ _ _ _ Hobj).
  rewrite bind_run. unfold on_self at 1.
  rewrite bind_run, on_world_run, bind_run.
  rewrite Hget.
  rewrite (h5_dtype_names_run _ _ _ _ Hobj).
  cbn [dtype_names]. rewrite bind_run. unfold mret at 1, M_ret at 1.
  rewrite (read_columns g table w _ attrs r Hget Hobj Hlen (fields r) []);
    [|done|done|].
  2:{ simpl. f_equal. clear. induction (fields r) as [|[k c] l IH]; [done|].
      csimpl. by rewrite IH. }
  by destruct r.
Qed.

Lemma read_from_named_run f g table w a ms attrs r self :
  node_at w g = Some (Group a ms) → PyStr.truthy table = true →
  h5_lookup w g table = Some (Dataset attrs (Structured r)) →
  recarray_ok r = true →
  read_from f g (Some table) (self, w)
    = (Ok (), (Table.Mk table r (Table.keywords self), w), closing f).
Proof.
  intros Hg Htable Hm Hr. rewrite read_from_split. unfold choose_table.
  rewrite bind_run. unfold mret at 1, M_ret at 1.
  rewrite bind_run, (read_named_run _ _ _ _ _ _ _ _ Hg Htable Hm Hr).
  by destruct f.
Qed.

Lemma read_run_from filename table verbose self w a ms :
  h5py_installed w = true →
  node_at w (target_handle filename) = Some (Group a ms) →
  read filename table verbose (self, w) =
  match read_from (match filename with
                   | TPath p => Some (Handle p [])
                   | THandle _ => None
                   end)
          (target_handle filename) table (Table.reset self, w) with
  | (r, s, evs) =>
      (r, s, match filename with
             | TPath p => [EvExists p; EvOpen p ModeA]
             | THandle _ => []
             end ++ evs)
  end.
Proof.
  intros Hinst Hg.
  rewrite read_unfold, bind_run, on_world_run.
  rewrite check_h5py_installed_run by done.
  rewrite bind_run. unfold on_self at 1. rewrite bind_run.
  destruct filename as [p|h]; simpl in Hg.
  - assert (∃ root, fs w !! p = Some root) as [root Hroot].
    { unfold node_at in Hg. simpl in Hg. destruct (fs w !! p); [eauto|done]. }
    rewrite bind_run, on_world_run, os_path_exists_run.
    rewrite bool_decide_eq_true_2 by eauto. cbn [negb].
    rewrite bind_run, on_world_run, (h5py_File_existing _ _ _ Hroot).
    rewrite bind_run. unfold on_world at 1, h5_root at 1.
    unfold mret at 1 2, M_ret at 1 2. cbn [fst snd h_file target_handle].
    by destruct (read_from _ _ _ _) as [[r0 s0] e0].
  - unfold mret at 1, M_ret at 1. cbn [fst snd target_handle].
    by destruct (read_from _ _ _ _) as [[r0 s0] e0].
Qed.

Lemma read_by_name_run self filename table verbose w a ms attrs r :
  h5py_installed w = true →
  node_at w (target_handle filename) = Some (Group a ms) →
  PyStr.truthy table = true →
  h5_lookup w (target_handle filename) table
    = Some (Dataset attrs (Structured r)) →
  recarray_ok r = true →
  read filename (Some table) verbose (self, w) =
    (Ok (), (Table.Mk table r ∅, w),
     match filename with
     | TPath p => read_events p
     | THandle _ => []
     end).
Proof.
  intros Hinst Hg Htable Hm Hr.
  rewrite (read_run_from _ _ _ _ _ _ _ Hinst Hg).
  rewrite (read_from_named_run _ _ _ _ _ _ _ _ _ Hg Htable Hm Hr).
  by destruct filename.
Qed.

(** [read] with a table name, on a container in which the name leads to a
    dataset with named fields: the call returns normally, the table gets
    the name as it was given, the rows and columns of the dataset and no
    keywords, whatever the target held before and whatever else the
    container holds.  The name is an HDF5 path: it may start at the root
    of the file with a slash, and doubled or trailing slashes are ignored.
    Nothing is changed; a file named by a string is opened and closed, an
    open handle is left open. *)
Theorem read_named_table self filename table verbose w a ms attrs r :
  h5py_installed w = true →
  node_at w (target_handle filename) = Some (Group a ms) →
  PyStr.truthy table = true →
  h5_lookup w (target_handle filename) table
    = Some (Dataset attrs (Structured r)) →
  recarray_ok r = true →
  read filename (Some table) verbose (self, w) =
    (Ok (), (Table.Mk table r ∅, w),
     match filename with
     | TPath p => [EvExists p; EvOpen p ModeA; EvClose p]
     | THandle _ => []
     end).
Proof.
  intros Hinst Hg Htable Hm Hr.
  rewrite (read_run_from _ _ _ _ _ _ _ Hinst Hg).
  rewrite (read_from_named_run _ _ _ _ _ _ _ _ _ Hg Htable Hm Hr).
  by destruct filename.
Qed.

Lemma read_named_table_witness :
  let ms :=
    [("grp", Group ∅
               [("obs", Dataset {["k" := VInt 7]}
                          (Structured (RecArray 2 [("x", [VInt 1; VInt 2])])))]);
     ("other", Dataset ∅ (Structured (RecArray 0 [("y", [])])))] in
  let w := World true {["f.h5" := Group ∅ ms]} in
  read (TPath "f.h5") (Some "/grp//obs") true
    (Table.Mk "old" (RecArray 1 [("z", [VInt 0])]) {["a" := VInt 1]}, w) =
    (Ok (), (Table.Mk "/grp//obs" (RecArray 2 [("x", [VInt 1; VInt 2])]) ∅, w),
     [EvExists "f.h5"; EvOpen "f.h5" ModeA; EvClose "f.h5"]).
Proof.
  intros ms w.
  apply (read_named_table _ (TPath "f.h5") "/grp//obs" true w ∅ ms
           {["k" := VInt 7]} (RecArray 2 [("x", [VInt 1; VInt 2])]));
    vm_compute; reflexivity.
Defined.

(** The same for a plain path, and through a handle on a group of the
    file, from which a path with a leading slash still starts at the
    root. *)
Example read_named_paths :
  let obs := RecArray 2 [("x", [VInt 1; VInt 2])] in
  let w := World true
    {["f.h5" := Group ∅ [("grp", Group ∅ [("obs", Dataset ∅ (Structured obs))])]]} in
  (read (TPath "f.h5") (Some "grp/obs") true (Table.new, w)).1 =
    (Ok (), (Table.Mk "grp/obs" obs ∅, w)) ∧
  (read (TPath "f.h5") (Some "grp/obs/") true (Table.new, w)).1 =
    (Ok (), (Table.Mk "grp/obs/" obs ∅, w)) ∧
  (read (THandle (Handle "f.h5" ["grp"])) (Some "obs") true (Table.new, w)).1 =
    (Ok (), (Table.Mk "obs" obs ∅, w)) ∧
  (read (THandle (Handle "f.h5" ["grp"])) (Some "/grp/obs") true (Table.new, w)).1 =
    (Ok (), (Table.Mk "/grp/obs" obs ∅, w)).
Proof. vm_compute. split_and!; reflexivity. Qed.

(** [read] with a table name that leads nowhere in the container: the
    lookup fails in the backend, after the target table has been reset and
    given the requested name (line 107 precedes the first lookup on line
    109).  Nothing is changed in the container; a file named by a string
    has been opened and is not closed. *)
Theorem read_missing_table self filename table verbose w a ms :
  h5py_installed w = true →
  node_at w (target_handle filename) = Some (Group a ms) →
  PyStr.truthy table = true →
  h5_lookup w (target_handle filename) table = None →
  read filename (Some table) verbose (self, w) =
    (Raise (BackendError NoSuchObject),
     (Table.Mk table (RecArray 0 []) ∅, w),
     match filename with
     | TPath p => [EvExists p; EvOpen p ModeA]
     | THandle _ => []
     end).
Proof.
  intros Hinst Hg Htable Hm.
  rewrite (read_run_from _ _ _ _ _ _ _ Hinst Hg).
  unfold read_from. rewrite bind_run. unfold mret at 1, M_ret at 1.
  rewrite bind_run. unfold on_self at 1.
  rewrite bind_run, on_world_run, bind_run.
  rewrite (h5_getitem_group _ _ _ _ _ Hg Htable).
  unfold h5_lookup in Hm. rewrite Hm. cbn. by destruct filename.
Qed.

Lemma read_missing_table_witness :
  let w := World true {["f.h5" := Group ∅ [("obs", Dataset ∅ (Plain []))]]} in
  read (TPath "f.h5") (Some "nope") true
    (Table.Mk "old" (RecArray 1 [("z", [VInt 0])]) {["a" := VInt 1]}, w) =
    (Raise (BackendError NoSuchObject),
     (Table.Mk "nope" (RecArray 0 []) ∅, w),
     [EvExists "f.h5"; EvOpen "f.h5" ModeA]).
Proof.
  intros w.
  apply (read_missing_table _ (TPath "f.h5") "nope" true w ∅
           [("obs", Dataset ∅ (Plain []))]); vm_compute; reflexivity.
Defined.

(** ** Changes at a path of the tree *)

Lemma alter_member_app_fresh name f ms c :
  name ∉ ms.*1 →
  alter_member name f (ms ++ [(name, c)]) = ms ++ [(name, f c)].
Proof.
  induction ms as [|[k c'] ms IH]; csimpl; intros Hname.
  - by rewrite decide_True.
  - apply not_elem_of_cons in Hname as [Hk Hname].
    rewrite decide_False by done. by rewrite IH.
Qed.

Lemma alter_member_ext name f g ms :
  (∀ c, f c = g c) → alter_member name f ms = alter_member name g ms.
Proof.
  intros Hfg. induction ms as [|[k c] ms IH]; simpl; [done|].
  case_decide; by rewrite ?Hfg, ?IH.
Qed.

Lemma alter_member_compose name f g ms :
  alter_member name f (alter_member name g ms)
  = alter_member name (f ∘ g) ms.
Proof.
  induction ms as [|[k c] ms IH]; simpl; [done|].
  case_decide; simpl; [by rewrite decide_True|].
  by rewrite decide_False, IH.
Qed.

Lemma alter_at_app_compose p q f g : ∀ n,
  alter_at (p ++ q) f (alter_at p g n) = alter_at p (alter_at q f ∘ g) n.
Proof.
  induction p as [|s p IH]; intros n; simpl; [done|].
  destruct n as [a ms|]; [|done]. f_equal.
  rewrite alter_member_compose. apply alter_member_ext. intros c. apply IH.
Qed.

Lemma alter_at_ext p f g : ∀ n m,
  resolve n p = Some m → f m = g m → alter_at p f n = alter_at p g n.
Proof.
  induction p as [|s p IH]; intros n m; simpl; [by intros [= ->]|].
  destruct n as [a ms|]; [|done].
  destruct (lookup_member s ms) as [c|] eqn:Hc; [|done].
  intros Hm Hfg. f_equal. clear a.
  induction ms as [|[k c'] ms IHms]; simpl in *; [done|].
  case_decide; [|by rewrite IHms]. injection Hc as ->. f_equal. f_equal.
  by eapply IH.
Qed.

Lemma alter_at_id p : ∀ n, alter_at p (λ n, n) n = n.
Proof.
  induction p as [|s p IH]; intros n; simpl; [done|].
  destruct n as [a ms|]; [|done]. f_equal.
  induction ms as [|[k c] ms IHms]; simpl; [done|].
  case_decide; by rewrite ?IH, ?IHms.
Qed.

Lemma foldl_set_attr kvs : ∀ n,
  NoDup kvs.*1 →
  foldl (λ n (kv : string * value), set_attr kv.1 kv.2 n) n kvs
  = with_attrs (list_to_map kvs) n.
Proof.
  intros n Hnd.
  assert (∀ n, foldl (λ n (kv : string * value), set_attr kv.1 kv.2 n) n kvs =
    match n with
    | Group a ms => Group (foldl (λ a kv, <[kv.1 := kv.2]> a) a kvs) ms
    | Dataset a d => Dataset (foldl (λ a kv, <[kv.1 := kv.2]> a) a kvs) d
    end) as ->.
  { clear. induction kvs as [|[k v] kvs IH]; intros [a ms|a d]; simpl;
      by rewrite ?IH. }
  destruct n; simpl; by rewrite foldl_insert_attrs.
Qed.

(** Setting the attributes [kws] on the object at [path]. *)
Lemma set_attrs_run i (m : gmap string node) p path kvs : ∀ root n,
  resolve root path = Some n →
  for_each kvs (λ '(keyword, v), h5_set_attr (Handle p path) keyword v)
    (World i (<[p := root]> m))
  = (Ok (),
     World i (<[p := alter_at path
                        (λ n, foldl (λ n (kv : string * value),
                                       set_attr kv.1 kv.2 n) n kvs) root]> m),
     map (λ kv, EvSetAttr (Handle p path) kv.1) kvs).
Proof.
  unfold for_each. induction kvs as [|[k v] kvs IH]; intros root n Hn.
  - simpl. unfold mret, M_ret. by rewrite alter_at_id.
  - cbn [foldM]. rewrite bind_run.
    unfold h5_set_attr at 1. rewrite bind_run. unfold gets at 1.
    rewrite node_at_new_file, Hn.
    rewrite bind_run. unfold modify at 1. rewrite update_new_file.
    cbn [h_path h_file]. unfold emit at 1.
    rewrite (IH _ (set_attr k v n)) by (by apply resolve_alter_at).
    cbn [app map fst]. do 3 f_equal.
    pose proof (alter_at_app_compose path [] ) as Hc. simpl in Hc.
    rewrite <- (app_nil_r path) at 1. by rewrite Hc.
Qed.

(** ** Storing a table under a new name *)

Lemma with_attrs_new_dataset (kws : gmap string value) d :
  foldl (λ n (kv : string * value), set_attr kv.1 kv.2 n) (Dataset ∅ d)
    (map_to_list kws)
  = Dataset kws d.
Proof.
  rewrite foldl_set_attr by apply NoDup_fst_map_to_list. simpl.
  by rewrite list_to_map_to_list, (right_id ∅ (∪)).
Qed.

(** [store_table] for a table with columns and a name that is a valid
    member name and is not taken in the group: the dataset is linked at
    the end of the group, with the table's keywords as its attributes;
    nothing else changes. *)
Lemma store_table_fresh i (m : gmap string node) p root gp a ms group
    compression ignore_groups fallback tbl :
  let name := write_name fallback ignore_groups tbl in
  resolve root gp = Some (Group a ms) →
  valid_name name = true → name ∉ ms.*1 →
  fields (Table.data tbl) ≠ [] →
  store_table (Handle p gp) group compression ignore_groups fallback tbl
    (World i (<[p := root]> m))
  = (Ok (),
     World i (<[p := alter_at gp (add_member name (dataset_of tbl)) root]> m),
     EvCreateDataset (Handle p gp) name ::
     map (λ kv, EvSetAttr (Handle p (gp ++ [name])) kv.1)
       (map_to_list (Table.keywords tbl))).
Proof.
  intros name Hgp Hvalid Hfresh Hfields.
  pose proof (valid_name_slash_free _ Hvalid) as Hslash.
  unfold store_table.
  set (name0 := if PyStr.truthy (Table.table_name tbl)
                then Table.table_name tbl else fallback).
  assert (name = if ignore_groups then PyStr.basename name0 else name0)
    as Hname by done.
  rewrite bind_run.
  assert ((if ignore_groups then mret (PyStr.basename name0)
           else (if PyStr.truthy (PyStr.dirname name0)
                 then _create_required_groups (Handle p gp) (PyStr.dirname name0)
                 else mret ());; mret name0)
            (World i (<[p := root]> m))
          = (Ok name, World i (<[p := root]> m), [])) as ->.
  { destruct ignore_groups; subst name; [done|].
    by rewrite PyStrFacts.dirname_slash_free. }
  clearbody name. clear Hname name0.
  rewrite bind_run. unfold h5_keys at 1. rewrite bind_run. unfold gets at 1.
  rewrite node_at_new_file, Hgp. unfold mret at 1, M_ret at 1.
  rewrite bool_decide_eq_false_2 by done.
  rewrite bind_run.
  rewrite (h5_create_dataset_member (Handle p gp) name _ compression _ a ms)
    by (done || by rewrite node_at_new_file).
  cbn [h_file h_path]. rewrite update_new_file.
  apply lookup_member_None in Hfresh as Hnone.
  rewrite (set_attrs_run _ _ _ _ _ _ (Dataset ∅ (Structured (Table.data tbl))))
    by (by eapply resolve_add_member).
  cbn [app]. do 3 f_equal.
  rewrite alter_at_app_compose. f_equal.
  eapply alter_at_ext; [done|]. simpl.
  rewrite alter_member_app_fresh by done. simpl.
  by rewrite with_attrs_new_dataset.
Qed.

(** The loop of [write_set] over tables with columns whose names are
    valid member names, distinct from each other and from the members of
    the group:
    one dataset per table is linked at the end of the group, in the
    order of the tables. *)
Lemma write_set_loop_fresh i (m : gmap string node) p gp group compression
    ignore_groups : ∀ items root a ms,
  resolve root gp = Some (Group a ms) →
  Forall (λ it, valid_name (set_name ignore_groups it) = true) items →
  NoDup (ms.*1 ++ map (set_name ignore_groups) items) →
  Forall (λ it, fields (Table.data it.2) ≠ []) items →
  for_each items (write_set_table (Handle p gp) group compression ignore_groups)
    (World i (<[p := root]> m))
  = (Ok (),
     World i
       (<[p := alter_at gp
                 (λ _, Group a
                         (ms ++ map (λ it, (set_name ignore_groups it,
                                            dataset_of it.2)) items))
                 root]> m),
     concat (map (λ it, store_events (Handle p gp)
                          (set_name ignore_groups it) it.2) items)).
Proof.
  unfold for_each.
  induction items as [|[j tbl] items IH]; intros root a ms Hgp Hvalid Hnd Hcols.
  - simpl. unfold mret, M_ret. rewrite app_nil_r.
    assert (alter_at gp (λ _, Group a ms) root = root) as ->; [|done].
    etrans; [|apply (alter_at_id gp)]. by eapply alter_at_ext.
  - cbn [foldM]. rewrite bind_run, write_set_table_store.
    apply Forall_cons in Hvalid as [Hname Hvalid].
    apply Forall_cons in Hcols as [Hcol Hcols].
    cbn [map] in Hnd. apply NoDup_app in Hnd as (Hms & Hdis & Hnd).
    apply NoDup_cons in Hnd as [Hj Hnd].
    unfold set_name in Hname at 1. cbn [fst snd] in Hname.
    rewrite (store_table_fresh _ _ _ _ _ a ms) by
      (try done; intros Hin; apply (Hdis _ Hin); left).
    rewrite (IH _ a (ms ++ [(set_name ignore_groups (j, tbl), dataset_of tbl)])).
    + cbn [map concat app]. do 4 f_equal.
      pose proof (alter_at_app_compose gp []) as Hc. simpl in Hc.
      rewrite <- (app_nil_r gp) at 1. rewrite Hc.
      by rewrite <- app_assoc.
    + by rewrite (resolve_alter_at _ _ _ _ Hgp).
    + done.
    + rewrite fmap_app. cbn [fmap list_fmap fst]. rewrite <- app_assoc.
      apply NoDup_app. split_and!; [done| |by constructor].
      intros x Hx Hin. by apply (Hdis _ Hx).
    + done.
Qed.

(** ** Writing a table set *)

(** [write_set] from the keywords on, on a group whose members do not
    clash with the names of the tables. *)
Lemma write_set_tail_fresh i (m : gmap string node) p gp group compression
    ignore_groups (self : TableSet.t) root a ms :
  let items := imap pair (TableSet.tables self) in
  resolve root gp = Some (Group a ms) →
  Forall (λ it, valid_name (set_name ignore_groups it) = true) items →
  NoDup (ms.*1 ++ map (set_name ignore_groups) items) →
  Forall (λ it, fields (Table.data it.2) ≠ []) items →
  (for_each (map_to_list (TableSet.keywords self)) (λ '(keyword, v),
     h5_set_attr (Handle p gp) keyword v);;
   for_each items
     (write_set_table (Handle p gp) group compression ignore_groups);;
   h5_close (Handle p []))
    (World i (<[p := root]> m))
  = (Ok (),
     World i
       (<[p := alter_at gp
                 (λ _, Group (TableSet.keywords self ∪ a)
                         (ms ++ map (λ it, (set_name ignore_groups it,
                                            dataset_of it.2)) items))
                 root]> m),
     map (λ kv, EvSetAttr (Handle p gp) kv.1)
       (map_to_list (TableSet.keywords self)) ++
     concat (map (λ it, store_events (Handle p gp)
                          (set_name ignore_groups it) it.2) items) ++
     [EvClose p]).
Proof.
  intros items Hgp Hvalid Hnd Hcols.
  rewrite bind_run, (set_attrs_run _ _ _ _ _ _ _ Hgp).
  rewrite bind_run.
  rewrite (write_set_loop_fresh _ _ _ _ _ _ _ _ _
             (TableSet.keywords self ∪ a) ms); [|..|done|done|done].
  2:{ rewrite (resolve_alter_at _ _ _ _ Hgp).
      rewrite foldl_set_attr by apply NoDup_fst_map_to_list.
      simpl. by rewrite list_to_map_to_list. }
  unfold h5_close, emit. cbn [h_file]. do 4 f_equal.
  pose proof (alter_at_app_compose gp []) as Hc. simpl in Hc.
  rewrite <- (app_nil_r gp) at 1. by rewrite Hc.
Qed.

Lemma open_for_write_new p append overwrite w :
  h5py_installed w = true → fs w !! p = None →
  open_for_write p "" append overwrite w =
    (Ok (Handle p [], Handle p []),
     World true (<[p := Group ∅ []]> (fs w)),
     [EvExists p; EvOpen p (if append then ModeA else ModeW)]).
Proof.
  intros Hinst Hp.
  unfold open_for_write. rewrite bind_run, os_path_exists_run.
  rewrite bool_decide_eq_false_2 by (rewrite Hp; by intros [??]).
  cbn [andb]. rewrite bind_run. unfold mret at 1, M_ret at 1.
  rewrite get_group_unfold, bind_run.
  assert ((if append then h5py_File p ModeA else h5py_File p ModeW) w =
          (Ok (Handle p []), World true (<[p := Group ∅ []]> (fs w)),
           [EvOpen p (if append then ModeA else ModeW)])) as ->.
  { rewrite <- Hinst.
    destruct append; [by apply h5py_File_A_missing|apply h5py_File_W]. }
  done.
Qed.

Lemma open_for_write_new_group p group append overwrite w :
  h5py_installed w = true → fs w !! p = None → valid_name group = true →
  open_for_write p group append overwrite w =
    (Ok (Handle p [], Handle p [group]),
     World true (<[p := Group ∅ [(group, Group ∅ [])]]> (fs w)),
     [EvExists p; EvOpen p (if append then ModeA else ModeW);
      EvCreateGroup (Handle p []) group]).
Proof.
  intros Hinst Hp Hvalid. pose proof (valid_name_truthy _ Hvalid) as Htruthy.
  unfold open_for_write. rewrite bind_run, os_path_exists_run.
  rewrite bool_decide_eq_false_2 by (rewrite Hp; by intros [??]).
  cbn [andb]. rewrite bind_run. unfold mret at 1, M_ret at 1.
  rewrite get_group_unfold, bind_run.
  assert ((if append then h5py_File p ModeA else h5py_File p ModeW) w =
          (Ok (Handle p []), World true (<[p := Group ∅ []]> (fs w)),
           [EvOpen p (if append then ModeA else ModeW)])) as ->.
  { rewrite <- Hinst.
    destruct append; [by apply h5py_File_A_missing|apply h5py_File_W]. }
  rewrite bind_run. unfold group_in_file. rewrite Htruthy.
  assert (h5_create_group (Handle p []) group
            (World true (<[p := Group ∅ []]> (fs w)))
          = (Ok (Handle p [group]),
             World true (<[p := Group ∅ [(group, Group ∅ [])]]> (fs w)),
             [EvCreateGroup (Handle p []) group])) as Hcreate.
  { rewrite (h5_create_group_member _ _ _ ∅ []);
      [|done|by rewrite node_at_new_file|apply not_elem_of_nil].
    cbn [h_file h_path]. by rewrite update_new_file. }
  destruct append; [|by rewrite Hcreate].
  rewrite bind_run. unfold h5_keys. rewrite bind_run. unfold gets at 1.
  rewrite node_at_new_file. cbn [resolve]. unfold mret at 1, M_ret at 1.
  cbn [fmap list_fmap]. rewrite bool_decide_eq_false_2 by apply not_elem_of_nil.
  by rewrite Hcreate.
Qed.

(** ** Reading a table set *)

Lemma h5py_File_R_existing p w root :
  fs w !! p = Some root →
  h5py_File p ModeR w = (Ok (Handle p []), w, [EvOpen p ModeR]).
Proof.
  intros Hroot. unfold h5py_File. unfold_M.
  by rewrite Hroot, bool_decide_eq_true_2 by eauto.
Qed.

Lemma h5py_File_R_missing p w :
  fs w !! p = None →
  h5py_File p ModeR w = (Raise (BackendError NoSuchFile), w, []).
Proof.
  intros Hp. unfold h5py_File. unfold_M.
  rewrite bool_decide_eq_false_2; [done|]. rewrite Hp. by intros [??].
Qed.

Lemma set_keywords_run (kvs : list (string * value)) : ∀ (self : TableSet.t) (w : world),
  for_each kvs (λ '(keyword, v), on_self (TableSet.set_keyword keyword v))
    (self, w)
  = (Ok (),
     (TableSet.Mk (TableSet.tables self)
        (foldl (λ a kv, <[kv.1 := kv.2]> a) (TableSet.keywords self) kvs), w),
     []).
Proof.
  unfold for_each. induction kvs as [|[k v] kvs IH]; intros self w.
  - by destruct self.
  - cbn [foldM]. rewrite bind_run. unfold on_self at 1. by rewrite IH.
Qed.

(** The mapping [_list_tables] builds for the tree [root]. *)
Lemma discovered_key root key :
  names_ok root = true → datasets_ok root = true →
  key ∈ (map_to_list
           (collect_tables root (map PyStr.join (descendants root)) ∅)).*1 →
  ∃ attrs r,
    resolve root (PyStr.split key) = Some (Dataset attrs (Structured r)) ∧
    recarray_ok r = true ∧ fields r ≠ [].
Proof.
  intros Hok Hdok ([k v] & -> & Hin)%list_elem_of_fmap.
  apply elem_of_map_to_list in Hin. simpl.
  apply collect_tables_lookup in Hin
    as [Hin|(-> & _ & m & Hm & Hrec)]; [done| |done].
  apply is_record_inv in Hrec as (attrs & r & -> & Hfields).
  exists attrs, r. split_and!; [done| |done].
  by eapply datasets_ok_resolve.
Qed.

Lemma read_set_loop p verbose w a ms keys : ∀ self : TableSet.t,
  h5py_installed w = true →
  fs w !! p = Some (Group a ms) →
  names_ok (Group a ms) = true →
  Forall (λ key, ∃ attrs r,
            resolve (Group a ms) (PyStr.split key)
              = Some (Dataset attrs (Structured r)) ∧
            recarray_ok r = true) keys →
  for_each keys (λ table,
    t ← with_local Table.new (read (TPath p) (Some table) verbose);
    on_self (TableSet.append t)) (self, w)
  = (Ok (),
     (TableSet.Mk (TableSet.tables self ++ map (table_at (Group a ms)) keys)
        (TableSet.keywords self), w),
     concat (map (λ _, read_events p) keys)).
Proof.
  intros self Hinst Hroot Hok Hkeys. revert self. unfold for_each.
  assert (node_at w (Handle p []) = Some (Group a ms)) as Hg
    by (unfold node_at; simpl; by rewrite Hroot).
  induction Hkeys as [|key keys (attrs & r & Hres & Hr) Hkeys IH]; intros self.
  - simpl. rewrite app_nil_r. by destruct self.
  - cbn [foldM]. rewrite bind_run, bind_run. unfold with_local at 1.
    pose proof (resolve_valid_names _ _ _ Hok Hres) as Hvalid.
    rewrite (read_by_name_run _ (TPath p) key verbose w a ms attrs r);
      [|done|done|by apply split_valid_truthy
       |by rewrite (h5_lookup_clean _ _ _ _ Hg)|done].
    unfold on_self at 1. rewrite IH. cbn [TableSet.append TableSet.tables
      TableSet.keywords map concat].
    unfold table_at at 2. rewrite Hres. rewrite <- app_assoc. done.
Qed.

Lemma read_set_run p pedantic verbose (self : TableSet.t) w a ms :
  let root := Group a ms in
  let keys :=
    (map_to_list
       (collect_tables root (map PyStr.join (descendants root)) ∅)).*1 in
  h5py_installed w = true → fs w !! p = Some root →
  names_ok root = true → datasets_ok root = true →
  read_set p pedantic verbose (self, w) =
    (Ok (), (TableSet.Mk (map (table_at root) keys) a, w),
     [EvOpen p ModeR; EvClose p; EvOpen p ModeA] ++
     concat (map (λ _, read_events p) keys)).
Proof.
  intros root keys Hinst Hroot Hok Hdok.
  assert (node_at w (Handle p []) = Some root) as Hg
    by (unfold node_at; simpl; by rewrite Hroot).
  unfold read_set.
  rewrite bind_run, on_world_run, check_h5py_installed_run by done.
  rewrite bind_run. unfold on_self at 1.
  rewrite bind_run, on_world_run, (h5py_File_R_existing _ _ _ Hroot).
  rewrite bind_run, on_world_run. unfold h5_attrs at 1.
  rewrite bind_run. unfold gets at 1. rewrite Hg.
  unfold mret at 1, M_ret at 1. cbn [node_attrs root].
  rewrite bind_run, set_keywords_run.
  cbn [TableSet.reset TableSet.tables TableSet.keywords].
  rewrite foldl_insert_map_to_list.
  rewrite bind_run. unfold on_world at 1, h5_close at 1, emit at 1.
  rewrite bind_run, on_world_run, bind_run, (h5py_File_existing _ _ _ Hroot).
  rewrite (list_tables_run _ _ _ _ Hg Hok).
  rewrite (read_set_loop p verbose w a ms); [done..|].
  apply Forall_forall. intros key Hkey.
  destruct (discovered_key _ _ Hok Hdok Hkey) as (attrs & r & ? & ? & _).
  eauto.
Qed.

(** [read_set] on a file whose member names and arrays are well formed:
    the call returns normally and changes nothing in the file; the set
    gets the attributes of the root group as its keywords, and one table
    per discovered path, in the order the discovery mapping lists its
    keys; each table has the path as its name, the array of the dataset
    as its data and no keywords.  The file is opened once for the
    attributes and closed, once for the discovery and never closed, and
    once per table by [read]. *)
Theorem read_set_reads_all p pedantic verbose (self : TableSet.t) w a ms :
  let root := Group a ms in
  h5py_installed w = true → fs w !! p = Some root →
  names_ok root = true → datasets_ok root = true →
  ∃ tables,
    _list_tables (Handle p []) w = (Ok tables, w, []) ∧
    let keys := (map_to_list tables).*1 in
    read_set p pedantic verbose (self, w) =
      (Ok (), (TableSet.Mk (map (table_at root) keys) a, w),
       [EvOpen p ModeR; EvClose p; EvOpen p ModeA] ++
       concat (map (λ _, [EvExists p; EvOpen p ModeA; EvClose p]) keys)) ∧
    Forall (λ key, ∃ attrs r,
              resolve root (PyStr.split key)
                = Some (Dataset attrs (Structured r)) ∧
              table_at root key = Table.Mk key r ∅) keys.
Proof.
  intros root Hinst Hroot Hok Hdok.
  assert (node_at w (Handle p []) = Some root) as Hg
    by (unfold node_at; simpl; by rewrite Hroot).
  eexists. split; [by apply list_tables_run|]. split.
  - by apply read_set_run.
  - apply Forall_forall. intros key Hkey.
    destruct (discovered_key _ _ Hok Hdok Hkey) as (attrs & r & Hres & _).
    exists attrs, r. split; [done|]. unfold table_at. by rewrite Hres.
Qed.

Lemma read_set_reads_all_witness :
  let ms :=
    [("grp", Group {["g" := VInt 1]}
               [("obs", Dataset {["k" := VInt 7]}
                          (Structured (RecArray 2 [("x", [VInt 1; VInt 2])])))]);
     ("img", Dataset ∅ (Plain [VInt 0]))] in
  let w := World true {["f.h5" := Group {["origin" := VStr "survey"]} ms]} in
  read_set "f.h5" false true
    (TableSet.Mk [Table.new] {["stale" := VInt 0]}, w) =
    (Ok (),
     (TableSet.Mk
        [Table.Mk "grp/obs" (RecArray 2 [("x", [VInt 1; VInt 2])]) ∅]
        {["origin" := VStr "survey"]}, w),
     [EvOpen "f.h5" ModeR; EvClose "f.h5"; EvOpen "f.h5" ModeA;
      EvExists "f.h5"; EvOpen "f.h5" ModeA; EvClose "f.h5"]).
Proof.
  intros ms w.
  destruct (read_set_reads_all "f.h5" false true
              (TableSet.Mk [Table.new] {["stale" := VInt 0]}) w
              {["origin" := VStr "survey"]} ms)
    as (tables & Htables & Hrun & _);
    [reflexivity|reflexivity|vm_compute; reflexivity|vm_compute; reflexivity|].
  rewrite Hrun. revert Htables. vm_compute. intros [= <-]. reflexivity.
Defined.

(** [read_set] on a file that does not exist: there is no existence test
    as in [read]; the call fails in the backend's open for reading, after
    the set has been reset.  No file is created and no call is recorded. *)
Theorem read_set_missing_file p pedantic verbose (self : TableSet.t) w :
  h5py_installed w = true → fs w !! p = None →
  read_set p pedantic verbose (self, w) =
    (Raise (BackendError NoSuchFile), (TableSet.Mk [] ∅, w), []).
Proof.
  intros Hinst Hp. unfold read_set.
  rewrite bind_run, on_world_run, check_h5py_installed_run by done.
  rewrite bind_run. unfold on_self at 1.
  by rewrite bind_run, on_world_run, (h5py_File_R_missing _ _ Hp).
Qed.

Lemma read_set_missing_file_witness :
  read_set "missing.h5" false true
    (TableSet.Mk [Table.new] {["k" := VInt 7]}, World true ∅) =
    (Raise (BackendError NoSuchFile), (TableSet.Mk [] ∅, World true ∅), []).
Proof.
  apply (read_set_missing_file "missing.h5" false true _ (World true ∅));
    reflexivity.
Defined.

(** ** A table set written and read back *)

Lemma discovered_iff root key :
  key ∈ (map_to_list
           (collect_tables root (map PyStr.join (descendants root)) ∅)).*1 ↔
  ∃ m, resolve root (PyStr.split key) = Some m ∧ is_record m = true.
Proof.
  split.
  - intros ([k v] & -> & Hin)%list_elem_of_fmap.
    apply elem_of_map_to_list in Hin. simpl.
    apply collect_tables_lookup in Hin as [Hin|(-> & _ & Hm)]; done.
  - intros (m & Hm & Hrec). apply list_elem_of_fmap. exists (key, key).
    split; [done|]. apply elem_of_map_to_list.
    apply collect_tables_lookup; [done|]. right. split_and!; [done| |eauto].
    apply list_elem_of_fmap. exists (PyStr.split key).
    split; [by rewrite PyStrFacts.join_split|].
    eapply resolve_descendants; [apply PyStrFacts.split_not_nil|done].
Qed.

(** The paths discovered in a group whose members are all tables are the
    names of the members. *)
Lemma discovered_flat a (ms : list (string * node)) :
  names_ok (Group a ms) = true →
  Forall (λ kc, is_record kc.2 = true) ms →
  (map_to_list
     (collect_tables (Group a ms)
        (map PyStr.join (descendants (Group a ms))) ∅)).*1 ≡ₚ ms.*1.
Proof.
  intros Hok Hrec. pose proof Hok as [Hnd Hall]%names_ok_group.
  apply NoDup_Permutation; [apply NoDup_fst_map_to_list|done|].
  intros key. rewrite discovered_iff. rewrite Forall_forall in Hrec, Hall.
  split.
  - intros (m & Hm & Hm').
    destruct (PyStr.split key) as [|s rest] eqn:Hsplit;
      [by apply PyStrFacts.split_not_nil in Hsplit|].
    simpl in Hm. destruct (lookup_member s ms) as [c|] eqn:Hc; [|done].
    apply lookup_member_Some in Hc.
    pose proof (Hrec _ Hc) as Hcrec. simpl in Hcrec.
    destruct c as [|ac d]; [done|]. destruct rest; [|done].
    rewrite <- (PyStrFacts.join_split key), Hsplit.
    apply list_elem_of_fmap. by exists (s, Dataset ac d).
  - intros ([k c] & -> & Hin)%list_elem_of_fmap. simpl.
    destruct (Hall _ Hin) as [[_ Hk%negb_true_iff]%andb_true_iff _].
    simpl in Hk. exists c.
    rewrite PyStrFacts.split_slash_free by done. simpl.
    rewrite (lookup_member_NoDup _ _ _ Hnd Hin). split; [done|].
    by apply (Hrec _ Hin).
Qed.

Lemma table_at_member a (ms : list (string * node)) name tbl :
  names_ok (Group a ms) = true → (name, dataset_of tbl) ∈ ms →
  table_at (Group a ms) name = Table.Mk name (Table.data tbl) ∅.
Proof.
  intros [Hnd Hall]%names_ok_group Hin. rewrite Forall_forall in Hall.
  destruct (Hall _ Hin) as [[_ Hk%negb_true_iff]%andb_true_iff _].
  simpl in Hk. unfold table_at.
  rewrite PyStrFacts.split_slash_free by done. simpl.
  by rewrite (lookup_member_NoDup _ _ _ Hnd Hin).
Qed.

Lemma write_set_new_file (self : TableSet.t) p compression append overwrite
    ignore_groups w :
  let items := imap pair (TableSet.tables self) in
  h5py_installed w = true → fs w !! p = None →
  Forall (λ it, valid_name (set_name ignore_groups it) = true) items →
  NoDup (map (set_name ignore_groups) items) →
  Forall (λ it, fields (Table.data it.2) ≠ []) items →
  write_set self p compression "" append overwrite ignore_groups w =
    (Ok (),
     World true
       (<[p := Group (TableSet.keywords self)
                 (map (λ it, (set_name ignore_groups it, dataset_of it.2))
                    items)]> (fs w)),
     [EvExists p; EvOpen p (if append then ModeA else ModeW)] ++
     map (λ kv, EvSetAttr (Handle p []) kv.1)
       (map_to_list (TableSet.keywords self)) ++
     concat (map (λ it, store_events (Handle p [])
                          (set_name ignore_groups it) it.2) items) ++
     [EvClose p]).
Proof.
  intros items Hinst Hp Hvalid Hnd Hcols.
  rewrite write_set_unfold, bind_run, check_h5py_installed_run by done.
  rewrite bind_run, open_for_write_new by done. cbn [fst snd].
  rewrite (write_set_tail_fresh _ _ _ [] _ _ _ _ _ ∅ []) by done.
  cbn [alter_at app]. by rewrite (right_id ∅ (∪)).
Qed.

Lemma written_members_ok ignore_groups (items : list (nat * Table.t)) a :
  Forall (λ it, valid_name (set_name ignore_groups it) = true) items →
  NoDup (map (set_name ignore_groups) items) →
  Forall (λ it, recarray_ok (Table.data it.2) = true ∧
                fields (Table.data it.2) ≠ []) items →
  let ms := map (λ it, (set_name ignore_groups it, dataset_of it.2)) items in
  names_ok (Group a ms) = true ∧ datasets_ok (Group a ms) = true ∧
  Forall (λ kc, is_record kc.2 = true) ms ∧
  ms.*1 = map (set_name ignore_groups) items.
Proof.
  intros Hvalid Hnd Hdata ms.
  assert (ms.*1 = map (set_name ignore_groups) items) as Hnames.
  { unfold ms. clear. induction items as [|it items IH]; csimpl; by f_equal. }
  split_and!; [| | |done].
  - apply names_ok_group. rewrite Hnames. split; [done|].
    unfold ms. apply Forall_fmap. eapply Forall_impl; [exact Hvalid|].
    by intros it Hit.
  - unfold ms. clear Hnames ms Hnd Hvalid.
    induction Hdata as [|it items [Hr _] _ IH]; [done|].
    cbn [map]. cbn [datasets_ok dataset_of] in *.
    by rewrite Hr, IH.
  - unfold ms. apply Forall_fmap. eapply Forall_impl; [exact Hdata|].
    intros it [_ Hf]. simpl. by destruct (fields (Table.data it.2)).
Qed.

Lemma data_has_columns (items : list (nat * Table.t)) :
  Forall (λ it, recarray_ok (Table.data it.2) = true ∧
                fields (Table.data it.2) ≠ []) items →
  Forall (λ it, fields (Table.data it.2) ≠ []) items.
Proof. intros H. eapply Forall_impl; [done|]. by intros it [_ ?]. Qed.

(** A table set written to a new file and read back.  The tables have
    at least one column each and resolve to names that are valid member
    names and pairwise distinct.  [write_set] stores the keywords of the
    set on the root group and one dataset per table, and [read_set]
    then returns a set with the same keywords and, up to the order of the
    tables, the same names and data; the keywords of the single tables do
    not come back. *)
Theorem write_set_read_set (self other : TableSet.t) p compression append
    overwrite ignore_groups pedantic verbose w :
  let items := imap pair (TableSet.tables self) in
  let written :=
    write_set self p compression "" append overwrite ignore_groups w in
  h5py_installed w = true → fs w !! p = None →
  Forall (λ it, valid_name (set_name ignore_groups it) = true) items →
  NoDup (map (set_name ignore_groups) items) →
  Forall (λ it, recarray_ok (Table.data it.2) = true ∧
                fields (Table.data it.2) ≠ []) items →
  written.1.1 = Ok () ∧
  fs written.1.2 !! p =
    Some (Group (TableSet.keywords self)
            (map (λ it, (set_name ignore_groups it, dataset_of it.2)) items)) ∧
  ∃ ts evs,
    read_set p pedantic verbose (other, written.1.2)
      = (Ok (), (TableSet.Mk ts (TableSet.keywords self), written.1.2), evs) ∧
    ts ≡ₚ map (λ it, Table.Mk (set_name ignore_groups it)
                       (Table.data it.2) ∅) items.
Proof.
  intros items written Hinst Hp Hvalid Hnd Hdata.
  unfold written.
  rewrite write_set_new_file by (done || by apply data_has_columns).
  cbn [fst snd].
  destruct (written_members_ok ignore_groups items (TableSet.keywords self)
              Hvalid Hnd Hdata) as (Hok & Hdok & Hrec & Hnames).
  split_and!; [done|by cbn [fs]; rewrite lookup_insert_eq|].
  eexists _, _. split.
  - apply read_set_run; [done|by cbn [fs]; rewrite lookup_insert_eq|done..].
  - fold items. rewrite (discovered_flat _ _ Hok Hrec), Hnames.
    rewrite <- list_fmap_compose.
    assert (∀ A (l k : list A), l = k → l ≡ₚ k) as Heq by (by intros ??? ->).
    apply Heq, Forall_fmap_ext_1, Forall_forall. intros it Hit. simpl.
    apply table_at_member; [done|].
    apply list_elem_of_fmap. by exists it.
Qed.

Lemma write_set_read_set_witness :
  let t1 := Table.Mk "obs" (RecArray 1 [("x", [VInt 1])]) {["k" := VInt 7]} in
  let t2 := Table.Mk "" (RecArray 2 [("y", [VInt 2; VInt 3])]) ∅ in
  let self := TableSet.Mk [t1; t2] {["origin" := VStr "survey"]} in
  let w1 := (write_set self "f.h5" false "" false false false
               (World true ∅)).1.2 in
  ∃ ts evs,
    read_set "f.h5" false true (TableSet.Mk [] ∅, w1)
      = (Ok (), (TableSet.Mk ts {["origin" := VStr "survey"]}, w1), evs) ∧
    ts ≡ₚ [Table.Mk "obs" (RecArray 1 [("x", [VInt 1])]) ∅;
           Table.Mk "Table_01" (RecArray 2 [("y", [VInt 2; VInt 3])]) ∅].
Proof.
  intros t1 t2 self w1.
  apply (write_set_read_set self (TableSet.Mk [] ∅) "f.h5" false false false
           false false true (World true ∅)).
  - reflexivity.
  - reflexivity.
  - repeat constructor.
  - apply (bool_decide_unpack _). vm_compute. exact I.
  - repeat constructor; discriminate.
Defined.

(** ** Without the backend *)

Lemma read_set_inv p pedantic verbose (self : TableSet.t) w r self' w' evs :
  read_set p pedantic verbose (self, w) = (r, (self', w'), evs) →
  w' = w ∧ (h5py_installed w = true → r ≠ Raise H5pyRequired).
Proof.
  unfold read_set. rewrite bind_run, on_world_run.
  destruct (h5py_installed w) eqn:Hinst.
  2:{ unfold _check_h5py_installed. unfold_M. rewrite Hinst. simpl.
      by intros [= <- <- <- <-]. }
  rewrite check_h5py_installed_run by done.
  rewrite bind_run. unfold on_self at 1.
  rewrite bind_run, on_world_run.
  destruct (fs w !! p) as [root|] eqn:Hroot.
  2:{ rewrite (h5py_File_R_missing _ _ Hroot). by intros [= <- <- <- <-]. }
  rewrite (h5py_File_R_existing _ _ _ Hroot).
  rewrite bind_run, on_world_run. unfold h5_attrs at 1.
  rewrite bind_run. unfold gets at 1.
  assert (node_at w (Handle p []) = Some root) as Hg
    by (unfold node_at; simpl; by rewrite Hroot).
  rewrite Hg. unfold mret at 1, M_ret at 1.
  rewrite bind_run, set_keywords_run.
  rewrite bind_run. unfold on_world at 1, h5_close at 1, emit at 1.
  rewrite bind_run, on_world_run, bind_run, (h5py_File_existing _ _ _ Hroot).
  destruct (_list_tables (Handle p []) w) as [[rt wt] et] eqn:Hlist.
  assert (wt = w ∧ match rt with Ok _ => True | Raise e => is_backend e end)
    as [-> Hrt].
  { by destruct (sat_ro_list_tables eq (λ _, True) is_backend ltac:(done)
                   _ _ _ _ _ Hlist) as (-> & _ & ?). }
  destruct rt as [tables|e].
  2:{ intros [= <- <- <- <-]. split; [done|]. intros _ [= ->]. done. }
  generalize ((map_to_list tables).*1). intros keys.
  generalize ([EvOpen p ModeR] ++ [] ++ [EvClose p] ++ [EvOpen p ModeA] ++ []).
  generalize (TableSet.Mk (TableSet.tables (TableSet.reset self))
                (foldl (λ a kv, <[kv.1 := kv.2]> a)
                   (TableSet.keywords (TableSet.reset self))
                   (map_to_list (node_attrs root)))).
  intros s0 pre. revert s0 pre r self' w' evs. unfold for_each.
  induction keys as [|key keys IH]; intros s0 pre r self' w' evs.
  - by intros [= <- <- <- <-].
  - cbn [foldM]. rewrite !bind_run. unfold with_local at 1.
    destruct (read (TPath p) (Some key) verbose (Table.new, w))
      as [[rr [tr wr]] er] eqn:Hread.
    pose proof Hread as (-> & _ & Hr)%read_inv.
    destruct rr as [[]|e].
    + unfold on_self at 1.
      destruct (foldM _ () keys _) as [[r2 [s2 w2]] e2] eqn:Hrest.
      intros [= <- <- <- <-].
      eapply (IH _ []). by rewrite Hrest.
    + intros [= <- <- <- <-]. split; [done|]. intros _ [= ->].
      specialize (Hr Hinst). simpl in Hr.
      destruct Hr as [([=] & _)|(_ & [[]|([=] & _)])].
Qed.

Lemma writers_not_h5py_required (self : Table.t) (tset : TableSet.t) filename
    p compression group append overwrite ignore_groups w r w' evs :
  h5py_installed w = true →
  write self filename compression group append overwrite ignore_groups w
    = (r, w', evs) ∨
  write_set tset p compression group append overwrite ignore_groups w
    = (r, w', evs) →
  r ≠ Raise H5pyRequired.
Proof.
  intros Hinst Hrun.
  set (E := λ e : exn, e ≠ H5pyRequired).
  assert (∀ b, E (BackendError b)) as HEb by done.
  assert (∀ name, E (TableAlreadyExists group name)) as HEx by done.
  assert (∀ q (tail : handle * handle → M world unit),
    (∀ fg, sat (tail fg) evolves (λ _, True) (λ _, True) E) →
    ∀ r w' evs,
      (fg ← open_for_write q group append overwrite; tail fg) w = (r, w', evs) →
      r ≠ Raise H5pyRequired) as Hpath.
  { intros q tail Htail r0 w0 evs0
      [(fg & w1 & e1 & e2 & Hopen & Hrest & ->)|(e & Hopen & ->)]%bind_inv.
    - destruct (Htail _ _ _ _ _ Hrest) as (_ & _ & Hr).
      destruct r0 as [|e]; [done|]. intros [= ->]. done.
    - apply open_for_write_inv in Hopen. cbv zeta in Hopen.
      destruct (_ && _ && _).
      + by destruct Hopen as ([= ->] & _).
      + destruct Hopen as (? & _ & _ & _ & _ & _ & _ & He).
        intros [= ->]. done. }
  destruct Hrun as [Hrun|Hrun].
  - destruct filename as [q|h].
    + rewrite write_path_unfold, bind_run, check_h5py_installed_run in Hrun
        by done.
      apply run_after_silent in Hrun. revert Hrun. apply Hpath.
      intros fg. by apply sat_write_from.
    + rewrite write_handle_unfold, bind_run, check_h5py_installed_run in Hrun
        by done.
      apply run_after_silent in Hrun.
      assert (sat (g ← group_under h group;
                   write_from self None g group compression ignore_groups)
                evolves (λ _, True) (λ _, True) E) as Hsat.
      { sat_apply sat_bind; [by apply sat_group_under|].
        intros g _. by apply sat_write_from. }
      destruct (Hsat _ _ _ _ Hrun) as (_ & _ & Hr).
      destruct r as [|e]; [done|]. intros [= ->]. done.
  - rewrite write_set_unfold, bind_run, check_h5py_installed_run in Hrun
      by done.
    apply run_after_silent in Hrun. revert Hrun. apply Hpath.
    intros fg. by apply sat_write_set_tail.
Qed.

(** The backend check comes first in every entry point.  Without the
    backend, [read], [read_set], [write] and [write_set] raise the
    backend-required error with nothing changed: the target table or set
    is not reset, no file is touched and no call is made.  With the
    backend that error is never raised. *)
Theorem h5py_required_first (self : Table.t) (tset : TableSet.t) filename p
    table pedantic verbose compression group append overwrite ignore_groups w :
  let r1 := read filename table verbose (self, w) in
  let r2 := read_set p pedantic verbose (tset, w) in
  let r3 :=
    write self filename compression group append overwrite ignore_groups w in
  let r4 :=
    write_set tset p compression group append overwrite ignore_groups w in
  if h5py_installed w then
    r1.1.1 ≠ Raise H5pyRequired ∧ r2.1.1 ≠ Raise H5pyRequired ∧
    r3.1.1 ≠ Raise H5pyRequired ∧ r4.1.1 ≠ Raise H5pyRequired
  else
    r1 = (Raise H5pyRequired, (self, w), []) ∧
    r2 = (Raise H5pyRequired, (tset, w), []) ∧
    r3 = (Raise H5pyRequired, w, []) ∧
    r4 = (Raise H5pyRequired, w, []).
Proof.
  intros r1 r2 r3 r4. destruct (h5py_installed w) eqn:Hinst.
  - split_and!.
    + destruct r1 as [[rr [t1 w1]] e1] eqn:Hr1.
      apply read_inv in Hr1 as (_ & _ & Hr). specialize (Hr Hinst). simpl.
      intros ->.
      destruct filename;
        [destruct Hr as [([=] & _)|(_ & [[]|(_ & _ & ? & [=])])]
        |destruct Hr as (_ & [[]|(_ & _ & ? & [=])])].
    + destruct r2 as [[rr [t2 w2]] e2] eqn:Hr2.
      apply read_set_inv in Hr2 as [_ Hr]. by apply Hr.
    + destruct r3 as [[rr w3] e3] eqn:Hr3.
      eapply (writers_not_h5py_required _ tset _ p); [done|by left].
    + destruct r4 as [[rr w4] e4] eqn:Hr4.
      eapply (writers_not_h5py_required self _ filename); [done|by right].
  - unfold r1, r2, r3, r4, read, read_set, write, write_set.
    rewrite !bind_run, !on_world_run.
    unfold _check_h5py_installed. unfold gets.
    rewrite !bind_run. by rewrite Hinst.
Qed.

(** Reading never changes a file: whatever [read] and [read_set] are
    given and however they end, the filesystem and every container are
    left exactly as they were.  In particular a file that is missing is
    not created, although [read] and the discovery of [read_set] open
    the file in a mode that would create it. *)
Theorem reading_changes_nothing (self : Table.t) (tset : TableSet.t) filename
    p table pedantic verbose w :
  (read filename table verbose (self, w)).1.2.2 = w ∧
  (read_set p pedantic verbose (tset, w)).1.2.2 = w.
Proof.
  split.
  - destruct (read _ _ _ _) as [[r [t1 w1]] e1] eqn:Hr.
    by apply read_inv in Hr as (-> & _).
  - destruct (read_set _ _ _ _) as [[r [t1 w1]] e1] eqn:Hr.
    by apply read_set_inv in Hr as (-> & _).
Qed.

(** ** Fallback names *)










(** ** The groups of a path *)

(** One round of the loop of [_create_required_groups]: the member is
    entered when it is there and created, empty, when it is not. *)
Lemma ensure_step g s w h w1 evs :
  PyStr.has_slash s = false →
  (present ← h5_contains g s;
   if negb present then h5_create_group g s else h5_getitem g s) w
    = (Ok h, w1, evs) →
  h = Handle (h_file g) (h_path g ++ [s]) ∧
  (is_Some (node_at w h) ∧ w1 = w ∧ evs = [] ∨
   node_at w h = None ∧ node_at w1 h = Some (Group ∅ []) ∧
   evs = [EvCreateGroup g s]).
Proof.
  intros Hs (present & w0 & e0 & e1 & Hc & Hrun & ->)%bind_ok_inv.
  pose proof Hc as [-> ->]%h5_contains_inv.
  assert ((∃ a ms, node_at w g = Some (Group a ms)) ∧ PyStr.truthy s = true)
    as [(a & ms & Hg) Htruthy].
  { destruct present; simpl in Hrun;
      [by eapply h5_getitem_ok|by eapply h5_create_group_ok]. }
  assert (valid_name s = true) as Hvalid
    by (unfold valid_name; by rewrite Htruthy, Hs).
  rewrite (h5_contains_group _ _ _ _ _ Hg), Htruthy in Hc.
  injection Hc as Hc. simpl in Hc.
  rewrite <- (h5_path_valid g s Hvalid).
  destruct present; simpl in Hrun.
  - apply h5_getitem_inv in Hrun as (-> & -> & Hh).
    destruct (Hh _ eq_refl) as [-> Hsome]. split; [done|]. by left.
  - pose proof Hrun as Hrun'.
    apply h5_create_group_inv in Hrun' as (-> & Hnew & ->).
    split; [done|]. right. split_and!; [|done..].
    apply bool_decide_eq_false in Hc.
    destruct (node_at w (Handle _ _)) eqn:Hn; [|done].
    exfalso. apply Hc. eauto.
Qed.

Lemma ensure_fresh segs : ∀ g w h w' evs,
  Forall (λ s, PyStr.has_slash s = false) segs →
  node_at w g = Some (Group ∅ []) →
  foldM (λ g dirname,
           present ← h5_contains g dirname;
           if negb present then h5_create_group g dirname
           else h5_getitem g dirname) g segs w = (Ok h, w', evs) →
  h = Handle (h_file g) (h_path g ++ segs) ∧
  is_Some (node_at w' h) ∧
  evs = imap (λ j s, EvCreateGroup
                       (Handle (h_file g) (h_path g ++ take j segs)) s) segs.
Proof.
  induction segs as [|s segs IH]; intros g w h w' evs Hall Hg; cbn [foldM].
  - intros [= <- <- <-]. rewrite app_nil_r. destruct g. simpl. eauto.
  - apply Forall_cons in Hall as [Hs Hall].
    intros (h1 & w1 & e1 & e2 & Hstep & Hrest & ->)%bind_ok_inv.
    apply (ensure_step _ _ _ _ _ _ Hs) in Hstep
      as [-> [(Hsome & _)|(_ & Hnew & ->)]].
    { rewrite (node_at_below _ _ _ _ Hg) in Hsome. by destruct Hsome. }
    apply IH in Hrest as (-> & Hh & ->); [|done..].
    cbn [h_file h_path] in *. rewrite <- app_assoc in *. simpl in *.
    split_and!; [done..|]. rewrite app_nil_r. destruct g as [f gp]. simpl.
    f_equal. apply imap_ext. intros j x _. simpl. by rewrite <- app_assoc.
Qed.

Lemma ensure_path segs : ∀ g w h w' evs,
  Forall (λ s, PyStr.has_slash s = false) segs →
  is_Some (node_at w g) →
  foldM (λ g dirname,
           present ← h5_contains g dirname;
           if negb present then h5_create_group g dirname
           else h5_getitem g dirname) g segs w = (Ok h, w', evs) →
  ∃ existing created,
    segs = existing ++ created ∧
    is_Some (node_at w (Handle (h_file g) (h_path g ++ existing))) ∧
    (∀ s rest, created = s :: rest →
       node_at w (Handle (h_file g) (h_path g ++ existing ++ [s])) = None) ∧
    (created = [] → w' = w) ∧
    evs = imap (λ j s, EvCreateGroup
                         (Handle (h_file g)
                            (h_path g ++ existing ++ take j created)) s)
            created ∧
    is_Some (node_at w' (Handle (h_file g) (h_path g ++ segs))).
Proof.
  induction segs as [|s segs IH]; intros g w h w' evs Hall Hg; cbn [foldM].
  - intros [= <- <- <-]. exists [], []. rewrite !app_nil_r.
    destruct g. simpl. split_and!; done.
  - apply Forall_cons in Hall as [Hs Hall].
    intros (h1 & w1 & e1 & e2 & Hstep & Hrest & ->)%bind_ok_inv.
    apply (ensure_step _ _ _ _ _ _ Hs) in Hstep
      as [-> [(Hsome & -> & ->)|(Hnone & Hnew & ->)]].
    + apply IH in Hrest
        as (existing & created & -> & Hex & Hmiss & Hsame & -> & Hend);
        [|done..].
      cbn [h_file h_path] in *.
      exists (s :: existing), created.
      rewrite <- !app_assoc in *. simpl in *. split_and!; try done.
      * intros s' rest Hc. specialize (Hmiss _ _ Hc).
        by rewrite <- app_assoc in Hmiss.
      * apply imap_ext. intros j x _. simpl. by rewrite <- !app_assoc.
    + apply ensure_fresh in Hrest as (-> & Hend & ->); [|done..].
      cbn [h_file h_path] in *. rewrite <- app_assoc in Hend. simpl in Hend.
      exists [], (s :: segs). rewrite !app_nil_r.
      split_and!; try done.
      * by intros s' rest [= <- <-].
      * simpl. rewrite app_nil_r. destruct g as [f gp]. simpl.
        f_equal. apply imap_ext. intros j x _. simpl.
        by rewrite <- app_assoc.
Qed.

(** [_create_required_groups] that returns normally has entered the
    leading segments of the path that were there and created the others,
    one empty group in the other, from the first missing segment on and
    in this order; once a segment was missing no later one is looked up in
    what the container held.  Afterwards the whole path leads to an
    object, and when nothing was missing the container is unchanged. *)
Theorem create_required_groups_missing_tail g path w w' evs :
  _create_required_groups g path w = (Ok (), w', evs) →
  ∃ existing created,
    PyStr.split path = existing ++ created ∧
    is_Some (node_at w (Handle (h_file g) (h_path g ++ existing))) ∧
    (∀ s rest, created = s :: rest →
       node_at w (Handle (h_file g) (h_path g ++ existing ++ [s])) = None) ∧
    (created = [] → w' = w) ∧
    evs = imap (λ j s, EvCreateGroup
                         (Handle (h_file g)
                            (h_path g ++ existing ++ take j created)) s)
            created ∧
    is_Some (node_at w' (Handle (h_file g) (h_path g ++ PyStr.split path))).
Proof.
  unfold _create_required_groups.
  intros (h & w1 & e1 & e2 & Hloop & [= <- <-] & ->)%bind_ok_inv.
  rewrite app_nil_r.
  eapply ensure_path; [apply PyStrFacts.split_no_slash| |done].
  destruct (PyStr.split path) as [|s rest] eqn:Hsplit;
    [by apply PyStrFacts.split_not_nil in Hsplit|].
  cbn [foldM] in Hloop.
  apply bind_ok_inv in Hloop as (h1 & w2 & e3 & e4 & Hstep & _).
  apply bind_ok_inv in Hstep as (present & w3 & e5 & e6 & Hc & _).
  revert Hc. unfold h5_contains. unfold_M.
  by destruct (node_at w g).
Qed.

Lemma create_required_groups_missing_tail_witness :
  let w := World true {["f.h5" := Group ∅ [("a", Group ∅ [])]]} in
  let g := Handle "f.h5" [] in
  ∃ existing created,
    ["a"; "b"; "c"] = existing ++ created ∧
    is_Some (node_at w (Handle "f.h5" existing)) ∧
    (∀ s rest, created = s :: rest →
       node_at w (Handle "f.h5" (existing ++ [s])) = None) ∧
    (created = [] →
     World true
       {["f.h5" :=
           Group ∅ [("a", Group ∅ [("b", Group ∅ [("c", Group ∅ [])])])]]} = w) ∧
    [EvCreateGroup (Handle "f.h5" ["a"]) "b";
     EvCreateGroup (Handle "f.h5" ["a"; "b"]) "c"]
    = imap (λ j s, EvCreateGroup (Handle "f.h5" (existing ++ take j created)) s)
        created ∧
    is_Some
      (node_at
         (World true
            {["f.h5" :=
                Group ∅ [("a", Group ∅ [("b", Group ∅ [("c", Group ∅ [])])])]]})
         (Handle "f.h5" ["a"; "b"; "c"])).
Proof.
  intros w g.
  apply (create_required_groups_missing_tail g "a/b/c" w).
  vm_compute. reflexivity.
Defined.

(** ** Opening the file and the group *)

Lemma create_group_member i (m : gmap string node) p a ms group :
  valid_name group = true → group ∉ ms.*1 →
  h5_create_group (Handle p []) group (World i (<[p := Group a ms]> m))
  = (Ok (Handle p [group]),
     World i (<[p := Group a (ms ++ [(group, Group ∅ [])])]> m),
     [EvCreateGroup (Handle p []) group]).
Proof.
  intros Hvalid Hfresh.
  rewrite (h5_create_group_member _ _ _ a ms);
    [|done|by rewrite node_at_new_file|done].
  cbn [h_file h_path]. by rewrite update_new_file.
Qed.

(** [_get_group] without [append] opens the file for writing from
    scratch: whatever the file held is gone, the file holds nothing but
    the requested group, and the group returned is empty. *)
Theorem get_group_without_append p group w :
  group = "" ∨ valid_name group = true →
  _get_group p group false w =
    (Ok (Handle p [],
         if PyStr.truthy group then Handle p [group] else Handle p []),
     World (h5py_installed w)
       (<[p := Group ∅ (if PyStr.truthy group then [(group, Group ∅ [])]
                        else [])]> (fs w)),
     EvOpen p ModeW ::
     (if PyStr.truthy group then [EvCreateGroup (Handle p []) group] else [])).
Proof.
  intros Hgroup. rewrite get_group_unfold, bind_run, h5py_File_W.
  rewrite bind_run. unfold group_in_file.
  destruct Hgroup as [->|Hvalid]; [done|].
  pose proof Hvalid as [-> _]%andb_true_iff.
  by rewrite (create_group_member _ _ _ ∅ []) by (done || apply not_elem_of_nil).
Qed.

Lemma get_group_without_append_witness :
  let old := Group {["k" := VInt 7]} [("obs", Dataset ∅ (Plain [VInt 1]))] in
  _get_group "f.h5" "g1" false (World true {["f.h5" := old]}) =
    (Ok (Handle "f.h5" [], Handle "f.h5" ["g1"]),
     World true {["f.h5" := Group ∅ [("g1", Group ∅ [])]]},
     [EvOpen "f.h5" ModeW; EvCreateGroup (Handle "f.h5" []) "g1"]).
Proof.
  intros old.
  rewrite (get_group_without_append "f.h5" "g1"); [|by right].
  vm_compute. reflexivity.
Defined.

(** [_get_group] with [append] on a file that exists.  Without a group
    the file is returned as it is.  A group that is a member of the root
    is returned as it is, and nothing changes.  A valid name that is not
    a member is created as an empty group after the other members.  A
    path with a slash that leads to an existing object is never found by
    the test on the root's keys, also when it only starts with a slash:
    the call tries to create it again and fails in the backend, with the
    file left open. *)
Theorem get_group_with_append p group w a ms :
  fs w !! p = Some (Group a ms) → names_ok (Group a ms) = true →
  let f := Handle p [] in
  (group = "" → _get_group p group true w = (Ok (f, f), w, [EvOpen p ModeA])) ∧
  (valid_name group = true →
   _get_group p group true w =
     if bool_decide (group ∈ ms.*1)
     then (Ok (f, Handle p [group]), w, [EvOpen p ModeA])
     else (Ok (f, Handle p [group]),
           World (h5py_installed w)
             (<[p := Group a (ms ++ [(group, Group ∅ [])])]> (fs w)),
           [EvOpen p ModeA; EvCreateGroup f group])) ∧
  (PyStr.has_slash group = true →
   is_Some (h5_lookup w f group) →
   ∃ b, _get_group p group true w =
          (Raise (BackendError b), w, [EvOpen p ModeA])).
Proof.
  intros Hroot Hok f.
  assert (node_at w f = Some (Group a ms)) as Hf
    by (unfold node_at; simpl; by rewrite Hroot).
  assert (h5_keys f w = (Ok ms.*1, w, [])) as Hkeys.
  { unfold h5_keys. unfold_M. by rewrite Hf. }
  rewrite get_group_unfold, bind_run, (h5py_File_existing _ _ _ Hroot).
  fold f. rewrite bind_run. unfold group_in_file. split_and!.
  - by intros ->.
  - intros Hvalid. pose proof Hvalid as [Htruthy Hslash%negb_true_iff]%andb_true_iff.
    rewrite Htruthy, bind_run, Hkeys.
    case_bool_decide as Hin.
    + rewrite h5_getitem_present; [done..|].
      rewrite (node_at_below _ _ _ _ Hf). simpl.
      destruct (lookup_member group ms) eqn:Hl; [eauto|].
      by apply lookup_member_None in Hl.
    + assert (w = World (h5py_installed w) (<[p := Group a ms]> (fs w))) as Hw.
      { destruct w as [i m]. simpl in *. by rewrite insert_id. }
      rewrite Hw at 1. unfold f.
      rewrite (create_group_member _ _ _ _ _ _ Hvalid Hin). done.
  - intros Hslash Hres.
    assert (PyStr.truthy group = true) as -> by (by destruct group).
    rewrite bind_run, Hkeys. rewrite bool_decide_eq_false_2.
    2:{ intros Hin. apply names_ok_group in Hok as [_ Hall].
        apply list_elem_of_fmap in Hin as ([k c] & -> & Hin).
        rewrite Forall_forall in Hall.
        destruct (Hall _ Hin) as [[_ Hk%negb_true_iff]%andb_true_iff _].
        simpl in *. congruence. }
    destruct (h5_create_existing f group (Group ∅ []) w Hres) as [b Hb].
    exists b. unfold h5_create_group. by rewrite bind_run, Hb.
Qed.

Lemma get_group_with_append_witness :
  let ms := [("a", Group ∅ [("b", Group ∅ [])])] in
  let w := World true {["f.h5" := Group ∅ ms]} in
  _get_group "f.h5" "a" true w
    = (Ok (Handle "f.h5" [], Handle "f.h5" ["a"]), w, [EvOpen "f.h5" ModeA]) ∧
  (∃ b, _get_group "f.h5" "a/b" true w =
          (Raise (BackendError b), w, [EvOpen "f.h5" ModeA])) ∧
  ∃ b, _get_group "f.h5" "/a" true w =
         (Raise (BackendError b), w, [EvOpen "f.h5" ModeA]).
Proof.
  intros ms w.
  destruct (get_group_with_append "f.h5" "a" w ∅ ms eq_refl)
    as (_ & Hmember & _); [vm_compute; reflexivity|].
  destruct (get_group_with_append "f.h5" "a/b" w ∅ ms eq_refl)
    as (_ & _ & Hpath); [vm_compute; reflexivity|].
  destruct (get_group_with_append "f.h5" "/a" w ∅ ms eq_refl)
    as (_ & _ & Hroot); [vm_compute; reflexivity|].
  split_and!.
  - rewrite Hmember by reflexivity. vm_compute. reflexivity.
  - apply Hpath; [reflexivity|]. vm_compute. eauto.
  - apply Hroot; [reflexivity|]. vm_compute. eauto.
Defined.

(** ** Adding a table to a container *)

Lemma open_for_write_append p overwrite w root :
  fs w !! p = Some root →
  open_for_write p "" true overwrite w =
    (Ok (Handle p [], Handle p []), w, [EvExists p; EvOpen p ModeA]).
Proof.
  intros Hroot.
  unfold open_for_write. rewrite bind_run, os_path_exists_run.
  rewrite bool_decide_eq_true_2 by eauto. cbn [andb negb].
  rewrite bind_run. unfold mret at 1, M_ret at 1.
  by rewrite get_group_unfold, bind_run, (h5py_File_existing _ _ _ Hroot).
Qed.

Lemma write_fresh_name self filename compression append overwrite
    ignore_groups (m : gmap string node) root a ms :
  let g := target_handle filename in
  let name := write_name "Table" ignore_groups self in
  let w' :=
    World true
      (<[h_file g := alter_at (h_path g) (add_member name (dataset_of self))
                       root]> m) in
  match filename with TPath _ => append = true | THandle _ => True end →
  resolve root (h_path g) = Some (Group a ms) →
  valid_name name = true → name ∉ ms.*1 →
  fields (Table.data self) ≠ [] →
  write self filename compression "" append overwrite ignore_groups
    (World true (<[h_file g := root]> m)) =
    (Ok (), w',
     match filename with
     | TPath p => [EvExists p; EvOpen p ModeA]
     | THandle _ => []
     end ++ store_events g name self ++
     match filename with TPath p => [EvClose p] | THandle _ => [] end) ∧
  node_at w' g = Some (Group a (ms ++ [(name, dataset_of self)])) ∧
  node_at w' (Handle (h_file g) (h_path g ++ [name])) = Some (dataset_of self).
Proof.
  intros g name w' Happend Hgp Hvalid Hfresh Hfields. split_and!.
  - unfold w', name, g in *. clear w' name g.
    destruct filename as [p|h]; cbn [target_handle h_file h_path] in *.
    + subst append.
      rewrite write_path_unfold, bind_run, check_h5py_installed_run by done.
      rewrite bind_run.
      rewrite (open_for_write_append _ _ _ root)
        by (by cbn [fs]; rewrite lookup_insert_eq).
      cbn [fst snd]. rewrite write_from_store, bind_run.
      rewrite (store_table_fresh _ _ _ _ _ a ms) by done.
      unfold h5_close, emit. cbn [h_file]. done.
    + rewrite write_handle_unfold, bind_run, check_h5py_installed_run by done.
      rewrite bind_run. unfold group_under at 1. cbn [PyStr.truthy].
      unfold mret at 1, M_ret at 1. rewrite write_from_store, bind_run.
      destruct h as [f gp]. cbn [h_file h_path] in *.
      rewrite (store_table_fresh _ _ _ _ _ a ms) by done.
      unfold mret, M_ret. by rewrite !app_nil_r.
  - unfold w'. destruct g as [f gp]. cbn [h_file h_path] in *.
    rewrite node_at_new_file. by rewrite (resolve_alter_at _ _ _ _ Hgp).
  - unfold w'. destruct g as [f gp]. cbn [h_file h_path] in *.
    rewrite node_at_new_file. eapply resolve_add_member; [done|].
    by apply lookup_member_None.
Qed.



(** ** Writing into a group of a new file *)

(** [read] without a table name on a container with exactly one table. *)
Lemma read_unique filename verbose self w a ms key :
  let root := Group a ms in
  h5py_installed w = true →
  node_at w (target_handle filename) = Some root →
  names_ok root = true → datasets_ok root = true →
  (∀ k, (∃ m, resolve root (PyStr.split k) = Some m ∧ is_record m = true)
        ↔ k = key) →
  read filename None verbose (self, w) =
    (Ok (), (table_at root key, w),
     match filename with TPath p => read_events p | THandle _ => [] end).
Proof.
  intros root Hinst Hg Hok Hdok Hkey. unfold root in *. clear root.
  rewrite (read_run_from _ _ _ _ _ _ _ Hinst Hg).
  destruct (read_from_discovered
              (match filename with
               | TPath p => Some (Handle p [])
               | THandle _ => None
               end) (target_handle filename) (Table.reset self) w a ms
              Hg Hok Hdok) as (tables & Htables & Hread).
  rewrite (list_tables_run _ _ _ _ Hg Hok) in Htables.
  injection Htables as <-.
  destruct (read_from _ _ _ _) as [[[[]|e] [self' w']] evs].
  - destruct Hread as (-> & -> & key' & attrs & r & Htab & Hres & ->).
    assert (key' = key) as ->.
    { apply Hkey. exists (Dataset attrs (Structured r)). split; [done|].
      assert (key' ∈ (map_to_list
                (collect_tables (Group a ms)
                   (map PyStr.join (descendants (Group a ms))) ∅)).*1) as Hin.
      { assert (collect_tables (Group a ms)
                  (map PyStr.join (descendants (Group a ms))) ∅
                = {[key' := key']}) as -> by exact Htab.
        rewrite map_to_list_singleton. by left. }
      apply discovered_iff in Hin as (m & Hm & Hrec). congruence. }
    unfold table_at. rewrite Hres. by destruct filename.
  - destruct Hread as (Hsize & _). exfalso. apply Hsize.
    rewrite <- length_map_to_list, <- (length_fmap fst).
    assert ((map_to_list
               (collect_tables (Group a ms)
                  (map PyStr.join (descendants (Group a ms))) ∅)).*1
            ≡ₚ [key]) as ->; [|done].
    apply NoDup_Permutation;
      [apply NoDup_fst_map_to_list|apply NoDup_singleton|].
    intros k. by rewrite discovered_iff, Hkey, list_elem_of_singleton.
Qed.

Lemma nested_table group name tbl k :
  valid_name group = true → valid_name name = true →
  fields (Table.data tbl) ≠ [] →
  (∃ m, resolve (Group ∅ [(group, Group ∅ [(name, dataset_of tbl)])])
          (PyStr.split k) = Some m ∧ is_record m = true)
  ↔ k = PyStr.join [group; name].
Proof.
  intros [_ Hg%negb_true_iff]%andb_true_iff [_ Hn%negb_true_iff]%andb_true_iff
    Hfields.
  split.
  - intros (m & Hm & Hrec).
    rewrite <- (PyStrFacts.join_split k).
    destruct (PyStr.split k) as [|s [|s2 rest]]; simpl in Hm;
      [by injection Hm as <-|..].
    + case_decide; [|done]. by injection Hm as <-.
    + case_decide; [subst s|done]. simpl in Hm.
      case_decide; [subst s2|done]. by destruct rest.
  - intros ->. exists (dataset_of tbl).
    rewrite PyStrFacts.split_join by (done || by repeat constructor).
    simpl. rewrite !decide_True by done. simpl. rewrite decide_True by done.
    split; [done|].
    by destruct (fields (Table.data tbl)).
Qed.

(** [write] with a group, to a new file, and [read] of that file without
    a table name.  The group is created under the root and the dataset in
    the group.  The table read back has the data of the table written,
    but its name is the path of the dataset from the root, group and name
    joined by a slash, not the name of the table written. *)
Theorem write_group_read self other p group compression append overwrite
    ignore_groups verbose w :
  let name := write_name "Table" ignore_groups self in
  let w' :=
    World true
      (<[p := Group ∅ [(group, Group ∅ [(name, dataset_of self)])]]> (fs w)) in
  h5py_installed w = true → fs w !! p = None →
  valid_name group = true → valid_name name = true →
  recarray_ok (Table.data self) = true → fields (Table.data self) ≠ [] →
  write self (TPath p) compression group append overwrite ignore_groups w =
    (Ok (), w',
     [EvExists p; EvOpen p (if append then ModeA else ModeW);
      EvCreateGroup (Handle p []) group] ++
     store_events (Handle p [group]) name self ++ [EvClose p]) ∧
  read (TPath p) None verbose (other, w') =
    (Ok (), (Table.Mk (PyStr.join [group; name]) (Table.data self) ∅, w'),
     [EvExists p; EvOpen p ModeA; EvClose p]) ∧
  PyStr.join [group; name] ≠ name.
Proof.
  intros name w' Hinst Hp Hgroup Hname Hr Hfields. split_and!.
  - rewrite write_path_unfold, bind_run, check_h5py_installed_run by done.
    rewrite bind_run, open_for_write_new_group by done. cbn [fst snd].
    rewrite write_from_store, bind_run.
    rewrite (store_table_fresh _ _ _ _ _ ∅ []);
      [|by simpl; rewrite decide_True|done|apply not_elem_of_nil|done].
    unfold h5_close, emit. cbn [h_file alter_at alter_member].
    rewrite decide_True by done. done.
  - rewrite (read_unique (TPath p) verbose other w' ∅
               [(group, Group ∅ [(name, dataset_of self)])]
               (PyStr.join [group; name])).
    + unfold table_at.
      pose proof (proj2 (nested_table group name self _ Hgroup Hname Hfields)
                    eq_refl) as (m & Hm & _).
      apply andb_true_iff in Hgroup as [_ Hg%negb_true_iff].
      apply andb_true_iff in Hname as [_ Hn%negb_true_iff].
      rewrite PyStrFacts.split_join by (done || by repeat constructor).
      simpl. rewrite decide_True by done. simpl. by rewrite decide_True.
    + done.
    + unfold node_at, w'. simpl. by rewrite lookup_insert_eq.
    + apply names_ok_group. split; [apply NoDup_singleton|].
      repeat constructor; [done|]. apply names_ok_group.
      split; [apply NoDup_singleton|]. by repeat constructor.
    + simpl. by rewrite Hr.
    + intros k. by apply nested_table.
  - intros Heq. apply (f_equal PyStr.has_slash) in Heq.
    apply andb_true_iff in Hname as [_ Hn%negb_true_iff].
    rewrite Hn in Heq. unfold PyStr.join in Heq. simpl in Heq.
    rewrite PyStrFacts.has_slash_app in Heq. simpl in Heq.
    by rewrite orb_true_r in Heq.
Qed.

Lemma write_group_read_witness :
  let t1 := Table.Mk "obs" (RecArray 1 [("x", [VInt 1])]) ∅ in
  let w' :=
    World true {["f.h5" := Group ∅ [("g1", Group ∅ [("obs", dataset_of t1)])]]} in
  read (TPath "f.h5") None true (Table.new, w') =
    (Ok (), (Table.Mk "g1/obs" (RecArray 1 [("x", [VInt 1])]) ∅, w'),
     [EvExists "f.h5"; EvOpen "f.h5" ModeA; EvClose "f.h5"]).
Proof.
  intros t1 w'.
  apply (write_group_read t1 Table.new "f.h5" "g1" false false false false
           true (World true ∅));
    try reflexivity. discriminate.
Defined.

Lemma join_pair_inj group n n' :
  PyStr.join [group; n] = PyStr.join [group; n'] → n = n'.
Proof.
  unfold PyStr.join. simpl.
  induction group as [|c group IH]; simpl; intros [=]; auto.
Qed.

(** The paths discovered in a file whose root holds one group, all of
    whose members are tables. *)
Lemma discovered_nested a0 group a (ms : list (string * node)) :
  valid_name group = true → names_ok (Group a ms) = true →
  Forall (λ kc, is_record kc.2 = true) ms →
  (map_to_list
     (collect_tables (Group a0 [(group, Group a ms)])
        (map PyStr.join (descendants (Group a0 [(group, Group a ms)]))) ∅)).*1
  ≡ₚ map (λ n, PyStr.join [group; n]) ms.*1.
Proof.
  intros [_ Hg%negb_true_iff]%andb_true_iff Hok Hrec.
  pose proof Hok as [Hnd Hall]%names_ok_group.
  apply NoDup_Permutation; [apply NoDup_fst_map_to_list| |].
  { apply NoDup_fmap_2; [|done]. intros n n'. apply join_pair_inj. }
  intros key. rewrite discovered_iff. rewrite Forall_forall in Hrec, Hall.
  split.
  - intros (m & Hm & Hm').
    rewrite <- (PyStrFacts.join_split key).
    destruct (PyStr.split key) as [|s [|s2 rest]]; simpl in Hm;
      [by injection Hm as <-|..].
    + case_decide; [|done]. by injection Hm as <-.
    + case_decide; [subst s|done].
      change (match lookup_member s2 ms with
              | Some c => resolve c rest
              | None => None
              end = Some m) in Hm.
      destruct (lookup_member s2 ms) as [c|] eqn:Hc; [|done].
      apply lookup_member_Some in Hc.
      pose proof (Hrec _ Hc) as Hcrec. simpl in Hcrec.
      destruct c as [|ac d]; [done|]. destruct rest; [|done].
      apply list_elem_of_fmap. exists s2. split; [done|].
      apply list_elem_of_fmap. by exists (s2, Dataset ac d).
  - intros (n & -> & ([k c] & -> & Hin)%list_elem_of_fmap)%list_elem_of_fmap.
    simpl.
    destruct (Hall _ Hin) as [[_ Hk%negb_true_iff]%andb_true_iff _].
    simpl in Hk. exists c.
    rewrite PyStrFacts.split_join by (done || by repeat constructor).
    cbn [resolve lookup_member]. rewrite decide_True by done.
    cbn [resolve]. rewrite (lookup_member_NoDup _ _ _ Hnd Hin).
    split; [done|]. by apply (Hrec _ Hin).
Qed.

Lemma table_at_nested a0 group a (ms : list (string * node)) name tbl :
  valid_name group = true → names_ok (Group a ms) = true →
  (name, dataset_of tbl) ∈ ms →
  table_at (Group a0 [(group, Group a ms)]) (PyStr.join [group; name])
  = Table.Mk (PyStr.join [group; name]) (Table.data tbl) ∅.
Proof.
  intros [_ Hg%negb_true_iff]%andb_true_iff [Hnd Hall]%names_ok_group Hin.
  rewrite Forall_forall in Hall.
  destruct (Hall _ Hin) as [[_ Hk%negb_true_iff]%andb_true_iff _].
  simpl in Hk. unfold table_at.
  rewrite PyStrFacts.split_join by (done || by repeat constructor).
  cbn [resolve lookup_member]. rewrite decide_True by done.
  cbn [resolve]. by rewrite (lookup_member_NoDup _ _ _ Hnd Hin).
Qed.

(** [write_set] with a group, to a new file, and [read_set] of that file.
    The keywords of the set are attached to the group (line 264), while
    [read_set] reads the attributes of the file (lines 133-135): the set
    read back has no keywords.  Its tables have the data of the tables
    written, up to their order, under the paths from the root, group and
    name joined by a slash. *)
Theorem write_set_group_read_set (self other : TableSet.t) p group compression
    append overwrite ignore_groups pedantic verbose w :
  let items := imap pair (TableSet.tables self) in
  let w' :=
    World true
      (<[p := Group ∅
                [(group,
                  Group (TableSet.keywords self)
                    (map (λ it, (set_name ignore_groups it, dataset_of it.2))
                       items))]]> (fs w)) in
  h5py_installed w = true → fs w !! p = None →
  valid_name group = true →
  Forall (λ it, valid_name (set_name ignore_groups it) = true) items →
  NoDup (map (set_name ignore_groups) items) →
  Forall (λ it, recarray_ok (Table.data it.2) = true ∧
                fields (Table.data it.2) ≠ []) items →
  (∃ evs, write_set self p compression group append overwrite ignore_groups w
          = (Ok (), w', evs)) ∧
  ∃ ts evs,
    read_set p pedantic verbose (other, w') =
      (Ok (), (TableSet.Mk ts ∅, w'), evs) ∧
    ts ≡ₚ map (λ it, Table.Mk (PyStr.join [group; set_name ignore_groups it])
                       (Table.data it.2) ∅) items.
Proof.
  intros items w' Hinst Hp Hgroup Hvalid Hnd Hdata.
  destruct (written_members_ok ignore_groups items (TableSet.keywords self)
              Hvalid Hnd Hdata) as (Hok & Hdok & Hrec & Hnames).
  split.
  - eexists.
    rewrite write_set_unfold, bind_run, check_h5py_installed_run by done.
    rewrite bind_run, open_for_write_new_group by done. cbn [fst snd].
    rewrite (write_set_tail_fresh _ _ _ [group] _ _ _ _ _ ∅ []);
      [|by simpl; rewrite decide_True|done|done|by apply data_has_columns].
    cbn [alter_at alter_member app]. rewrite decide_True by done.
    by rewrite (right_id ∅ (∪)).
  - eexists _, _. split.
    + apply read_set_run;
        [done|by unfold w'; cbn [fs]; rewrite lookup_insert_eq|..].
      * apply names_ok_group. split; [apply NoDup_singleton|].
        by repeat constructor.
      * cbn [datasets_ok] in *. by rewrite Hdok.
    + fold items. rewrite (discovered_nested _ _ _ _ Hgroup Hok Hrec), Hnames.
      rewrite <- !list_fmap_compose.
      assert (∀ A (l k : list A), l = k → l ≡ₚ k) as Heq by (by intros ??? ->).
      apply Heq, Forall_fmap_ext_1, Forall_forall. intros it Hit. simpl.
      apply table_at_nested; [done..|].
      apply list_elem_of_fmap. by exists it.
Qed.

Lemma write_set_group_read_set_witness :
  let t1 := Table.Mk "obs" (RecArray 1 [("x", [VInt 1])]) ∅ in
  let kws : gmap string value := {["origin" := VStr "survey"]} in
  let w' :=
    World true
      {["f.h5" := Group ∅ [("g1", Group kws [("obs", dataset_of t1)])]]} in
  ∃ ts evs,
    read_set "f.h5" false true (TableSet.Mk [] kws, w') =
      (Ok (), (TableSet.Mk ts ∅, w'), evs) ∧
    ts ≡ₚ [Table.Mk "g1/obs" (RecArray 1 [("x", [VInt 1])]) ∅].
Proof.
  intros t1 kws w'.
  apply (write_set_group_read_set (TableSet.Mk [t1] kws) (TableSet.Mk [] kws)
           "f.h5" "g1" false false false false false true (World true ∅)).
  - reflexivity.
  - reflexivity.
  - reflexivity.
  - repeat constructor.
  - apply (bool_decide_unpack _). vm_compute. exact I.
  - repeat constructor; discriminate.
Defined.

(** ** Names that are paths *)

Lemma string_app_assoc (a b c : string) :
  ((a ++ b) ++ c = a ++ (b ++ c))%string.
Proof.
  induction a as [|x a IH]; [done|].
  change (String x ((a ++ b) ++ c) = String x (a ++ (b ++ c)))%string.
  by rewrite IH.
Qed.

Lemma join_snoc init leaf :
  init ≠ [] →
  PyStr.join (init ++ [leaf]) = (PyStr.join init ++ String "/" leaf)%string.
Proof.
  unfold PyStr.join. induction init as [|s [|s' init] IH]; intros Hne;
    [done|done|].
  change (String.concat "/" ((s :: s' :: init) ++ [leaf]))
    with (s ++ String "/" (String.concat "/" ((s' :: init) ++ [leaf])))%string.
  rewrite IH by done.
  change (String.concat "/" (s :: s' :: init))
    with (s ++ String "/" (String.concat "/" (s' :: init)))%string.
  by rewrite string_app_assoc.
Qed.

Lemma rfind_slash_last a leaf :
  PyStr.has_slash leaf = false →
  PyStr.rfind_slash_succ (a ++ String "/" leaf) = S (String.length a).
Proof.
  intros Hleaf. induction a as [|c a IH]; simpl.
  - by rewrite (PyStrFacts.rfind_slash_free leaf).
  - by rewrite IH.
Qed.

Lemma take_drop_last a leaf :
  PyStr.take (S (String.length a)) (a ++ String "/" leaf) = (a ++ "/")%string ∧
  PyStr.drop (S (String.length a)) (a ++ String "/" leaf) = leaf.
Proof.
  induction a as [|c a [IH1 IH2]]; [by destruct leaf|].
  split; [|done].
  change (String c (PyStr.take (S (String.length a)) (a ++ String "/" leaf))
          = String c (a ++ "/"))%string.
  by rewrite IH1.
Qed.

Lemma rstrip_slash_snoc a : PyStr.rstrip_slash (a ++ "/") = PyStr.rstrip_slash a.
Proof. induction a as [|c a IH]; simpl; [done|]. by rewrite IH. Qed.

Lemma rstrip_slash_free s :
  PyStr.has_slash s = false → PyStr.rstrip_slash s = s.
Proof.
  induction s as [|c s IH]; simpl; [done|].
  intros [Hc Hs]%orb_false_elim. rewrite IH, Hc by done. by destruct s.
Qed.

Lemma rstrip_slash_app x y :
  PyStr.rstrip_slash y ≠ "" →
  PyStr.rstrip_slash (x ++ y) = (x ++ PyStr.rstrip_slash y)%string.
Proof.
  intros Hy. induction x as [|c x IH]; [reflexivity|].
  change (PyStr.rstrip_slash (String c (x ++ y))
          = String c (x ++ PyStr.rstrip_slash y))%string.
  cbn [PyStr.rstrip_slash]. rewrite IH.
  destruct (x ++ PyStr.rstrip_slash y)%string eqn:Hx; [|done].
  destruct x; [|done]. by destruct Hy.
Qed.

Lemma rstrip_slash_join segs :
  segs ≠ [] → Forall (λ s, valid_name s = true) segs →
  PyStr.rstrip_slash (PyStr.join segs) = PyStr.join segs ∧
  PyStr.join segs ≠ "" ∧ PyStr.all_slashes (PyStr.join segs ++ "/") = false.
Proof.
  unfold PyStr.join.
  induction segs as [|s [|s' segs] IH]; intros Hne Hall; [done|..].
  - apply Forall_cons in Hall as [[Ht Hs%negb_true_iff]%andb_true_iff _].
    simpl. rewrite rstrip_slash_free by done.
    destruct s as [|c s]; [done|]. split_and!; [done..|].
    simpl in *. apply orb_false_elim in Hs as [-> _]. done.
  - apply Forall_cons in Hall as [[Ht Hs%negb_true_iff]%andb_true_iff Hall].
    destruct IH as (IH1 & IH2 & _); [done..|].
    change (String.concat "/" (s :: s' :: segs))
      with (s ++ String "/" (String.concat "/" (s' :: segs)))%string.
    split_and!.
    + set (R := String.concat "/" (s' :: segs)) in *.
      assert (PyStr.rstrip_slash (String "/" R) = String "/" R) as Hr.
      { cbn [PyStr.rstrip_slash]. rewrite IH1. by destruct R. }
      rewrite rstrip_slash_app; by rewrite Hr.
    + by destruct s.
    + destruct s as [|c s]; [done|]. simpl in *.
      apply orb_false_elim in Hs as [-> _]. done.
Qed.

(** [os.path.dirname] and [os.path.basename] of a path of valid names. *)
Lemma dirname_basename_join init leaf :
  init ≠ [] → Forall (λ s, valid_name s = true) (init ++ [leaf]) →
  PyStr.dirname (PyStr.join (init ++ [leaf])) = PyStr.join init ∧
  PyStr.basename (PyStr.join (init ++ [leaf])) = leaf.
Proof.
  intros Hne [Hinit Hleaf]%Forall_app.
  apply Forall_singleton in Hleaf as [_ Hleaf%negb_true_iff]%andb_true_iff.
  rewrite join_snoc by done. unfold PyStr.dirname, PyStr.basename.
  rewrite rfind_slash_last by done.
  destruct (take_drop_last (PyStr.join init) leaf) as [-> ->].
  split; [|done].
  destruct (rstrip_slash_join init Hne Hinit) as (Hstrip & Hnonempty & ->).
  assert (PyStr.truthy (PyStr.join init ++ "/") = true) as ->
    by (by destruct (PyStr.join init)).
  simpl. by rewrite rstrip_slash_snoc.
Qed.

Lemma resolve_nest segs n : resolve (nest segs n) segs = Some n.
Proof.
  induction segs as [|s segs IH]; simpl; [done|]. by rewrite decide_True.
Qed.

Lemma alter_at_nest segs f n : alter_at segs f (nest segs n) = nest segs (f n).
Proof.
  induction segs as [|s segs IH]; simpl; [done|].
  by rewrite decide_True, IH.
Qed.

Lemma nest_snoc init leaf n :
  nest (init ++ [leaf]) n = nest init (Group ∅ [(leaf, n)]).
Proof. induction init as [|s init IH]; simpl; [done|]. by rewrite IH. Qed.

Lemma nest_ok segs n :
  Forall (λ s, valid_name s = true) segs →
  names_ok n = true → datasets_ok n = true →
  names_ok (nest segs n) = true ∧ datasets_ok (nest segs n) = true.
Proof.
  intros Hall Hn Hd. induction Hall as [|s segs Hs Hall [IH1 IH2]]; [done|].
  split.
  - apply names_ok_group. split; [apply NoDup_singleton|].
    by repeat constructor.
  - simpl. by rewrite IH2.
Qed.

Lemma resolve_nest_record segs a d : ∀ q m,
  resolve (nest segs (Dataset a d)) q = Some m → is_record m = true →
  q = segs.
Proof.
  induction segs as [|s segs IH]; intros q m Hm Hrec; simpl in Hm.
  - by destruct q.
  - destruct q as [|x q]; simpl in Hm; [by injection Hm as <-|].
    case_decide; [subst x|done]. f_equal. by eapply IH.
Qed.

Lemma create_group_at i (m : gmap string node) p root gp a ms group :
  resolve root gp = Some (Group a ms) →
  valid_name group = true → group ∉ ms.*1 →
  h5_create_group (Handle p gp) group (World i (<[p := root]> m))
  = (Ok (Handle p (gp ++ [group])),
     World i (<[p := alter_at gp (add_member group (Group ∅ [])) root]> m),
     [EvCreateGroup (Handle p gp) group]).
Proof.
  intros Hgp Hvalid Hfresh.
  rewrite (h5_create_group_member _ _ _ a ms);
    [|done|by rewrite node_at_new_file|done].
  cbn [h_file h_path]. by rewrite update_new_file.
Qed.

(** The loop of [_create_required_groups] started in an empty group
    creates the whole chain. *)
Lemma create_groups_fresh i (m : gmap string node) p : ∀ init gp root,
  Forall (λ s, valid_name s = true) init →
  resolve root gp = Some (Group ∅ []) →
  foldM (λ g dirname,
           present ← h5_contains g dirname;
           if negb present then h5_create_group g dirname
           else h5_getitem g dirname)
    (Handle p gp) init (World i (<[p := root]> m))
  = (Ok (Handle p (gp ++ init)),
     World i (<[p := alter_at gp (λ _, nest init (Group ∅ [])) root]> m),
     imap (λ j s, EvCreateGroup (Handle p (gp ++ take j init)) s) init).
Proof.
  induction init as [|s init IH]; intros gp root Hall Hgp; cbn [foldM].
  - unfold mret, M_ret. rewrite app_nil_r. simpl.
    assert (alter_at gp (λ _, Group ∅ []) root = root) as ->; [|done].
    etrans; [|apply (alter_at_id gp)]. by eapply alter_at_ext.
  - apply Forall_cons in Hall as [Hs Hall].
    rewrite bind_run, bind_run.
    rewrite (h5_contains_group _ _ _ ∅ []) by (by rewrite node_at_new_file).
    rewrite h5_path_valid by done. cbn [h_file h_path].
    rewrite node_at_new_file, resolve_app, Hgp. cbn [resolve lookup_member].
    rewrite bool_decide_eq_false_2 by (by intros [??]).
    rewrite andb_false_r. cbn [negb].
    rewrite (create_group_at _ _ _ _ _ ∅ []) by (done || apply not_elem_of_nil).
    rewrite IH; [|done|].
    2:{ eapply resolve_add_member; [done|]. done. }
    cbn [imap app take]. rewrite app_nil_r, <- app_assoc. do 2 f_equal.
    + do 2 f_equal. rewrite alter_at_app_compose.
      eapply alter_at_ext; [done|]. simpl. by rewrite decide_True.
    + apply imap_ext. intros j x _. simpl. by rewrite <- app_assoc.
Qed.

Lemma join_valid_truthy segs :
  segs ≠ [] → Forall (λ s, valid_name s = true) segs →
  PyStr.truthy (PyStr.join segs) = true.
Proof.
  intros Hne Hall. destruct (rstrip_slash_join segs Hne Hall) as (_ & Hj & _).
  by destruct (PyStr.join segs).
Qed.

Lemma join_snoc_has_slash init leaf :
  init ≠ [] → PyStr.has_slash (PyStr.join (init ++ [leaf])) = true.
Proof.
  intros Hne. rewrite join_snoc by done.
  rewrite PyStrFacts.has_slash_app. simpl. by rewrite orb_true_r.
Qed.

(** Linking at a path of link names whose groups exist. *)
Lemma h5_create_at g init leaf new w a ms pa pms :
  Forall (λ s, valid_name s = true) (init ++ [leaf]) →
  node_at w g = Some (Group a ms) →
  node_at w (Handle (h_file g) (h_path g ++ init)) = Some (Group pa pms) →
  leaf ∉ pms.*1 →
  h5_create g (PyStr.join (init ++ [leaf])) new w =
    (Ok (Handle (h_file g) (h_path g ++ init ++ [leaf])),
     update_file (h_file g)
       (alter_at (h_path g ++ init) (add_member leaf new)) w, []).
Proof.
  intros Hall Hg Hp Hfresh. unfold h5_create.
  rewrite h5_path_join, h5_segments_join by done.
  rewrite (app_assoc (h_path g)), removelast_last, last_last.
  cbn [h_file h_path]. unfold_M. rewrite Hg.
  apply Forall_app in Hall as [_ Hleaf]. rewrite Forall_singleton in Hleaf.
  rewrite (valid_name_truthy _ Hleaf). cbn [negb].
  rewrite Hp, bool_decide_eq_false_2; [done|].
  apply lookup_member_None in Hfresh. rewrite Hfresh. by intros [??].
Qed.

Lemma h5_create_dataset_at g init leaf data compression w a ms pa pms :
  Forall (λ s, valid_name s = true) (init ++ [leaf]) →
  fields data ≠ [] →
  node_at w g = Some (Group a ms) →
  node_at w (Handle (h_file g) (h_path g ++ init)) = Some (Group pa pms) →
  leaf ∉ pms.*1 →
  h5_create_dataset g (PyStr.join (init ++ [leaf])) data compression w =
    (Ok (Handle (h_file g) (h_path g ++ init ++ [leaf])),
     update_file (h_file g)
       (alter_at (h_path g ++ init)
          (add_member leaf (Dataset ∅ (Structured data)))) w,
     [EvCreateDataset g (PyStr.join (init ++ [leaf]))]).
Proof.
  intros Hall Hfields Hg Hp Hfresh.
  rewrite h5_create_dataset_fields, bind_run by done.
  by rewrite (h5_create_at _ _ _ _ _ _ _ _ _ Hall Hg Hp Hfresh).
Qed.

(** [write] to a new file of a table whose name is a path of valid
    names, with the groups of the name kept. *)
Lemma write_path_name_new self p init leaf compression append overwrite w :
  let segs := init ++ [leaf] in
  h5py_installed w = true → fs w !! p = None →
  init ≠ [] → Forall (λ s, valid_name s = true) segs →
  Table.table_name self = PyStr.join segs →
  fields (Table.data self) ≠ [] →
  ∃ evs,
    write self (TPath p) compression "" append overwrite false w =
      (Ok (), World true (<[p := nest segs (dataset_of self)]> (fs w)), evs).
Proof.
  intros segs Hinst Hp Hne Hall Hname Hfields.
  pose proof Hall as [Hinit Hleaf]%Forall_app.
  rewrite Forall_singleton in Hleaf.
  pose proof Hleaf as [Hleaf_t Hleaf_s%negb_true_iff]%andb_true_iff.
  assert (segs ≠ []) as Hsegs by (unfold segs; by destruct init).
  destruct (dirname_basename_join init leaf Hne Hall) as [Hdir _].
  eexists.
  rewrite write_path_unfold, bind_run, check_h5py_installed_run by done.
  rewrite bind_run, open_for_write_new by done. cbn [fst snd].
  rewrite write_from_store, bind_run. unfold store_table at 1.
  rewrite Hname, (join_valid_truthy segs) by done.
  fold segs in Hdir. rewrite Hdir, (join_valid_truthy init) by done.
  rewrite bind_run, bind_run. unfold _create_required_groups at 1.
  rewrite bind_run.
  rewrite PyStrFacts.split_join by (done || by apply valid_names_slash_free).
  rewrite (create_groups_fresh _ _ _ init [] (Group ∅ [])) by done.
  cbn [alter_at app]. unfold mret at 1 2, M_ret at 1 2.
  assert (∃ s1 n', nest init (Group ∅ []) = Group ∅ [(s1, n')] ∧
                   valid_name s1 = true) as (s1 & n' & Hnest & Hs1).
  { destruct init as [|s1 init']; [done|]. exists s1, (nest init' (Group ∅ [])).
    split; [done|]. by apply Forall_cons in Hinit as [? _]. }
  rewrite bind_run. unfold h5_keys at 1. rewrite bind_run. unfold gets at 1.
  rewrite node_at_new_file. cbn [resolve]. rewrite Hnest.
  unfold mret at 1, M_ret at 1. cbn [fmap list_fmap fst].
  rewrite bool_decide_eq_false_2.
  2:{ intros Heq%list_elem_of_singleton.
      apply andb_true_iff in Hs1 as [_ Hs%negb_true_iff].
      rewrite <- Heq in Hs. unfold segs in Hs.
      by rewrite join_snoc_has_slash in Hs. }
  rewrite <- Hnest, bind_run. unfold segs.
  rewrite (h5_create_dataset_at (Handle p []) init leaf _ compression _
             ∅ [(s1, n')] ∅ []);
    [|done|done|by rewrite node_at_new_file; cbn [resolve]; rewrite Hnest
     |by rewrite node_at_new_file; cbn [h_path app]; rewrite resolve_nest
     |apply not_elem_of_nil].
  cbn [h_file h_path app]. rewrite update_new_file.
  rewrite alter_at_nest. cbn [add_member app]. rewrite <- nest_snoc.
  rewrite (set_attrs_run _ _ _ _ _ _ _ (resolve_nest _ _)).
  rewrite alter_at_nest, with_attrs_new_dataset.
  unfold h5_close, emit. cbn [h_file]. reflexivity.
Qed.

Lemma nested_path_table segs a d k :
  segs ≠ [] → Forall (λ s, valid_name s = true) segs →
  is_record (Dataset a d) = true →
  (∃ m, resolve (nest segs (Dataset a d)) (PyStr.split k) = Some m ∧
        is_record m = true)
  ↔ k = PyStr.join segs.
Proof.
  intros Hne Hall Hrec. split.
  - intros (m & Hm & Hm'). rewrite <- (PyStrFacts.join_split k).
    f_equal. by eapply resolve_nest_record.
  - intros ->. exists (Dataset a d).
    rewrite PyStrFacts.split_join by (done || by apply valid_names_slash_free).
    by rewrite resolve_nest.
Qed.

(** A table whose name is a path of valid names, written to a new file
    and read back.  With the groups kept, the groups of the name are
    created one in the other, the dataset is created in the innermost
    under the last segment, and the table read back has the whole path
    as its name.  With [ignore_groups], no group is created, the dataset
    is created in the root under the last segment of the name, and that
    segment is the name of the table read back.  The data comes back in
    both cases. *)
Theorem write_path_name self other p init leaf compression append overwrite
    verbose w :
  let segs := init ++ [leaf] in
  let w1 := World true (<[p := nest segs (dataset_of self)]> (fs w)) in
  let w2 := World true (<[p := Group ∅ [(leaf, dataset_of self)]]> (fs w)) in
  h5py_installed w = true → fs w !! p = None →
  init ≠ [] → Forall (λ s, valid_name s = true) segs →
  Table.table_name self = PyStr.join segs →
  recarray_ok (Table.data self) = true → fields (Table.data self) ≠ [] →
  (∃ evs, write self (TPath p) compression "" append overwrite false w
          = (Ok (), w1, evs)) ∧
  read (TPath p) None verbose (other, w1) =
    (Ok (), (Table.Mk (PyStr.join segs) (Table.data self) ∅, w1),
     [EvExists p; EvOpen p ModeA; EvClose p]) ∧
  (∃ evs, write self (TPath p) compression "" append overwrite true w
          = (Ok (), w2, evs)) ∧
  read (TPath p) None verbose (other, w2) =
    (Ok (), (Table.Mk leaf (Table.data self) ∅, w2),
     [EvExists p; EvOpen p ModeA; EvClose p]).
Proof.
  intros segs w1 w2 Hinst Hp Hne Hall Hname Hr Hfields.
  pose proof Hall as [Hinit Hleaf]%Forall_app.
  rewrite Forall_singleton in Hleaf.
  pose proof Hleaf as [Hleaf_t Hleaf_s%negb_true_iff]%andb_true_iff.
  assert (segs ≠ []) as Hsegs by (unfold segs; by destruct init).
  assert (is_record (dataset_of self) = true) as Hrec
    by (simpl; by destruct (fields (Table.data self))).
  split_and!.
  - by apply write_path_name_new.
  - destruct (nest_ok segs (dataset_of self) Hall eq_refl) as [Hok Hdok];
      [by simpl; rewrite Hr|].
    destruct segs as [|s1 rest] eqn:Hs; [done|]. cbn [nest] in *.
    rewrite (read_unique (TPath p) verbose other w1 ∅
               [(s1, nest rest (dataset_of self))] (PyStr.join (s1 :: rest)));
      [|done|by unfold node_at, w1; simpl; rewrite lookup_insert_eq|done..|].
    + unfold table_at.
      rewrite PyStrFacts.split_join by (done || by apply valid_names_slash_free).
      change (Group ∅ [(s1, nest rest (dataset_of self))])
        with (nest (s1 :: rest) (dataset_of self)).
      by rewrite resolve_nest.
    + intros k.
      change (Group ∅ [(s1, nest rest (dataset_of self))])
        with (nest (s1 :: rest) (dataset_of self)).
      by apply nested_path_table.
  - destruct (dirname_basename_join init leaf Hne Hall) as [_ Hbase].
    assert (write_name "Table" true self = leaf) as Hwn.
    { unfold write_name. fold segs in Hbase.
      by rewrite Hname, (join_valid_truthy segs). }
    eexists.
    rewrite write_path_unfold, bind_run, check_h5py_installed_run by done.
    rewrite bind_run, open_for_write_new by done. cbn [fst snd].
    rewrite write_from_store, bind_run.
    rewrite (store_table_fresh _ _ _ _ _ ∅ []);
      [|done|by rewrite Hwn|apply not_elem_of_nil|done].
    rewrite Hwn. cbn [alter_at add_member app].
    unfold h5_close, emit. cbn [h_file]. reflexivity.
  - apply (read_single_dataset p leaf (Table.keywords self) (Table.data self));
      [done|by unfold w2; cbn [fs]; rewrite lookup_insert_eq|done..].
Qed.

Lemma write_path_name_witness :
  let t1 := Table.Mk "a/b/obs" (RecArray 1 [("x", [VInt 1])]) ∅ in
  let w1 :=
    World true
      {["f.h5" :=
          Group ∅ [("a", Group ∅ [("b", Group ∅ [("obs", dataset_of t1)])])]]} in
  let w2 := World true {["f.h5" := Group ∅ [("obs", dataset_of t1)]]} in
  (∃ evs, write t1 (TPath "f.h5") false "" false false false (World true ∅)
          = (Ok (), w1, evs)) ∧
  read (TPath "f.h5") None true (Table.new, w1) =
    (Ok (), (Table.Mk "a/b/obs" (RecArray 1 [("x", [VInt 1])]) ∅, w1),
     [EvExists "f.h5"; EvOpen "f.h5" ModeA; EvClose "f.h5"]) ∧
  (∃ evs, write t1 (TPath "f.h5") false "" false false true (World true ∅)
          = (Ok (), w2, evs)) ∧
  read (TPath "f.h5") None true (Table.new, w2) =
    (Ok (), (Table.Mk "obs" (RecArray 1 [("x", [VInt 1])]) ∅, w2),
     [EvExists "f.h5"; EvOpen "f.h5" ModeA; EvClose "f.h5"]).
Proof.
  intros t1 w1 w2.
  apply (write_path_name t1 Table.new "f.h5" ["a"; "b"] "obs" false false
           false true (World true ∅)).
  - reflexivity.
  - reflexivity.
  - discriminate.
  - repeat constructor.
  - reflexivity.
  - reflexivity.
  - discriminate.
Defined.

(** ** The files a writer touches *)

#[global] Instance only_file_refl f : Reflexive (only_file f).
Proof. done. Qed.

#[global] Instance only_file_trans f : Transitive (only_file f).
Proof.
  intros w1 w2 w3 [Hi12 H12] [Hi23 H23]. split; [congruence|].
  intros q Hq. by rewrite H23, H12.
Qed.

Lemma sat_ext {S A} (m m' : M S A) R P Q E :
  (∀ s, m s = m' s) → sat m' R P Q E → sat m R P Q E.
Proof. intros Heq Hm s r s' evs. rewrite Heq. apply Hm. Qed.

Section one_file.
Context (f : string).

Lemma only_file_update F w : only_file f w (update_file f F w).
Proof. split; [done|]. intros q Hq. simpl. by rewrite lookup_alter_ne. Qed.

Lemma of_contains g name : sat (h5_contains g name) (only_file f) (λ _, True) (λ _, True) (λ _, True).
Proof.
  unfold h5_contains. sat_gets. intros [[]|] _; try by sat_leaf.
  destruct (PyStr.truthy name); [|by sat_leaf].
  sat_gets. intros m _. by sat_leaf.
Qed.

Lemma of_keys g : sat (h5_keys g) (only_file f) (λ _, True) (λ _, True) (λ _, True).
Proof. unfold h5_keys. sat_gets. intros [[]|] _; by sat_leaf. Qed.

Lemma of_getitem g name : h_file g = f → sat (h5_getitem g name) (only_file f) (λ _, True) (λ h, h_file h = f) (λ _, True).
Proof.
  intros Hg. unfold h5_getitem. sat_gets.
  intros [[a ms|]|] _; try by sat_leaf.
  destruct (PyStr.truthy name); [|by sat_leaf].
  sat_gets. intros [m|] _; by sat_leaf.
Qed.

Lemma of_create g name new : h_file g = f → sat (h5_create g name new) (only_file f) (λ _, True) (λ h, h_file h = f) (λ _, True).
Proof.
  intros Hg. unfold h5_create. sat_gets.
  intros [[a0 ms0|]|] _; try by sat_leaf.
  destruct (negb _); [by sat_leaf|].
  sat_gets. intros [[a ms|]|] _; try by sat_leaf.
  case_bool_decide; [by sat_leaf|].
  sat_apply sat_bind; [|intros _ _; by sat_leaf].
  sat_apply sat_modify; [|instantiate (1 := λ _, True); done].
  intros w. rewrite Hg. apply only_file_update.
Qed.

Lemma of_create_group g name :
  h_file g = f → sat (h5_create_group g name) (only_file f) (λ _, True) (λ h, h_file h = f) (λ _, True).
Proof.
  intros Hg. unfold h5_create_group.
  sat_apply sat_bind; [by apply of_create|]. intros h Hh.
  sat_apply sat_bind; [sat_apply sat_emit; [|instantiate (1 := λ _, True)]; done|].
  intros _ _. by sat_leaf.
Qed.

Lemma of_create_dataset g name data compression :
  h_file g = f → sat (h5_create_dataset g name data compression) (only_file f) (λ _, True) (λ h, h_file h = f) (λ _, True).
Proof.
  intros Hg. unfold h5_create_dataset.
  destruct (fields data); [by sat_leaf|].
  sat_apply sat_bind; [by apply of_create|]. intros h Hh.
  sat_apply sat_bind; [sat_apply sat_emit; [|instantiate (1 := λ _, True)]; done|].
  intros _ _. by sat_leaf.
Qed.

Lemma of_set_attr obj key v :
  h_file obj = f → sat (h5_set_attr obj key v) (only_file f) (λ _, True) (λ _, True) (λ _, True).
Proof.
  intros Hobj. unfold h5_set_attr. sat_gets.
  intros [n|] _; [|by sat_leaf].
  sat_apply sat_bind; [|intros _ _; by sat_apply sat_emit].
  sat_apply sat_modify; [|instantiate (1 := λ _, True); done].
  intros w. rewrite Hobj. apply only_file_update.
Qed.

Lemma of_set_attrs obj (kws : list (string * value)) :
  h_file obj = f →
  sat (for_each kws (λ '(keyword, v), h5_set_attr obj keyword v)) (only_file f) (λ _, True) (λ _, True) (λ _, True).
Proof.
  intros Hobj. sat_apply sat_for_each. intros [key v]. by apply of_set_attr.
Qed.

Lemma of_create_required_groups g path :
  h_file g = f → sat (_create_required_groups g path) (only_file f) (λ _, True) (λ _, True) (λ _, True).
Proof.
  intros Hg. unfold _create_required_groups.
  sat_apply sat_bind; [|intros _ _; by sat_leaf].
  eapply sat_foldM with (I := λ h : handle, h_file h = f); try solve_tc;
    [exact Hg|].
  intros h dirname Hh.
  sat_apply sat_bind; [apply of_contains|].
  intros [] _; simpl; [by apply of_getitem|by apply of_create_group].
Qed.

Lemma of_store_table g group compression ignore_groups fallback tbl :
  h_file g = f →
  sat (store_table g group compression ignore_groups fallback tbl) (only_file f) (λ _, True) (λ _, True) (λ _, True).
Proof.
  intros Hg. unfold store_table.
  sat_apply sat_bind.
  { instantiate (1 := λ _, True). destruct ignore_groups; [by sat_leaf|].
    sat_apply sat_bind; [|intros _ _; by sat_leaf].
    instantiate (1 := λ _, True).
    destruct (PyStr.truthy _); [by apply of_create_required_groups|by sat_leaf]. }
  intros name _. sat_apply sat_bind; [apply of_keys|].
  intros keys _. case_bool_decide; [by sat_leaf|].
  sat_apply sat_bind; [by apply of_create_dataset|].
  intros dset Hdset. by apply of_set_attrs.
Qed.

Lemma of_group_under h group :
  h_file h = f →
  sat (group_under h group) (only_file f) (λ _, True) (λ h, h_file h = f) (λ _, True).
Proof.
  intros Hh. unfold group_under.
  destruct (PyStr.truthy group); [|by sat_leaf].
  sat_apply sat_bind; [apply of_contains|].
  intros [] _; [by apply of_getitem|by apply of_create_group].
Qed.

Lemma of_close h : sat (h5_close h) (only_file f) (λ _, True) (λ _, True) (λ _, True).
Proof. unfold h5_close. by sat_apply sat_emit. Qed.

Lemma of_check : sat _check_h5py_installed (only_file f) (λ _, True) (λ _, True) (λ _, True).
Proof.
  unfold _check_h5py_installed. sat_gets. intros [] _; simpl; by sat_leaf.
Qed.
End one_file.

Lemma of_open_for_write p group append overwrite :
  sat (open_for_write p group append overwrite) (only_file p) (λ _, True)
    (λ fg, h_file fg.1 = p ∧ h_file fg.2 = p) (λ _, True).
Proof.
  assert (∀ m, sat (h5py_File p m) (only_file p) (λ _, True)
                 (λ h, h_file h = p) (λ _, True)) as Hfile.
  { intros m. unfold h5py_File. sat_gets. intros ex _.
    sat_apply sat_bind.
    { instantiate (1 := λ _, True).
      destruct m, ex; try by sat_leaf.
      all: sat_apply sat_modify; [|done]; intros w; split; [done|];
        intros q Hq; simpl; by rewrite lookup_insert_ne. }
    intros _ _.
    sat_apply sat_bind;
      [sat_apply sat_emit; [|instantiate (1 := λ _, True)]; done|].
    intros _ _. by sat_leaf. }
  unfold open_for_write.
  sat_apply sat_bind.
  { unfold os_path_exists.
    sat_apply sat_bind;
      [sat_apply sat_emit; [|instantiate (1 := λ _, True)]; done|].
    intros _ _. sat_apply sat_gets. instantiate (1 := λ _, True). done. }
  intros found _. sat_apply sat_bind.
  { instantiate (1 := λ _, True).
    destruct (found && negb append); [|by sat_leaf].
    destruct overwrite; [|by sat_leaf].
    unfold os_remove. sat_gets. intros [] _; [|by sat_leaf].
    sat_apply sat_bind; [|intros _ _; by sat_apply sat_emit].
    sat_apply sat_modify; [|instantiate (1 := λ _, True); done].
    intros w. split; [done|]. intros q Hq. simpl. by rewrite lookup_delete_ne. }
  intros _ _. rewrite get_group_unfold.
  sat_apply sat_bind; [destruct append; apply Hfile|].
  intros h Hh. sat_apply sat_bind.
  { instantiate (1 := λ g, h_file g = p). unfold group_in_file.
    destruct (PyStr.truthy group); [|by sat_leaf].
    destruct append; [|by apply of_create_group].
    sat_apply sat_bind; [apply of_keys|]. intros keys _.
    case_bool_decide; [by apply of_getitem|by apply of_create_group]. }
  intros g Hg. by sat_leaf.
Qed.

(** [write] and [write_set] change nothing but the file they are given,
    by name or as the file of the open handle: every other file is left
    exactly as it was, whatever the arguments and however the call
    ends. *)
Theorem writers_touch_one_file (self : Table.t) (tset : TableSet.t) filename
    p compression group append overwrite ignore_groups w q :
  let w1 :=
    (write self filename compression group append overwrite ignore_groups
       w).1.2 in
  let w2 :=
    (write_set tset p compression group append overwrite ignore_groups w).1.2 in
  (q ≠ h_file (target_handle filename) → fs w1 !! q = fs w !! q) ∧
  (q ≠ p → fs w2 !! q = fs w !! q).
Proof.
  intros w1 w2. split; intros Hq.
  - unfold w1.
    destruct (write _ _ _ _ _ _ _ _) as [[r w'] evs] eqn:Hrun. simpl.
    assert (sat (write self filename compression group append overwrite
                   ignore_groups)
              (only_file (h_file (target_handle filename)))
              (λ _, True) (λ _, True) (λ _, True)) as Hsat.
    { destruct filename as [p'|h]; simpl.
      - eapply sat_ext; [intros s; apply write_path_unfold|].
        sat_apply sat_bind; [apply of_check|]. intros _ _.
        sat_apply sat_bind; [apply of_open_for_write|].
        intros fg [Hf Hg].
        eapply sat_ext; [intros s; apply write_from_store|].
        sat_apply sat_bind; [by apply of_store_table|].
        intros _ _. apply of_close.
      - eapply sat_ext; [intros s; apply write_handle_unfold|].
        sat_apply sat_bind; [apply of_check|]. intros _ _.
        sat_apply sat_bind; [by apply of_group_under|].
        intros g Hg.
        eapply sat_ext; [intros s; apply write_from_store|].
        sat_apply sat_bind; [by apply of_store_table|].
        intros _ _. by sat_leaf. }
    destruct (Hsat _ _ _ _ Hrun) as ([_ Hframe] & _). by apply Hframe.
  - unfold w2.
    destruct (write_set _ _ _ _ _ _ _ _) as [[r w'] evs] eqn:Hrun. simpl.
    assert (sat (write_set tset p compression group append overwrite
                   ignore_groups)
              (only_file p) (λ _, True) (λ _, True) (λ _, True)) as Hsat.
    { eapply sat_ext; [intros s; apply write_set_unfold|].
      sat_apply sat_bind; [apply of_check|]. intros _ _.
      sat_apply sat_bind; [apply of_open_for_write|].
      intros fg [Hf Hg].
      sat_apply sat_bind; [by apply of_set_attrs|]. intros _ _.
      sat_apply sat_bind; [|intros _ _; apply of_close].
      sat_apply sat_for_each. intros [i tbl].
      rewrite write_set_table_store. by apply of_store_table. }
    destruct (Hsat _ _ _ _ Hrun) as ([_ Hframe] & _). by apply Hframe.
Qed.

Lemma writers_touch_one_file_witness :
  let t1 := Table.Mk "obs" (RecArray 1 [("x", [VInt 1])]) ∅ in
  let other := Group {["k" := VInt 7]} [("img", Dataset ∅ (Plain [VInt 0]))] in
  let w := World true {["g.h5" := other]} in
  fs (write t1 (TPath "f.h5") false "" false false false w).1.2 !! "g.h5"
    = Some other.
Proof.
  intros t1 other w.
  rewrite (proj1 (writers_touch_one_file t1 (TableSet.Mk [] ∅) (TPath "f.h5")
                    "f.h5" false "" false false false w "g.h5")).
  - vm_compute. reflexivity.
  - discriminate.
Defined.

(** ** Overwriting a file *)

Lemma open_for_write_overwrite p group overwrite w root :
  fs w !! p = Some root →
  open_for_write p group false true w =
  match open_for_write p group false overwrite
          (World (h5py_installed w) (delete p (fs w))) with
  | (r, w', evs) => (r, w', EvExists p :: EvRemove p :: tail evs)
  end.
Proof.
  intros Hroot. unfold open_for_write.
  rewrite !bind_run, !os_path_exists_run.
  rewrite bool_decide_eq_true_2 by eauto. cbn [andb negb fs].
  rewrite bool_decide_eq_false_2 by (rewrite lookup_delete_eq; by intros [??]).
  cbn [andb]. rewrite !bind_run, (os_remove_run _ _ _ Hroot).
  unfold mret at 1, M_ret at 1.
  by destruct (_get_group p group false _) as [[r w'] evs].
Qed.

(** [write] and [write_set] with [overwrite] on a file that exists do
    what they do on a filesystem without that file: the result and the
    state afterwards are the same, nothing of what the file held
    survives, and the calls are the same but for the removal of the file
    after the existence test. *)
Theorem overwrite_starts_afresh (self : Table.t) (tset : TableSet.t) p
    compression group overwrite ignore_groups w root :
  let w0 := World (h5py_installed w) (delete p (fs w)) in
  let fresh1 :=
    write self (TPath p) compression group false overwrite ignore_groups w0 in
  let fresh2 :=
    write_set tset p compression group false overwrite ignore_groups w0 in
  h5py_installed w = true → fs w !! p = Some root →
  write self (TPath p) compression group false true ignore_groups w =
    (fresh1.1.1, fresh1.1.2, EvExists p :: EvRemove p :: tail fresh1.2) ∧
  write_set tset p compression group false true ignore_groups w =
    (fresh2.1.1, fresh2.1.2, EvExists p :: EvRemove p :: tail fresh2.2).
Proof.
  intros w0 fresh1 fresh2 Hinst Hroot.
  assert (∀ tail : handle * handle → M world unit,
    (fg ← open_for_write p group false true; tail fg) w =
    match (fg ← open_for_write p group false overwrite; tail fg) w0 with
    | (r, w', evs) => (r, w', EvExists p :: EvRemove p :: List.tail evs)
    end) as Htail.
  { intros tail. rewrite !bind_run.
    rewrite (open_for_write_overwrite _ _ overwrite _ _ Hroot). fold w0.
    assert (∃ r w' evs, open_for_write p group false overwrite w0
                        = (r, w', EvExists p :: evs)) as (r & w' & evs & ->).
    { unfold open_for_write. rewrite bind_run, os_path_exists_run.
      match goal with
      | |- context [match ?x with _ => _ end] =>
          destruct x as [[[] ?] ?]; by eexists _, _, _
      end. }
    destruct r as [fg|e]; [|done]. simpl.
    by destruct (tail fg w') as [[r2 w2] e2]. }
  split.
  - unfold fresh1.
    rewrite !write_path_unfold, !bind_run.
    rewrite !check_h5py_installed_run by done.
    rewrite Htail.
    match goal with
    | |- context [match ?x with _ => _ end] => by destruct x as [[r w'] evs]
    end.
  - unfold fresh2.
    rewrite !write_set_unfold, !bind_run.
    rewrite !check_h5py_installed_run by done.
    rewrite (Htail (λ fg,
      for_each (map_to_list (TableSet.keywords tset)) (λ '(keyword, v),
        h5_set_attr fg.2 keyword v);;
      for_each (imap pair (TableSet.tables tset))
        (write_set_table fg.2 group compression ignore_groups);;
      h5_close fg.1)).
    match goal with
    | |- context [match ?x with _ => _ end] => by destruct x as [[r w'] evs]
    end.
Qed.

Lemma overwrite_starts_afresh_witness :
  let t1 := Table.Mk "obs" (RecArray 1 [("x", [VInt 1])]) ∅ in
  let old := Group {["k" := VInt 7]} [("old", Dataset ∅ (Plain [VInt 0]))] in
  write t1 (TPath "f.h5") false "" false true false
    (World true {["f.h5" := old]}) =
    (Ok (), World true {["f.h5" := Group ∅ [("obs", dataset_of t1)]]},
     [EvExists "f.h5"; EvRemove "f.h5"; EvOpen "f.h5" ModeW;
      EvCreateDataset (Handle "f.h5" []) "obs"; EvClose "f.h5"]).
Proof.
  intros t1 old.
  destruct (overwrite_starts_afresh t1 (TableSet.Mk [] ∅) "f.h5" false ""
              false false (World true {["f.h5" := old]}) old)
    as [-> _]; [reflexivity|vm_compute; reflexivity|].
  vm_compute. reflexivity.
Defined.

(** ** Two tables in one file *)

Lemma write_new_valid self p compression append overwrite ignore_groups w :
  let name := write_name "Table" ignore_groups self in
  h5py_installed w = true → fs w !! p = None →
  valid_name name = true → fields (Table.data self) ≠ [] →
  write self (TPath p) compression "" append overwrite ignore_groups w =
    (Ok (),
     World true (<[p := Group ∅ [(name, dataset_of self)]]> (fs w)),
     [EvExists p; EvOpen p (if append then ModeA else ModeW)] ++
     store_events (Handle p []) name self ++ [EvClose p]).
Proof.
  intros name Hinst Hp Hvalid Hfields.
  rewrite write_path_unfold, bind_run, check_h5py_installed_run by done.
  rewrite bind_run, open_for_write_new by done. cbn [fst snd].
  rewrite write_from_store, bind_run.
  rewrite (store_table_fresh _ _ _ _ _ ∅ []);
    [|done|done|apply not_elem_of_nil|done].
  unfold h5_close, emit. done.
Qed.

Lemma two_tables_discovered n1 n2 (d1 d2 : node) :
  valid_name n1 = true → valid_name n2 = true → n1 ≠ n2 →
  is_record d1 = true → is_record d2 = true →
  collect_tables (Group ∅ [(n1, d1); (n2, d2)])
    (map PyStr.join (descendants (Group ∅ [(n1, d1); (n2, d2)]))) ∅
  = {[n1 := n1; n2 := n2]}.
Proof.
  intros Hn1 Hn2 Hne Hd1 Hd2.
  pose proof Hn1 as [_ Hs1%negb_true_iff]%andb_true_iff.
  pose proof Hn2 as [_ Hs2%negb_true_iff]%andb_true_iff.
  assert (∀ n, n ∈ (map_to_list
             (collect_tables (Group ∅ [(n1, d1); (n2, d2)])
                (map PyStr.join (descendants (Group ∅ [(n1, d1); (n2, d2)])))
                ∅)).*1 ↔ n = n1 ∨ n = n2) as Hkeys.
  { intros n.
    rewrite (discovered_flat ∅ [(n1, d1); (n2, d2)]).
    - cbn [fmap list_fmap fst]. rewrite !elem_of_cons, elem_of_nil. tauto.
    - apply names_ok_group. split.
      + cbn [fmap list_fmap fst]. apply NoDup_cons. split.
        * by intros ->%list_elem_of_singleton.
        * apply NoDup_singleton.
      + repeat constructor; simpl; first [done|by destruct d1|by destruct d2].
    - by repeat constructor. }
  apply map_eq. intros k. apply option_eq. intros v.
  rewrite collect_tables_lookup by done. rewrite lookup_empty.
  split.
  - intros [?|(-> & _ & m & Hm & Hrec)]; [done|].
    assert (k = n1 ∨ k = n2) as [->| ->].
    { apply Hkeys, discovered_iff. eauto. }
    + by rewrite lookup_insert_eq.
    + by rewrite lookup_insert_ne, lookup_singleton_eq.
  - intros Hk.
    assert (v = k ∧ (k = n1 ∨ k = n2)) as [-> Hk'].
    { destruct (decide (k = n1)) as [->|Hk1].
      - rewrite lookup_insert_eq in Hk. injection Hk as <-. auto.
      - rewrite lookup_insert_ne in Hk by done.
        apply lookup_singleton_Some in Hk as [<- <-]. auto. }
    right. apply Hkeys, discovered_iff in Hk' as (m & Hm & Hrec).
    split_and!; [done| |eauto].
    apply list_elem_of_fmap. exists (PyStr.split k).
    split; [by rewrite PyStrFacts.join_split|].
    eapply resolve_descendants; [apply PyStrFacts.split_not_nil|done].
Qed.

(** A second table added with [append] to the file of a first.  Both
    have at least one column and resolve to valid member names that
    differ.  Both writes return normally and the file holds the two
    datasets in the order written.  [read] without a table name then
    fails with the ambiguity error that carries both names, leaving the
    file open; [read] with either name returns that table. *)
Theorem append_second_table t1 t2 other p compression append overwrite
    ignore_groups verbose w :
  let n1 := write_name "Table" ignore_groups t1 in
  let n2 := write_name "Table" ignore_groups t2 in
  let w1 := World true (<[p := Group ∅ [(n1, dataset_of t1)]]> (fs w)) in
  let w2 :=
    World true
      (<[p := Group ∅ [(n1, dataset_of t1); (n2, dataset_of t2)]]> (fs w)) in
  h5py_installed w = true → fs w !! p = None →
  valid_name n1 = true → valid_name n2 = true → n1 ≠ n2 →
  recarray_ok (Table.data t1) = true → fields (Table.data t1) ≠ [] →
  recarray_ok (Table.data t2) = true → fields (Table.data t2) ≠ [] →
  (∃ evs, write t1 (TPath p) compression "" append overwrite ignore_groups w
          = (Ok (), w1, evs)) ∧
  (∃ evs, write t2 (TPath p) compression "" true overwrite ignore_groups w1
          = (Ok (), w2, evs)) ∧
  read (TPath p) None verbose (other, w2) =
    (Raise (TableException {[n1 := n1; n2 := n2]}), (Table.reset other, w2),
     [EvExists p; EvOpen p ModeA]) ∧
  read (TPath p) (Some n1) verbose (other, w2) =
    (Ok (), (Table.Mk n1 (Table.data t1) ∅, w2),
     [EvExists p; EvOpen p ModeA; EvClose p]) ∧
  read (TPath p) (Some n2) verbose (other, w2) =
    (Ok (), (Table.Mk n2 (Table.data t2) ∅, w2),
     [EvExists p; EvOpen p ModeA; EvClose p]).
Proof.
  intros n1 n2 w1 w2 Hinst Hp Hn1 Hn2 Hne Hr1 Hf1 Hr2 Hf2.
  pose proof Hn1 as [_ Hs1%negb_true_iff]%andb_true_iff.
  pose proof Hn2 as [_ Hs2%negb_true_iff]%andb_true_iff.
  assert (is_record (dataset_of t1) = true) as Hrec1
    by (simpl; by destruct (fields (Table.data t1))).
  assert (is_record (dataset_of t2) = true) as Hrec2
    by (simpl; by destruct (fields (Table.data t2))).
  set (ms := [(n1, dataset_of t1); (n2, dataset_of t2)]).
  assert (node_at w2 (Handle p []) = Some (Group ∅ ms)) as Hg
    by (unfold node_at, w2; simpl; by rewrite lookup_insert_eq).
  assert (names_ok (Group ∅ ms) = true) as Hok.
  { apply names_ok_group. split.
    - cbn [ms fmap list_fmap fst]. apply NoDup_cons. split.
      + by intros ->%list_elem_of_singleton.
      + apply NoDup_singleton.
    - by repeat constructor. }
  assert (datasets_ok (Group ∅ ms) = true) as Hdok
    by (simpl; by rewrite Hr1, Hr2).
  split_and!.
  - eexists. by apply write_new_valid.
  - eexists.
    destruct (write_fresh_name t2 (TPath p) compression true overwrite
                ignore_groups (fs w) (Group ∅ [(n1, dataset_of t1)]) ∅
                [(n1, dataset_of t1)]) as (Hrun & _);
      [done|done|done| |done|exact Hrun].
    cbn [fmap list_fmap fst]. intros Heq%list_elem_of_singleton.
    by apply Hne.
  - rewrite (read_run_from (TPath p) None verbose other w2 ∅ ms eq_refl Hg).
    destruct (read_from_discovered (Some (Handle p [])) (Handle p [])
                (Table.reset other) w2 ∅ ms Hg Hok Hdok)
      as (tables & Htables & Hread).
    rewrite (list_tables_run _ _ _ _ Hg Hok) in Htables.
    assert (tables = {[n1 := n1; n2 := n2]}) as ->.
    { rewrite <- (two_tables_discovered n1 n2 (dataset_of t1) (dataset_of t2))
        by done.
      fold ms. congruence. }
    cbn [target_handle] in *.
    destruct (read_from _ _ _ _) as [[[[]|e] [self' w']] evs].
    + destruct Hread as (_ & _ & key & _ & _ & Htab & _). exfalso.
      apply (f_equal size) in Htab.
      rewrite map_size_insert, map_size_singleton, lookup_singleton_ne in Htab
        by done.
      by rewrite map_size_singleton in Htab.
    + by destruct Hread as (_ & -> & -> & -> & ->).
  - apply (read_by_name_run _ (TPath p) n1 verbose w2 ∅ ms
             (Table.keywords t1));
      [done|done|by apply valid_name_truthy| |done].
    rewrite (h5_lookup_name _ _ _ _ _ Hg) by done. unfold ms. simpl.
    by rewrite decide_True.
  - apply (read_by_name_run _ (TPath p) n2 verbose w2 ∅ ms
             (Table.keywords t2));
      [done|done|by apply valid_name_truthy| |done].
    rewrite (h5_lookup_name _ _ _ _ _ Hg) by done. unfold ms. simpl.
    by rewrite decide_False, decide_True.
Qed.

Lemma append_second_table_witness :
  let t1 := Table.Mk "obs" (RecArray 1 [("x", [VInt 1])]) ∅ in
  let t2 := Table.Mk "" (RecArray 1 [("y", [VInt 2])]) ∅ in
  let w2 :=
    World true
      {["f.h5" := Group ∅ [("obs", dataset_of t1); ("Table", dataset_of t2)]]} in
  read (TPath "f.h5") None true (Table.new, w2) =
    (Raise (TableException {["obs" := "obs"; "Table" := "Table"]}),
     (Table.new, w2), [EvExists "f.h5"; EvOpen "f.h5" ModeA]).
Proof.
  intros t1 t2 w2.
  apply (append_second_table t1 t2 Table.new "f.h5" false false false false
           true (World true ∅));
    first [reflexivity | discriminate].
Defined.

(** ** The errors of the entry points *)

Lemma read_existing_events p table verbose self w root :
  h5py_installed w = true → fs w !! p = Some root →
  ∃ evs, (read (TPath p) table verbose (self, w)).2
         = EvExists p :: EvOpen p ModeA :: evs.
Proof.
  intros Hinst Hroot.
  rewrite read_unfold, bind_run, on_world_run.
  rewrite check_h5py_installed_run by done.
  rewrite bind_run. unfold on_self at 1. rewrite bind_run.
  rewrite bind_run, on_world_run, os_path_exists_run.
  rewrite bool_decide_eq_true_2 by eauto. cbn [negb].
  rewrite bind_run, on_world_run, (h5py_File_existing _ _ _ Hroot).
  rewrite bind_run. unfold on_world at 1, h5_root at 1.
  unfold mret at 1 2, M_ret at 1 2. cbn [fst snd h_file].
  destruct (read_from _ _ _ _) as [[r0 s0] e0]. simpl. eauto.
Qed.

Lemma read_raises filename table verbose self w e s evs :
  read filename table verbose (self, w) = (Raise e, s, evs) →
  e = H5pyRequired ∨
  (∃ q, filename = TPath q ∧ e = FileNotFound q ∧ fs w !! q = None) ∨
  (table = None ∧ ∃ tables, e = TableException tables) ∨
  is_backend e.
Proof.
  intros Hrun. destruct s as [self' w']. pose proof Hrun as Hinv.
  apply read_inv in Hinv as (-> & Hno & Hyes).
  destruct (h5py_installed w) eqn:Hinst.
  2:{ destruct Hno as ([= ->] & _); auto. }
  specialize (Hyes eq_refl). destruct filename as [q|h].
  - destruct Hyes as [(-> & _ & ->)|(_ & [He|(-> & _ & He)])]; [|auto..].
    right. left. exists q. split_and!; [done..|].
    destruct (fs w !! q) as [root|] eqn:Hroot; [|done].
    destruct (read_existing_events q table verbose self w root Hinst Hroot)
      as [evs' Hevs].
    rewrite Hrun in Hevs. done.
  - destruct Hyes as (_ & [He|(-> & _ & He)]); auto.
Qed.

Lemma read_set_raises p pedantic verbose (self : TableSet.t) w e s evs :
  read_set p pedantic verbose (self, w) = (Raise e, s, evs) →
  e = H5pyRequired ∨ is_backend e.
Proof.
  unfold read_set. rewrite bind_run, on_world_run.
  destruct (h5py_installed w) eqn:Hinst.
  2:{ unfold _check_h5py_installed. unfold_M. rewrite Hinst. simpl.
      intros [= <- <- <-]. by left. }
  rewrite check_h5py_installed_run by done.
  rewrite bind_run. unfold on_self at 1.
  rewrite bind_run, on_world_run.
  destruct (fs w !! p) as [root|] eqn:Hroot.
  2:{ rewrite (h5py_File_R_missing _ _ Hroot). intros [= <- <- <-]. by right. }
  rewrite (h5py_File_R_existing _ _ _ Hroot).
  rewrite bind_run, on_world_run. unfold h5_attrs at 1.
  rewrite bind_run. unfold gets at 1.
  assert (node_at w (Handle p []) = Some root) as Hg
    by (unfold node_at; simpl; by rewrite Hroot).
  rewrite Hg. unfold mret at 1, M_ret at 1.
  rewrite bind_run, set_keywords_run.
  rewrite bind_run. unfold on_world at 1, h5_close at 1, emit at 1.
  rewrite bind_run, on_world_run, bind_run, (h5py_File_existing _ _ _ Hroot).
  destruct (_list_tables (Handle p []) w) as [[rt wt] et] eqn:Hlist.
  assert (wt = w ∧ match rt with Ok _ => True | Raise e => is_backend e end)
    as [-> Hrt].
  { by destruct (sat_ro_list_tables eq (λ _, True) is_backend ltac:(done)
                   _ _ _ _ _ Hlist) as (-> & _ & ?). }
  destruct rt as [tables|e0].
  2:{ intros [= <- <- <-]. by right. }
  generalize ((map_to_list tables).*1). intros keys.
  generalize ([EvOpen p ModeR] ++ [] ++ [EvClose p] ++ [EvOpen p ModeA] ++ []).
  generalize (TableSet.Mk (TableSet.tables (TableSet.reset self))
                (foldl (λ a kv, <[kv.1 := kv.2]> a)
                   (TableSet.keywords (TableSet.reset self))
                   (map_to_list (node_attrs root)))).
  intros s0 pre. revert s0 pre s evs. unfold for_each.
  induction keys as [|key keys IH]; intros s0 pre s evs.
  - by intros [= <- <-].
  - cbn [foldM]. rewrite !bind_run. unfold with_local at 1.
    destruct (read (TPath p) (Some key) verbose (Table.new, w))
      as [[rr [tr wr]] er] eqn:Hread.
    pose proof Hread as (-> & _)%read_inv.
    destruct rr as [[]|e1].
    + unfold on_self at 1.
      destruct (foldM _ () keys _) as [[r2 [s2 w2]] e2] eqn:Hrest.
      intros [= -> <- <-].
      eapply (IH _ []). by rewrite Hrest.
    + intros [= -> <- <-].
      apply read_raises in Hread
        as [->|[(q & [= <-] & -> & Hq)|[([=] & _)|He]]]; auto.
      congruence.
Qed.

Lemma writers_raise (self : Table.t) (tset : TableSet.t) filename p
    compression group append overwrite ignore_groups w e w' evs :
  write self filename compression group append overwrite ignore_groups w
    = (Raise e, w', evs) ∧ (∀ q, filename = TPath q → q = p) ∨
  write_set tset p compression group append overwrite ignore_groups w
    = (Raise e, w', evs) ∧ filename = TPath p →
  e = H5pyRequired ∨
  (filename = TPath p ∧ e = FileExists p ∧ is_Some (fs w !! p) ∧
   append = false ∧ overwrite = false) ∨
  (∃ name, e = TableAlreadyExists group name) ∨
  is_backend e.
Proof.
  intros Hrun.
  destruct (h5py_installed w) eqn:Hinst.
  2:{ left.
      assert (∀ A (m : M world A),
        (_check_h5py_installed ≫= λ _, m) w = (Raise H5pyRequired, w, []))
        as Hno.
      { intros A m. rewrite bind_run. unfold _check_h5py_installed. unfold_M.
        by rewrite Hinst. }
      destruct Hrun as [[Hrun _]|[Hrun _]]; revert Hrun.
      - unfold write. rewrite Hno. by intros [= <- _ _].
      - unfold write_set. rewrite Hno. by intros [= <- _ _]. }
  right.
  set (E := λ e : exn,
         (∃ name, e = TableAlreadyExists group name) ∨ is_backend e).
  assert (∀ b, E (BackendError b)) as HEb by (intros b; by right).
  assert (∀ name, E (TableAlreadyExists group name)) as HEx
    by (intros name; left; eauto).
  assert (∀ (tail : handle * handle → M world unit),
    (∀ fg, sat (tail fg) evolves (λ _, True) (λ _, True) E) →
    (fg ← open_for_write p group append overwrite; tail fg) w
      = (Raise e, w', evs) →
    (e = FileExists p ∧ is_Some (fs w !! p) ∧
     append = false ∧ overwrite = false) ∨ E e) as Hpath.
  { intros tail Htail
      [(fg & w1 & e1 & e2 & Hopen & Hrest & ->)|(e0 & Hopen & [= <-])]%bind_inv.
    - right. by destruct (Htail _ _ _ _ _ Hrest) as (_ & _ & Hr).
    - apply open_for_write_inv in Hopen. cbv zeta in Hopen.
      destruct (bool_decide _) eqn:Hex; simpl in Hopen.
      + destruct append, overwrite; simpl in Hopen;
          try (destruct Hopen as (? & _ & _ & _ & _ & _ & _ & He);
               right; by right).
        destruct Hopen as ([= ->] & _). left.
        split_and!; [done| |done..]. by apply bool_decide_eq_true_1 in Hex.
      + destruct Hopen as (? & _ & _ & _ & _ & _ & _ & He). right. by right. }
  destruct Hrun as [[Hrun Hp]|[Hrun ->]].
  - destruct filename as [q|h].
    + rewrite (Hp q eq_refl) in *.
      rewrite write_path_unfold, bind_run, check_h5py_installed_run in Hrun
        by done.
      apply run_after_silent in Hrun.
      apply Hpath in Hrun as [?|He]; [by left|by right|].
      intros fg. by apply sat_write_from.
    + rewrite write_handle_unfold, bind_run, check_h5py_installed_run in Hrun
        by done.
      apply run_after_silent in Hrun.
      assert (sat (g ← group_under h group;
                   write_from self None g group compression ignore_groups)
                evolves (λ _, True) (λ _, True) E) as Hsat.
      { sat_apply sat_bind; [by apply sat_group_under|].
        intros g _. by apply sat_write_from. }
      destruct (Hsat _ _ _ _ Hrun) as (_ & _ & Hr). by right.
  - rewrite write_set_unfold, bind_run, check_h5py_installed_run in Hrun
      by done.
    apply run_after_silent in Hrun.
    apply Hpath in Hrun as [?|He]; [by left|by right|].
    intros fg. by apply sat_write_set_tail.
Qed.

(** The errors each entry point can raise.  [read] raises the
    backend-required error, the file-not-found error (only for a file
    name, and only when no such file exists), the ambiguity error (only
    when no table name was given) or an error of the backend.  [read_set]
    raises the backend-required error or an error of the backend: it has
    no file-not-found error of its own and, naming every table it reads,
    no ambiguity error.  [write] and [write_set] raise the
    backend-required error, the file-exists error (only for a file name
    that exists, without [append] and without [overwrite]), the
    table-exists error for the requested group, or an error of the
    backend. *)
Theorem raised_errors (self : Table.t) (tset : TableSet.t) filename p table
    pedantic verbose compression group append overwrite ignore_groups w e :
  ((read filename table verbose (self, w)).1.1 = Raise e →
   e = H5pyRequired ∨
   (∃ q, filename = TPath q ∧ e = FileNotFound q ∧ fs w !! q = None) ∨
   (table = None ∧ ∃ tables, e = TableException tables) ∨
   is_backend e) ∧
  ((read_set p pedantic verbose (tset, w)).1.1 = Raise e →
   e = H5pyRequired ∨ is_backend e) ∧
  ((write self filename compression group append overwrite ignore_groups
      w).1.1 = Raise e →
   e = H5pyRequired ∨
   (∃ q, filename = TPath q ∧ e = FileExists q ∧ is_Some (fs w !! q) ∧
         append = false ∧ overwrite = false) ∨
   (∃ name, e = TableAlreadyExists group name) ∨
   is_backend e) ∧
  ((write_set tset p compression group append overwrite ignore_groups
      w).1.1 = Raise e →
   e = H5pyRequired ∨
   (e = FileExists p ∧ is_Some (fs w !! p) ∧
    append = false ∧ overwrite = false) ∨
   (∃ name, e = TableAlreadyExists group name) ∨
   is_backend e).
Proof.
  split_and!.
  - destruct (read _ _ _ _) as [[r s] evs] eqn:Hrun. simpl. intros ->.
    by eapply read_raises.
  - destruct (read_set _ _ _ _) as [[r s] evs] eqn:Hrun. simpl. intros ->.
    by eapply read_set_raises.
  - destruct (write _ _ _ _ _ _ _ _) as [[r w'] evs] eqn:Hrun. simpl.
    intros ->. destruct filename as [q|h].
    + destruct (writers_raise self tset (TPath q) q compression group append
                  overwrite ignore_groups w e w' evs) as [?|[?|[?|?]]]; auto.
      * left. split; [done|]. by intros ? [= ->].
      * right. left. exists q. tauto.
    + destruct (writers_raise self tset (THandle h) p compression group append
                  overwrite ignore_groups w e w' evs)
        as [?|[([=] & _)|[?|?]]]; auto.
      left. split; [done|]. by intros ? [=].
  - destruct (write_set _ _ _ _ _ _ _ _) as [[r w'] evs] eqn:Hrun. simpl.
    intros ->.
    destruct (writers_raise self tset (TPath p) p compression group append
                overwrite ignore_groups w e w' evs) as [?|[?|[?|?]]]; auto.
    right. left. tauto.
Qed.

Lemma raised_errors_witness :
  let t1 := Table.Mk "obs" (RecArray 1 [("x", [VInt 1])]) ∅ in
  let w := World true {["f.h5" := Group ∅ []]} in
  FileExists "f.h5" = H5pyRequired ∨
  (∃ q, TPath "f.h5" = TPath q ∧ FileExists "f.h5" = FileExists q ∧
        is_Some (fs w !! q) ∧ false = false ∧ false = false) ∨
  (∃ name, FileExists "f.h5" = TableAlreadyExists "" name) ∨
  is_backend (FileExists "f.h5").
Proof.
  intros t1 w.
  destruct (raised_errors t1 (TableSet.Mk [] ∅) (TPath "f.h5") "f.h5" None
              false true false "" false false false w (FileExists "f.h5"))
    as (_ & _ & Hwrite & _).
  apply Hwrite. vm_compute. reflexivity.
Defined.

(** ** Table sets and files that exist *)





(** ** Two tables in one group *)



